(** * Clinic queue service: admission, OTP verification and ticket lifecycle

    A shallow embedding of [crud.py] and [routers/apiRouter.py] over the
    tables declared in [models.py].

    - A table is the list of its rows in storage order; [query.first()] is
      the first row that passes the filter, together with its index, and an
      attribute assignment followed by [commit] rewrites the row at that
      index.
    - Primary keys come from one sequence per table, kept in the database
      state; as in PostgreSQL a sequence value that was drawn is not given
      back when the transaction rolls back. The sequences are taken to run
      ahead of the stored keys, so an insert does not collide on a primary
      key or on the unique [visit_id] of a ticket. The constraints that a
      request can violate are modelled: the foreign keys of a visit, the
      unique phone number of a patient, and the length of the phone number
      that [send_otp] stores for a caller it has not looked up.
    - Clock reads, random draws and the text of an exception are inputs of
      every handler ([Env]).
    - Work that is not committed when a handler returns or raises is
      discarded, because the session is closed by [get_db].
    - Columns that no endpoint reads or assigns are left out of the rows.
      Strings are ASCII. The GET endpoints only read: the clinician's queue
      and the appointment status are modelled as functions of the database,
      the patient search is not. *)

From Stdlib Require Import ZArith Lia DecimalString.
From stdpp Require Import base option list strings.

Local Open Scope Z_scope.

(** ** Dates and times *)

(** A [datetime] is a number of seconds, a [date] a number of days. *)
Definition datetime := Z.
Definition date := Z.

Definition date_of (t : datetime) : date := t `div` 86400.
Definition minutes (n : Z) : Z := 60 * n.

(** ** models.py *)

Module QueueTicket.
Record t := mk {
  ticket_id : Z;
  visit_id : Z;
  queue_date : date;
  queue_status : string;
  queue_position : Z;
  estimated_wait_time : option Z;
  called_at : option datetime;
  started_at : option datetime;
  completed_at : option datetime;
  updated_at : option datetime
}.

Definition set_queue_status (s : string) (r : t) : t :=
  mk (ticket_id r) (visit_id r) (queue_date r) s (queue_position r)
     (estimated_wait_time r) (called_at r) (started_at r) (completed_at r)
     (updated_at r).
Definition set_called_at (d : datetime) (r : t) : t :=
  mk (ticket_id r) (visit_id r) (queue_date r) (queue_status r)
     (queue_position r) (estimated_wait_time r) (Some d) (started_at r)
     (completed_at r) (updated_at r).
Definition set_started_at (d : datetime) (r : t) : t :=
  mk (ticket_id r) (visit_id r) (queue_date r) (queue_status r)
     (queue_position r) (estimated_wait_time r) (called_at r) (Some d)
     (completed_at r) (updated_at r).
Definition set_completed_at (d : datetime) (r : t) : t :=
  mk (ticket_id r) (visit_id r) (queue_date r) (queue_status r)
     (queue_position r) (estimated_wait_time r) (called_at r) (started_at r)
     (Some d) (updated_at r).
Definition set_updated_at (d : datetime) (r : t) : t :=
  mk (ticket_id r) (visit_id r) (queue_date r) (queue_status r)
     (queue_position r) (estimated_wait_time r) (called_at r) (started_at r)
     (completed_at r) (Some d).

#[global] Instance eq_dec : EqDecision t.
Proof. solve_decision. Defined.
End QueueTicket.

Module Visit.
Record t := mk {
  visit_id : Z;
  patient_id : Z;
  department_id : option Z;
  doctor_id : option Z;
  visit_date : date;
  check_in_datetime : option datetime;
  check_in_method : string;
  visit_status : string;
  completed_datetime : option datetime;
  updated_at : option datetime
}.

Definition set_visit_status (s : string) (r : t) : t :=
  mk (visit_id r) (patient_id r) (department_id r) (doctor_id r)
     (visit_date r) (check_in_datetime r) (check_in_method r) s
     (completed_datetime r) (updated_at r).
Definition set_completed_datetime (d : datetime) (r : t) : t :=
  mk (visit_id r) (patient_id r) (department_id r) (doctor_id r)
     (visit_date r) (check_in_datetime r) (check_in_method r)
     (visit_status r) (Some d) (updated_at r).
Definition set_updated_at (d : datetime) (r : t) : t :=
  mk (visit_id r) (patient_id r) (department_id r) (doctor_id r)
     (visit_date r) (check_in_datetime r) (check_in_method r)
     (visit_status r) (completed_datetime r) (Some d).

#[global] Instance eq_dec : EqDecision t.
Proof. solve_decision. Defined.
End Visit.

Module OTPVerification.
Record t := mk {
  otp_id : Z;
  phone_number : string;
  otp_code : string;
  is_verified : bool;
  is_expired : bool;
  retry_count : Z;
  max_attempts : Z;
  patient_id : option Z;
  created_at : option datetime;
  verified_at : option datetime;
  expires_at : datetime;
  updated_at : option datetime
}.

Definition set_is_verified (b : bool) (r : t) : t :=
  mk (otp_id r) (phone_number r) (otp_code r) b (is_expired r)
     (retry_count r) (max_attempts r) (patient_id r) (created_at r)
     (verified_at r) (expires_at r) (updated_at r).
Definition set_is_expired (b : bool) (r : t) : t :=
  mk (otp_id r) (phone_number r) (otp_code r) (is_verified r) b
     (retry_count r) (max_attempts r) (patient_id r) (created_at r)
     (verified_at r) (expires_at r) (updated_at r).
Definition set_retry_count (n : Z) (r : t) : t :=
  mk (otp_id r) (phone_number r) (otp_code r) (is_verified r) (is_expired r)
     n (max_attempts r) (patient_id r) (created_at r)
     (verified_at r) (expires_at r) (updated_at r).
Definition set_verified_at (d : datetime) (r : t) : t :=
  mk (otp_id r) (phone_number r) (otp_code r) (is_verified r) (is_expired r)
     (retry_count r) (max_attempts r) (patient_id r) (created_at r)
     (Some d) (expires_at r) (updated_at r).
Definition set_updated_at (d : datetime) (r : t) : t :=
  mk (otp_id r) (phone_number r) (otp_code r) (is_verified r) (is_expired r)
     (retry_count r) (max_attempts r) (patient_id r) (created_at r)
     (verified_at r) (expires_at r) (Some d).
End OTPVerification.

Module Patient.
Record t := mk {
  patient_id : Z;
  first_name : string;
  last_name : string;
  phone_number : string;
  date_of_birth : option date;
  is_active : bool
}.
End Patient.

Module Department.
Record t := mk {
  department_id : Z;
  department_name : string;
  average_service_time : option Z
}.
End Department.

Module Doctor.
Record t := mk {
  doctor_id : Z;
  department_id : option Z;
  is_active : bool
}.
End Doctor.

(** ** The database behind a [Session] *)

Record Db := mkDb {
  patients : list Patient.t;
  departments : list Department.t;
  doctors : list Doctor.t;
  visits : list Visit.t;
  queue_tickets : list QueueTicket.t;
  otp_verifications : list OTPVerification.t;
  patients_seq : Z;
  visits_seq : Z;
  queue_tickets_seq : Z;
  otp_verifications_seq : Z
}.

Definition with_patients (l : list Patient.t) (seq : Z) (db : Db) : Db :=
  mkDb l (departments db) (doctors db) (visits db) (queue_tickets db)
       (otp_verifications db) seq (visits_seq db) (queue_tickets_seq db)
       (otp_verifications_seq db).
Definition with_visits (l : list Visit.t) (seq : Z) (db : Db) : Db :=
  mkDb (patients db) (departments db) (doctors db) l (queue_tickets db)
       (otp_verifications db) (patients_seq db) seq (queue_tickets_seq db)
       (otp_verifications_seq db).
Definition with_queue_tickets (l : list QueueTicket.t) (seq : Z) (db : Db) : Db :=
  mkDb (patients db) (departments db) (doctors db) (visits db) l
       (otp_verifications db) (patients_seq db) (visits_seq db) seq
       (otp_verifications_seq db).
Definition with_otp_verifications (l : list OTPVerification.t) (seq : Z)
    (db : Db) : Db :=
  mkDb (patients db) (departments db) (doctors db) (visits db)
       (queue_tickets db) l (patients_seq db) (visits_seq db)
       (queue_tickets_seq db) seq.

(** Exceptions that the handlers can meet. *)
Inductive Exception :=
  | TypeError_int_NoneType
  | IntegrityError (constraint : string)
  | DataError (column : string).

(** What a handler reads from outside the database: the three clocks
    ([datetime.utcnow()], [datetime.now()] and the server's [func.now()]),
    the random draws, and the text [str(e)] of an exception. *)
Record Env := mkEnv {
  utcnow : datetime;
  now : datetime;
  func_now : datetime;
  randint_1000_9999 : Z;
  choices_digits_6 : string;
  str_e : Exception → string
}.

(** [date.today()] and [datetime.utcnow().date()]. *)
Definition date_today (env : Env) : date := date_of (now env).
Definition utc_today (env : Env) : date := date_of (utcnow env).

(** A column declared with [onupdate=func.now()]: the server stamps it when
    an UPDATE is issued, that is when the row has changed, unless the
    handler assigned the column itself. *)
Definition onupdate {A : Type} `{EqDecision A}
    (set_updated_at : datetime → A → A) (env : Env) (old new : A) : A :=
  if decide (old = new) then new else set_updated_at (func_now env) new.

(** A handler that assigns [updated_at] itself, on a table whose column is a
    plain [DateTime]. At the flush the unit of work compares the assigned
    value with the loaded one and writes the column only when they differ.
    An assigned value equal to the stored one is therefore left out of the
    UPDATE, and the column is stamped by [onupdate] like that of any other
    changed row. [new] is the row after the handler's other assignments.
    The columns of the OTP table are declared [DateTime(timezone=True)]:
    the loaded value carries a time zone, the assigned one does not, the
    two never compare equal and the assignment is always written. *)
Definition assign_updated_at {A : Type} `{EqDecision A}
    (updated_at : A → option datetime) (set_updated_at : datetime → A → A)
    (env : Env) (value : datetime) (old new : A) : A :=
  if decide (updated_at old = Some value)
  then onupdate set_updated_at env old new
  else set_updated_at value new.

(** SQL [MAX]: [NULL] over no rows. *)
Definition func_max (l : list Z) : option Z :=
  foldr (λ x acc, Some (match acc with None => x | Some m => Z.max x m end))
        None l.

(** Python's [str] of an [int]. *)
Definition str_int (z : Z) : string := NilZero.string_of_int (Z.to_int z).

(** A text bound to a [VARCHAR(n)] column. PostgreSQL refuses a text of more
    than [n] characters, unless the characters beyond the [n]-th are all
    spaces: these it cuts off. [None] is the refusal. *)
Fixpoint only_spaces (s : string) : bool :=
  match s with
  | String c s' => (Ascii.N_of_ascii c =? 32)%N && only_spaces s'
  | EmptyString => true
  end.
Definition varchar (n : nat) (s : string) : option string :=
  if (String.length s <=? n)%nat then Some s
  else if only_spaces (String.substring n (String.length s - n) s)
  then Some (String.substring 0 n s)
  else None.

(** ** schemas.py *)

Module schemas.
Record AppointmentStartRequest := mkAppointmentStartRequest {
  asr_ticket_id : Z;
  asr_doctor_id : option Z
}.

Record OTPVerifyRequest := mkOTPVerifyRequest {
  phone_number : string;
  otp_code : string;
  department_id : option Z;
  doctor_id : option Z;
  check_in_method : string
}.

Record QRCheckInRequest := mkQRCheckInRequest {
  qr_phone_number : string;
  qr_code_value : string;
  first_name : option string;
  last_name : option string;
  date_of_birth : option date
}.

Record SMSCheckinRequest := mkSMSCheckinRequest {
  sms_phone_number : string;
  message_body : string
}.

(** [str.isdigit] on an ASCII string: not empty and only '0'..'9'. *)
Definition is_digit (c : Ascii.ascii) : bool :=
  let n := Ascii.N_of_ascii c in ((48 <=? n) && (n <=? 57))%N.
Definition isdigit (s : string) : bool :=
  negb (String.eqb s "") && forallb is_digit (String.list_ascii_of_string s).

Definition validate_otp_code (v : string) : bool :=
  negb (negb (isdigit v) || negb (String.length v =? 6)%nat).
Definition validate_phone_number (v : string) : bool :=
  negb (String.eqb v "" || (String.length v <? 10)%nat).
Definition OTPVerifyRequest_validators (r : OTPVerifyRequest) : bool :=
  validate_otp_code (otp_code r) && validate_phone_number (phone_number r).
End schemas.

(** ** Queries shared by the handlers *)

Definition ticket_by_id (db : Db) (id : Z) : option (nat * QueueTicket.t) :=
  list_find (λ t, QueueTicket.ticket_id t = id) (queue_tickets db).

Definition ticket_by_visit (db : Db) (vid : Z) : option (nat * QueueTicket.t) :=
  list_find (λ t, QueueTicket.visit_id t = vid) (queue_tickets db).

Definition visit_by_id (db : Db) (id : Z) : option (nat * Visit.t) :=
  list_find (λ v, Visit.visit_id v = id) (visits db).

Definition patient_by_id (db : Db) (id : option Z) : option (nat * Patient.t) :=
  list_find (λ p, Some (Patient.patient_id p) = id) (patients db).

Definition active_patient_by_phone (db : Db) (phone : string)
    : option (nat * Patient.t) :=
  list_find (λ p, Patient.phone_number p = phone ∧ Patient.is_active p = true)
            (patients db).

Definition department_by_id (db : Db) (id : option Z)
    : option (nat * Department.t) :=
  list_find (λ d, Some (Department.department_id d) = id) (departments db).

(** Foreign keys of a [Visit] row: [NULL] or the key of a stored row. *)
Definition fk_department (db : Db) (id : option Z) : bool :=
  match id with
  | None => true
  | Some d => bool_decide (d ∈ Department.department_id <$> departments db)
  end.
Definition fk_doctor (db : Db) (id : option Z) : bool :=
  match id with
  | None => true
  | Some d => bool_decide (d ∈ Doctor.doctor_id <$> doctors db)
  end.

(** ** crud.py *)

Module crud.
Import schemas.

Record StartData := mkStartData {
  sd_ticket_id : Z;
  sd_visit_id : Z;
  sd_patient_name : string;
  sd_queue_status : string;
  sd_started_at : datetime
}.

Record CheckinData := mkCheckinData {
  cd_patient_id : Z;
  cd_visit_id : Z;
  cd_ticket_id : option Z;
  cd_queue_position : option Z;
  cd_estimated_wait_time : option Z
}.

(** The [(success, message, data)] triple; [None] is the empty dict. *)
Definition Result (A : Type) : Type := bool * string * option A.

Definition start_appointment (env : Env) (db : Db)
    (request : AppointmentStartRequest) : Db * Result StartData :=
  match ticket_by_id db (asr_ticket_id request) with
  | None => (db, (false, "Queue ticket not found", None))
  | Some (i, ticket) =>
    if negb (bool_decide
               (QueueTicket.queue_status ticket ∈ ["WAITING"; "CALLED"]))
    then (db, (false, "Cannot start appointment. Current status: "
                        +:+ QueueTicket.queue_status ticket, None))
    else
      match visit_by_id db (QueueTicket.visit_id ticket) with
      | None => (db, (false, "Visit not found", None))
      | Some (j, visit) =>
        match patient_by_id db (Some (Visit.patient_id visit)) with
        | None => (db, (false, "Patient not found", None))
        | Some (_, patient) =>
          let patient_name :=
            Patient.first_name patient +:+ " " +:+ Patient.last_name patient in
          let ticket :=
            assign_updated_at QueueTicket.updated_at QueueTicket.set_updated_at
              env (utcnow env) ticket
              (QueueTicket.set_started_at (utcnow env)
                 (QueueTicket.set_queue_status "IN_PROGRESS" ticket)) in
          let visit :=
            assign_updated_at Visit.updated_at Visit.set_updated_at
              env (utcnow env) visit
              (Visit.set_visit_status "IN_PROGRESS" visit) in
          let db :=
            with_visits (<[j := visit]> (visits db)) (visits_seq db)
              (with_queue_tickets (<[i := ticket]> (queue_tickets db))
                 (queue_tickets_seq db) db) in
          (db, (true, "Appointment started successfully",
                Some {| sd_ticket_id := QueueTicket.ticket_id ticket;
                        sd_visit_id := Visit.visit_id visit;
                        sd_patient_name := patient_name;
                        sd_queue_status := QueueTicket.queue_status ticket;
                        sd_started_at := utcnow env |}))
        end
      end
  end.

(** Step 1 of [verify_otp_and_checkin]: the OTP row the request matches. *)
Definition valid_otp (env : Env) (db : Db) (request : OTPVerifyRequest)
    : option (nat * OTPVerification.t) :=
  list_find (λ o, OTPVerification.phone_number o = phone_number request
                  ∧ OTPVerification.otp_code o = otp_code request
                  ∧ OTPVerification.is_verified o = false
                  ∧ OTPVerification.is_expired o = false
                  ∧ func_now env < OTPVerification.expires_at o)
            (otp_verifications db).

(** Step 5: an open visit of the patient on [today]. *)
Definition existing_visit (db : Db) (patient : Z) (today : date)
    : option (nat * Visit.t) :=
  list_find (λ v, Visit.patient_id v = patient
                  ∧ Visit.visit_date v = today
                  ∧ Visit.visit_status v ∈ ["ACTIVE"; "WAITING"; "IN_PROGRESS"])
            (visits db).

(** Step 7: the largest position among the day's active tickets. *)
Definition max_position (db : Db) (today : date) : Z :=
  default 0
    (func_max
       (QueueTicket.queue_position <$>
          filter (λ t, QueueTicket.queue_date t = today
                       ∧ QueueTicket.queue_status t
                           ∈ ["WAITING"; "CALLED"; "IN_PROGRESS"])
                 (queue_tickets db))).

Definition verify_otp_and_checkin (env : Env) (db : Db)
    (request : OTPVerifyRequest) : Db * Result CheckinData :=
  match valid_otp env db request with
  | None => (db, (false, "Invalid or expired OTP", None))
  | Some (i, otp_record) =>
    if bool_decide (OTPVerification.max_attempts otp_record
                      ≤ OTPVerification.retry_count otp_record)
    then
      let otp_record :=
        OTPVerification.set_updated_at (func_now env)
          (OTPVerification.set_is_expired true otp_record) in
      (with_otp_verifications (<[i := otp_record]> (otp_verifications db))
         (otp_verifications_seq db) db,
       (false, "Maximum OTP verification attempts exceeded", None))
    else
      match patient_by_id db (OTPVerification.patient_id otp_record) with
      | None => (db, (false, "Patient not found", None))
      | Some (_, patient) =>
        let otp_record :=
          OTPVerification.set_updated_at (utcnow env)
            (OTPVerification.set_verified_at (utcnow env)
               (OTPVerification.set_is_verified true otp_record)) in
        let db_otp :=
          with_otp_verifications (<[i := otp_record]> (otp_verifications db))
            (otp_verifications_seq db) db in
        let today := utc_today env in
        match existing_visit db (Patient.patient_id patient) today with
        | Some (_, existing_visit) =>
          let queue_ticket :=
            snd <$> ticket_by_visit db (Visit.visit_id existing_visit) in
          (db_otp,
           (true, "Already checked in for today",
            Some {| cd_patient_id := Patient.patient_id patient;
                    cd_visit_id := Visit.visit_id existing_visit;
                    cd_ticket_id := QueueTicket.ticket_id <$> queue_ticket;
                    cd_queue_position :=
                      QueueTicket.queue_position <$> queue_ticket;
                    cd_estimated_wait_time :=
                      queue_ticket ≫= QueueTicket.estimated_wait_time |}))
        | None =>
          let rolled_back := with_visits (visits db) (visits_seq db + 1) db in
          if negb (fk_department db (department_id request)
                   && fk_doctor db (doctor_id request))
          then (rolled_back,
                (false, "Error during check-in: "
                          +:+ str_e env (IntegrityError "visits"), None))
          else
            let new_visit :=
              {| Visit.visit_id := visits_seq db;
                 Visit.patient_id := Patient.patient_id patient;
                 Visit.department_id := department_id request;
                 Visit.doctor_id := doctor_id request;
                 Visit.visit_date := today;
                 Visit.check_in_datetime := Some (utcnow env);
                 Visit.check_in_method := check_in_method request;
                 Visit.visit_status := "ACTIVE";
                 Visit.completed_datetime := None;
                 Visit.updated_at := Some (func_now env) |} in
            let new_position := max_position db today + 1 in
            let department :=
              snd <$> department_by_id db (department_id request) in
            let average_service_time :=
              match department with
              | Some d => Department.average_service_time d
              | None => Some 30
              end in
            match average_service_time with
            | None =>
              (rolled_back,
               (false, "Error during check-in: "
                         +:+ str_e env TypeError_int_NoneType, None))
            | Some average_service_time =>
              let estimated_wait := (new_position - 1) * average_service_time in
              let queue_ticket :=
                {| QueueTicket.ticket_id := queue_tickets_seq db;
                   QueueTicket.visit_id := Visit.visit_id new_visit;
                   QueueTicket.queue_date := today;
                   QueueTicket.queue_status := "WAITING";
                   QueueTicket.queue_position := new_position;
                   QueueTicket.estimated_wait_time := Some estimated_wait;
                   QueueTicket.called_at := None;
                   QueueTicket.started_at := None;
                   QueueTicket.completed_at := None;
                   QueueTicket.updated_at := Some (func_now env) |} in
              (with_queue_tickets (queue_tickets db ++ [queue_ticket])
                 (queue_tickets_seq db + 1)
                 (with_visits (visits db ++ [new_visit]) (visits_seq db + 1)
                    db_otp),
               (true, "Check-in successful",
                Some {| cd_patient_id := Patient.patient_id patient;
                        cd_visit_id := Visit.visit_id new_visit;
                        cd_ticket_id := Some (QueueTicket.ticket_id queue_ticket);
                        cd_queue_position := Some new_position;
                        cd_estimated_wait_time := Some estimated_wait |}))
            end
        end
      end
  end.

Definition generate_otp (env : Env) : string := choices_digits_6 env.

Definition send_sms (phone_number message : string) : bool := true.
End crud.

(** ** routers/apiRouter.py *)

Module apiRouter.
Import schemas.

(** What the client gets: the response model, an [HTTPException], the 422
    of a request that fails its schema validators, or the 500 of an
    exception no handler catches. *)
Inductive Response (A : Type) :=
  | Ok (body : A)
  | HTTPException (status_code : Z) (detail : string)
  | RequestValidationError
  | InternalServerError (e : Exception).
Arguments Ok {A} body.
Arguments HTTPException {A} status_code detail.
Arguments RequestValidationError {A}.
Arguments InternalServerError {A} e.

Definition start_appointment (env : Env) (db : Db)
    (request : AppointmentStartRequest) : Db * Response crud.StartData :=
  match crud.start_appointment env db request with
  | (db, (true, _, Some data)) => (db, Ok data)
  | (db, (_, message, _)) => (db, HTTPException 400 message)
  end.

Definition verify_otp (env : Env) (db : Db) (request : OTPVerifyRequest)
    : Db * Response (string * crud.CheckinData) :=
  if negb (OTPVerifyRequest_validators request)
  then (db, RequestValidationError)
  else
    match crud.verify_otp_and_checkin env db request with
    | (db, (true, message, Some data)) => (db, Ok (message, data))
    | (db, (_, message, _)) => (db, HTTPException 400 message)
    end.

Record QRCheckInResponse := mkQRCheckInResponse {
  qr_patient_id : Z;
  qr_visit_id : Z;
  qr_ticket_id : Z;
  qr_queue_position : Z
}.

(** [not x] for an optional string: [None] and the empty string. *)
Definition falsy (s : option string) : bool :=
  match s with None => true | Some s => String.eqb s "" end.

Definition qr_checkin (env : Env) (db : Db) (request : QRCheckInRequest)
    : Db * Response QRCheckInResponse :=
  let check_in (db : Db) (patient : Patient.t) :=
    let visit :=
      {| Visit.visit_id := visits_seq db;
         Visit.patient_id := Patient.patient_id patient;
         Visit.department_id := None;
         Visit.doctor_id := None;
         Visit.visit_date := date_today env;
         Visit.check_in_datetime := Some (utcnow env);
         Visit.check_in_method := "QR_CODE";
         Visit.visit_status := "ACTIVE";
         Visit.completed_datetime := None;
         Visit.updated_at := Some (func_now env) |} in
    let today := date_today env in
    let max_position :=
      Z.of_nat (length (filter (λ t, QueueTicket.queue_date t = today)
                               (queue_tickets db))) in
    let queue_position := max_position + 1 in
    let queue_ticket :=
      {| QueueTicket.ticket_id := queue_tickets_seq db;
         QueueTicket.visit_id := Visit.visit_id visit;
         QueueTicket.queue_date := today;
         QueueTicket.queue_status := "WAITING";
         QueueTicket.queue_position := queue_position;
         QueueTicket.estimated_wait_time := None;
         QueueTicket.called_at := None;
         QueueTicket.started_at := None;
         QueueTicket.completed_at := None;
         QueueTicket.updated_at := Some (func_now env) |} in
    (with_queue_tickets (queue_tickets db ++ [queue_ticket])
       (queue_tickets_seq db + 1)
       (with_visits (visits db ++ [visit]) (visits_seq db + 1) db),
     Ok {| qr_patient_id := Patient.patient_id patient;
           qr_visit_id := Visit.visit_id visit;
           qr_ticket_id := QueueTicket.ticket_id queue_ticket;
           qr_queue_position := queue_position |}) in
  match active_patient_by_phone db (qr_phone_number request) with
  | Some (_, patient) => check_in db patient
  | None =>
    match first_name request, last_name request, date_of_birth request with
    | Some first, Some last, Some birth =>
      if falsy (Some first) || falsy (Some last)
      then (db, HTTPException 400
                  "For new patients: first_name, last_name, and date_of_birth are required")
      else if bool_decide (qr_phone_number request
                             ∈ Patient.phone_number <$> patients db)
      then (with_patients (patients db) (patients_seq db + 1) db,
            InternalServerError (IntegrityError "patients"))
      else
        let patient :=
          {| Patient.patient_id := patients_seq db;
             Patient.first_name := first;
             Patient.last_name := last;
             Patient.phone_number := qr_phone_number request;
             Patient.date_of_birth := Some birth;
             Patient.is_active := true |} in
        check_in (with_patients (patients db ++ [patient]) (patients_seq db + 1)
                 db) patient
    | _, _, _ =>
      (db, HTTPException 400
             "For new patients: first_name, last_name, and date_of_birth are required")
    end
  end.

Definition valid_statuses : list string :=
  ["WAITING"; "CALLED"; "IN_PROGRESS"; "COMPLETED"; "CANCELLED"].

Record StatusUpdateResponse := mkStatusUpdateResponse {
  su_message : string;
  su_ticket_id : Z;
  su_old_status : string;
  su_new_status : string
}.

Definition update_appointment_status (env : Env) (db : Db) (ticket_id : Z)
    (status : string) : Db * Response StatusUpdateResponse :=
  if negb (bool_decide (status ∈ valid_statuses))
  then (db, HTTPException 400
              "Invalid status. Must be one of: ['WAITING', 'CALLED', 'IN_PROGRESS', 'COMPLETED', 'CANCELLED']")
  else
    match ticket_by_id db ticket_id with
    | None => (db, HTTPException 404 "Ticket not found")
    | Some (i, ticket) =>
      let old_status := QueueTicket.queue_status ticket in
      let updated := QueueTicket.set_queue_status status ticket in
      let updated :=
        if String.eqb status "CALLED"
        then QueueTicket.set_called_at (utcnow env) updated
        else if String.eqb status "IN_PROGRESS"
        then QueueTicket.set_started_at (utcnow env) updated
        else if bool_decide (status ∈ ["COMPLETED"; "CANCELLED"])
        then QueueTicket.set_completed_at (utcnow env) updated
        else updated in
      let updated := onupdate QueueTicket.set_updated_at env ticket updated in
      (with_queue_tickets (<[i := updated]> (queue_tickets db))
         (queue_tickets_seq db) db,
       Ok {| su_message := "Status updated to " +:+ status;
             su_ticket_id := ticket_id;
             su_old_status := old_status;
             su_new_status := status |})
    end.

Record OTPSendResponse := mkOTPSendResponse {
  os_message : string;
  os_otp_id : Z;
  os_otp_code : string;
  os_expires_at : datetime
}.

(** The row [send_otp] reuses: first unexpired (by flag), unverified row of
    the phone number. *)
Definition existing_otp (db : Db) (phone : string)
    : option (nat * OTPVerification.t) :=
  list_find (λ o, OTPVerification.phone_number o = phone
                  ∧ OTPVerification.is_expired o = false
                  ∧ OTPVerification.is_verified o = false)
            (otp_verifications db).

Definition send_otp (env : Env) (db : Db) (phone : string)
    : Db * Response OTPSendResponse :=
  match existing_otp db phone with
  | Some (i, existing_otp) =>
    if bool_decide (OTPVerification.max_attempts existing_otp
                      ≤ OTPVerification.retry_count existing_otp)
    then (db, HTTPException 429
                "Maximum OTP request attempts reached. Please try again later.")
    else
      let existing_otp :=
        OTPVerification.set_updated_at (now env)
          (OTPVerification.set_retry_count
             (OTPVerification.retry_count existing_otp + 1) existing_otp) in
      (with_otp_verifications (<[i := existing_otp]> (otp_verifications db))
         (otp_verifications_seq db) db,
       Ok {| os_message := "OTP resent successfully";
             os_otp_id := OTPVerification.otp_id existing_otp;
             os_otp_code := OTPVerification.otp_code existing_otp;
             os_expires_at := OTPVerification.expires_at existing_otp |})
  | None =>
    let otp_code := str_int (randint_1000_9999 env) in
    let expires_at := now env + minutes 5 in
    match varchar 20 phone with
    | None => (db, InternalServerError (DataError "phone_number"))
    | Some stored_phone =>
      let new_otp :=
        {| OTPVerification.otp_id := otp_verifications_seq db;
           OTPVerification.phone_number := stored_phone;
           OTPVerification.otp_code := otp_code;
           OTPVerification.is_verified := false;
           OTPVerification.is_expired := false;
           OTPVerification.retry_count := 0;
           OTPVerification.max_attempts := 3;
           OTPVerification.patient_id := None;
           OTPVerification.created_at := Some (now env);
           OTPVerification.verified_at := None;
           OTPVerification.expires_at := expires_at;
           OTPVerification.updated_at := Some (now env) |} in
      (with_otp_verifications (otp_verifications db ++ [new_otp])
         (otp_verifications_seq db + 1) db,
       Ok {| os_message := "OTP sent successfully";
             os_otp_id := OTPVerification.otp_id new_otp;
             os_otp_code := OTPVerification.otp_code new_otp;
             os_expires_at := OTPVerification.expires_at new_otp |})
    end
  end.

Record SMSCheckinResponse := mkSMSCheckinResponse {
  sms_success : bool;
  sms_message : string;
  sms_otp_required : bool;
  sms_visit_id : option Z
}.

(** [str.strip] and [str.upper] on ASCII text. *)
Definition is_space (c : Ascii.ascii) : bool :=
  let n := Ascii.N_of_ascii c in
  (((9 <=? n) && (n <=? 13)) || ((28 <=? n) && (n <=? 32)))%N.
Fixpoint lstrip (s : string) : string :=
  match s with
  | String c s' => if is_space c then lstrip s' else s
  | EmptyString => EmptyString
  end.
Definition strip (s : string) : string :=
  String.rev (lstrip (String.rev (lstrip s))).
Definition upper_char (c : Ascii.ascii) : Ascii.ascii :=
  let n := Ascii.N_of_ascii c in
  if ((97 <=? n) && (n <=? 122))%N then Ascii.ascii_of_N (n - 32) else c.
Fixpoint upper (s : string) : string :=
  match s with
  | String c s' => String (upper_char c) (upper s')
  | EmptyString => EmptyString
  end.

Definition scheduled_visit (db : Db) (patient : Z) (today : date)
    : option (nat * Visit.t) :=
  list_find (λ v, Visit.patient_id v = patient
                  ∧ Visit.visit_date v = today
                  ∧ Visit.visit_status v = "scheduled")
            (visits db).

Definition sms_checkin (env : Env) (db : Db) (request : SMSCheckinRequest)
    : Db * Response SMSCheckinResponse :=
  if negb (String.eqb (upper (strip (message_body request))) "JOIN")
  then (db, Ok (mkSMSCheckinResponse false
                  "Invalid message. Please text 'JOIN' to check in."
                  false None))
  else
    match active_patient_by_phone db (sms_phone_number request) with
    | None => (db, Ok (mkSMSCheckinResponse false
                         "Patient not found. Please register first."
                         false None))
    | Some (_, patient) =>
      let today := date_today env in
      match scheduled_visit db (Patient.patient_id patient) today with
      | None => (db, Ok (mkSMSCheckinResponse false
                           "No appointment scheduled for today." false None))
      | Some (_, visit) =>
        if bool_decide (Visit.check_in_datetime visit ≠ None)
        then (db, Ok (mkSMSCheckinResponse false
                        "You have already checked in." false None))
        else
          let otp_code := crud.generate_otp env in
          let expires_at := now env + minutes 10 in
          let otp_record :=
            {| OTPVerification.otp_id := otp_verifications_seq db;
               OTPVerification.phone_number := sms_phone_number request;
               OTPVerification.otp_code := otp_code;
               OTPVerification.is_verified := false;
               OTPVerification.is_expired := false;
               OTPVerification.retry_count := 0;
               OTPVerification.max_attempts := 3;
               OTPVerification.patient_id := Some (Patient.patient_id patient);
               OTPVerification.created_at := Some (func_now env);
               OTPVerification.verified_at := None;
               OTPVerification.expires_at := expires_at;
               OTPVerification.updated_at := Some (func_now env) |} in
          let sms_message :=
            "Your check-in OTP is: " +:+ otp_code +:+ ". Valid for 10 minutes." in
          let _ := crud.send_sms (sms_phone_number request) sms_message in
          (with_otp_verifications (otp_verifications db ++ [otp_record])
             (otp_verifications_seq db + 1) db,
           Ok (mkSMSCheckinResponse true
                 "OTP sent to your phone. Please reply with the code."
                 true (Some (Visit.visit_id visit))))
      end
    end.

Record CompleteAppointmentResponse := mkCompleteAppointmentResponse {
  ca_ticket_id : Z;
  ca_visit_id : Z;
  ca_completed_at : datetime
}.

Definition complete_appointment (env : Env) (db : Db) (ticket_id : Z)
    : Db * Response CompleteAppointmentResponse :=
  match ticket_by_id db ticket_id with
  | None => (db, HTTPException 404 "Ticket not found")
  | Some (i, queue_ticket) =>
    let queue_ticket :=
      assign_updated_at QueueTicket.updated_at QueueTicket.set_updated_at
        env (utcnow env) queue_ticket
        (QueueTicket.set_completed_at (utcnow env)
           (QueueTicket.set_queue_status "COMPLETED" queue_ticket)) in
    match visit_by_id db (QueueTicket.visit_id queue_ticket) with
    | None => (db, HTTPException 404 "Visit not found")
    | Some (j, visit) =>
      let visit :=
        assign_updated_at Visit.updated_at Visit.set_updated_at
          env (utcnow env) visit
          (Visit.set_completed_datetime (utcnow env)
             (Visit.set_visit_status "COMPLETED" visit)) in
      (with_visits (<[j := visit]> (visits db)) (visits_seq db)
         (with_queue_tickets (<[i := queue_ticket]> (queue_tickets db))
            (queue_tickets_seq db) db),
       Ok {| ca_ticket_id := QueueTicket.ticket_id queue_ticket;
             ca_visit_id := Visit.visit_id visit;
             ca_completed_at := utcnow env |})
    end
  end.
End apiRouter.

(** ** The service as a transition system *)

(** One HTTP request to a state-changing endpoint. The three GET endpoints
    only read. *)
Inductive Request :=
  | POST_appointments_start (request : schemas.AppointmentStartRequest)
  | POST_otp_verify (request : schemas.OTPVerifyRequest)
  | POST_checkin_qr (request : schemas.QRCheckInRequest)
  | PATCH_appointment_status (ticket_id : Z) (status : string)
  | POST_otp_send (phone_number : string)
  | POST_checkin_sms (request : schemas.SMSCheckinRequest)
  | POST_appointment_complete (ticket_id : Z).

(** The database after a request has been served. *)
Definition serve (db : Db) (call : Env * Request) : Db :=
  let (env, request) := call in
  match request with
  | POST_appointments_start r => fst (apiRouter.start_appointment env db r)
  | POST_otp_verify r => fst (apiRouter.verify_otp env db r)
  | POST_checkin_qr r => fst (apiRouter.qr_checkin env db r)
  | PATCH_appointment_status id s =>
      fst (apiRouter.update_appointment_status env db id s)
  | POST_otp_send p => fst (apiRouter.send_otp env db p)
  | POST_checkin_sms r => fst (apiRouter.sms_checkin env db r)
  | POST_appointment_complete id => fst (apiRouter.complete_appointment env db id)
  end.

(** Requests served one after the other. *)
Definition run (db : Db) (calls : list (Env * Request)) : Db :=
  foldl serve db calls.

(** ** Vocabulary of the properties *)


Definition success {A : Type} (r : crud.Result A) : bool := r.1.1.
Definition message {A : Type} (r : crud.Result A) : string := r.1.2.

(** The spec's estimator, [estimate(position, avg_service_minutes)]. *)
Definition estimate (position avg_service_minutes : Z) : Z :=
  (position - 1) * avg_service_minutes.

(** The service time of a department, 30 when the lookup finds no row;
    [None] when the row has no [average_service_time]. *)
Definition service_time (db : Db) (department_id : option Z) : option Z :=
  match department_by_id db department_id with
  | Some (_, d) => Department.average_service_time d
  | None => Some 30
  end.

(** A ticket that is still in the queue. *)
Definition active (t : QueueTicket.t) : Prop :=
  QueueTicket.queue_status t ∈ ["WAITING"; "CALLED"; "IN_PROGRESS"].

(** The tickets of day [d] that are still in the queue. *)
Definition active_tickets (db : Db) (d : date) : list QueueTicket.t :=
  filter (λ t, QueueTicket.queue_date t = d ∧ active t) (queue_tickets db).

(** The open visits of a patient on a day. *)
Definition open_visits (db : Db) (patient : Z) (d : date) : list Visit.t :=
  filter (λ v, Visit.patient_id v = patient
               ∧ Visit.visit_date v = d
               ∧ Visit.visit_status v ∈ ["ACTIVE"; "WAITING"; "IN_PROGRESS"])
         (visits db).

(** At most one open visit per patient and day. *)
Definition one_open_visit (db : Db) : Prop :=
  ∀ patient d, (length (open_visits db patient d) ≤ 1)%nat.

(** No two active tickets of one day share a position. *)
Definition unique_positions (db : Db) : Prop :=
  ∀ i j t1 t2,
    queue_tickets db !! i = Some t1 →
    queue_tickets db !! j = Some t2 →
    i ≠ j →
    QueueTicket.queue_date t1 = QueueTicket.queue_date t2 →
    active t1 → active t2 →
    QueueTicket.queue_position t1 ≠ QueueTicket.queue_position t2.

Definition nonnegative_positions (db : Db) : Prop :=
  ∀ t, t ∈ queue_tickets db → 0 ≤ QueueTicket.queue_position t.

(** All tickets of day [d], whatever their status. *)
Definition tickets_of_day (l : list QueueTicket.t) (d : date)
    : list QueueTicket.t :=
  filter (λ t, QueueTicket.queue_date t = d) l.

(** The invariant of the ticket table that the admissions maintain: a
    position lies between 1 and the number of tickets of its day, and the
    active tickets of a day have different positions. *)
Definition queue_invariant (l : list QueueTicket.t) : Prop :=
  (∀ t, t ∈ l →
        1 ≤ QueueTicket.queue_position t
          ≤ Z.of_nat (length (tickets_of_day l (QueueTicket.queue_date t))))
  ∧ (∀ i j t1 t2,
       l !! i = Some t1 → l !! j = Some t2 → i ≠ j →
       QueueTicket.queue_date t1 = QueueTicket.queue_date t2 →
       active t1 → active t2 →
       QueueTicket.queue_position t1 ≠ QueueTicket.queue_position t2).

(** A status update that puts a ticket back in the queue after it had left
    it. *)
Definition reactivates (db : Db) (call : Env * Request) : Prop :=
  match call.2 with
  | PATCH_appointment_status id status =>
    match ticket_by_id db id with
    | Some (_, t) =>
      ¬ active t ∧ status ∈ ["WAITING"; "CALLED"; "IN_PROGRESS"]
    | None => False
    end
  | _ => False
  end.

#[global] Instance reactivates_dec db call : Decision (reactivates db call).
Proof.
  unfold reactivates. destruct call.2; try apply _.
  destruct (ticket_by_id db ticket_id) as [[i t]|]; apply _.
Defined.

(** A run in which no request reactivates a ticket. *)
Fixpoint never_reactivates (db : Db) (calls : list (Env * Request)) : Prop :=
  match calls with
  | [] => True
  | call :: calls =>
    ¬ reactivates db call ∧ never_reactivates (serve db call) calls
  end.

#[global] Instance never_reactivates_dec db calls :
  Decision (never_reactivates db calls).
Proof. revert db. induction calls as [|call calls IH]; intros db; apply _. Defined.

(** How one request can change the ticket table: not at all, by rewriting a
    row without reactivating it, or by appending the ticket of an admission
    with the position of the OTP path or of the QR path. *)
Inductive tickets_changed (db : Db) : list QueueTicket.t → Prop :=
  | tickets_same : tickets_changed db (queue_tickets db)
  | tickets_rewritten i t t' :
      queue_tickets db !! i = Some t →
      QueueTicket.queue_date t' = QueueTicket.queue_date t →
      QueueTicket.queue_position t' = QueueTicket.queue_position t →
      (active t' → active t) →
      tickets_changed db (<[i := t']> (queue_tickets db))
  | tickets_appended_otp t :
      QueueTicket.queue_position t
        = crud.max_position db (QueueTicket.queue_date t) + 1 →
      tickets_changed db (queue_tickets db ++ [t])
  | tickets_appended_qr t :
      QueueTicket.queue_position t
        = Z.of_nat (length (tickets_of_day (queue_tickets db)
                              (QueueTicket.queue_date t))) + 1 →
      tickets_changed db (queue_tickets db ++ [t]).

(** How one request can change the OTP table: not at all; by flagging an
    unverified row as expired or verified, which keeps its retry counter; by
    counting a resend on an unverified row, which only [send_otp] does; or
    by appending a row whose counter is 0. *)
Inductive otps_changed (db : Db) (call : Env * Request)
    : list OTPVerification.t → Prop :=
  | otps_same : otps_changed db call (otp_verifications db)
  | otps_flagged i o o' :
      otp_verifications db !! i = Some o →
      OTPVerification.is_verified o = false →
      OTPVerification.retry_count o' = OTPVerification.retry_count o →
      otps_changed db call (<[i := o']> (otp_verifications db))
  | otps_resent i o o' phone :
      call.2 = POST_otp_send phone →
      otp_verifications db !! i = Some o →
      OTPVerification.is_verified o = false →
      OTPVerification.retry_count o' = OTPVerification.retry_count o + 1 →
      otps_changed db call (<[i := o']> (otp_verifications db))
  | otps_issued o :
      OTPVerification.retry_count o = 0 →
      otps_changed db call (otp_verifications db ++ [o]).

(** ** A small clinic, for the scenarios *)

Module Clinic.
Definition render (e : Exception) : string :=
  match e with
  | TypeError_int_NoneType =>
    "unsupported operand type(s) for *: 'int' and 'NoneType'"
  | IntegrityError table => "IntegrityError on " +:+ table
  | DataError column => "value too long for " +:+ column
  end.

(** 4 November 2025, 10:00 UTC, on a server that runs on UTC. *)
Definition env : Env :=
  {| utcnow := 1762250400; now := 1762250400; func_now := 1762250400;
     randint_1000_9999 := 4821; choices_digits_6 := "482193";
     str_e := render |}.
Definition today : date := 20396.

Definition ann := Patient.mk 1 "Ann" "Lee" "+1-555-1011" (Some 7300) true.
Definition bob := Patient.mk 2 "Bob" "Ray" "+1-555-1012" (Some 8000) true.
Definition cyd := Patient.mk 3 "Cyd" "Fox" "+1-555-1013" (Some 9000) true.

Definition cardiology := Department.mk 5 "Cardiology" (Some 20).

(** A code sent to a patient by [sms_checkin]. *)
Definition otp (id : Z) (p : Patient.t) (code : string) (retries : Z)
    : OTPVerification.t :=
  {| OTPVerification.otp_id := id;
     OTPVerification.phone_number := Patient.phone_number p;
     OTPVerification.otp_code := code;
     OTPVerification.is_verified := false;
     OTPVerification.is_expired := false;
     OTPVerification.retry_count := retries;
     OTPVerification.max_attempts := 3;
     OTPVerification.patient_id := Some (Patient.patient_id p);
     OTPVerification.created_at := Some 1762250300;
     OTPVerification.verified_at := None;
     OTPVerification.expires_at := 1762250900;
     OTPVerification.updated_at := Some 1762250300 |}.

(** The clinic in the morning: three patients hold a code, nobody has
    checked in. *)
Definition morning : Db :=
  {| patients := [ann; bob; cyd];
     departments := [cardiology];
     doctors := [];
     visits := [];
     queue_tickets := [];
     otp_verifications :=
       [otp 1 ann "111111" 0; otp 2 bob "222222" 0; otp 3 cyd "333333" 0];
     patients_seq := 4; visits_seq := 1; queue_tickets_seq := 1;
     otp_verifications_seq := 4 |}.

Definition verify_request (p : Patient.t) (code : string)
    : schemas.OTPVerifyRequest :=
  schemas.mkOTPVerifyRequest (Patient.phone_number p) code (Some 5) None "OTP".
Definition verify (p : Patient.t) (code : string) : Env * Request :=
  (env, POST_otp_verify (verify_request p code)).
Definition complete (ticket_id : Z) : Env * Request :=
  (env, POST_appointment_complete ticket_id).
Definition qr (p : Patient.t) : schemas.QRCheckInRequest :=
  schemas.mkQRCheckInRequest (Patient.phone_number p) "345678" None None None.
End Clinic.

(** ** routers/apiRouter.py, the endpoints that only read *)

From stdpp Require Import sorting.

Local Open Scope Z_scope.

Definition doctor_by_id (db : Db) (id : option Z) : option (nat * Doctor.t) :=
  list_find (λ d, Some (Doctor.doctor_id d) = id) (doctors db).

(** The [queue_date] query parameter of [get_clinician_queue]: absent, a
    text that [date.fromisoformat] refuses, or a date. *)
Inductive QueueDateParam :=
  | queue_date_absent
  | queue_date_malformed
  | queue_date_iso (d : date).

(** An entry of the clinician's queue; [qp_check_in_time] is [None] for the
    empty string the handler puts when the visit has no check-in time. *)
Record QueuePatient := mkQueuePatient {
  qp_ticket_id : Z;
  qp_patient_name : string;
  qp_queue_position : Z;
  qp_queue_status : string;
  qp_estimated_wait_time : Z;
  qp_check_in_time : option datetime
}.

(** The responses of the two queue readers. The doctor's name is built from
    two name columns that the [Doctor] rows here do not carry; the responses
    are given without it. *)
Record ClinicianQueueResponse := mkClinicianQueueResponse {
  cq_doctor_id : Z;
  cq_department_name : string;
  cq_total_patients : nat;
  cq_queue_tickets : list QueuePatient
}.

Record AppointmentStatusResponse := mkAppointmentStatusResponse {
  as_visit_id : Z;
  as_patient_name : string;
  as_department_name : string;
  as_visit_date : date;
  as_visit_status : string;
  as_check_in_datetime : option datetime;
  as_queue_status : option string;
  as_queue_position : option Z;
  as_estimated_wait_time : option Z;
  as_called_at : option datetime
}.

(** What a reader answers: the response model, an [HTTPException], or the
    500 of a failure inside the handler ([None.first_name], a response model
    that refuses [None] for an [int]). *)
Inductive ReadResponse (A : Type) :=
  | ReadOk (body : A)
  | ReadHTTPException (status_code : Z) (detail : string)
  | ReadInternalServerError.
Arguments ReadOk {A} body.
Arguments ReadHTTPException {A} status_code detail.
Arguments ReadInternalServerError {A}.

(** [order_by(QueueTicket.queue_position)]. *)
Definition by_position (t1 t2 : QueueTicket.t) : Prop :=
  QueueTicket.queue_position t1 ≤ QueueTicket.queue_position t2.

#[global] Instance by_position_dec t1 t2 : Decision (by_position t1 t2).
Proof. unfold by_position. apply _. Defined.

(** Step 4 of [get_clinician_queue]: the tickets of the day, joined with
    their visit, that belong to the clinician and have one of the three
    status texts of the filter, ordered by position. *)
Definition clinician_queue_tickets (db : Db) (clinician_id : Z)
    (target_date : date) : list QueueTicket.t :=
  merge_sort by_position
    (filter (λ t, Exists (λ v, Visit.visit_id v = QueueTicket.visit_id t
                               ∧ Visit.doctor_id v = Some clinician_id)
                         (visits db)
                  ∧ QueueTicket.queue_date t = target_date
                  ∧ QueueTicket.queue_status t
                      ∈ ["waiting"; "called"; "in_progress"])
            (queue_tickets db)).

(** Step 5: one [QueuePatient] per ticket; [None] when building one fails. *)
Definition queue_patient (db : Db) (ticket : QueueTicket.t)
    : option QueuePatient :=
  match visit_by_id db (QueueTicket.visit_id ticket) with
  | None => None
  | Some (_, visit) =>
    match patient_by_id db (Some (Visit.patient_id visit)),
          QueueTicket.estimated_wait_time ticket with
    | Some (_, patient), Some estimated_wait_time =>
      Some {| qp_ticket_id := QueueTicket.ticket_id ticket;
              qp_patient_name :=
                Patient.first_name patient +:+ " "
                  +:+ Patient.last_name patient;
              qp_queue_position := QueueTicket.queue_position ticket;
              qp_queue_status := QueueTicket.queue_status ticket;
              qp_estimated_wait_time := estimated_wait_time;
              qp_check_in_time := Visit.check_in_datetime visit |}
    | _, _ => None
    end
  end.

Definition get_clinician_queue (env : Env) (db : Db) (clinician_id : Z)
    (queue_date : QueueDateParam) : ReadResponse ClinicianQueueResponse :=
  match list_find (λ d, Doctor.doctor_id d = clinician_id
                        ∧ Doctor.is_active d = true) (doctors db) with
  | None => ReadHTTPException 404 "Doctor not found"
  | Some (_, doctor) =>
    let department := snd <$> department_by_id db (Doctor.department_id doctor) in
    match queue_date with
    | queue_date_malformed =>
      ReadHTTPException 400 "Invalid date format. Use YYYY-MM-DD"
    | _ =>
      let target_date :=
        match queue_date with
        | queue_date_iso d => d
        | _ => date_today env
        end in
      let queue_tickets := clinician_queue_tickets db clinician_id target_date in
      match mapM (queue_patient db) queue_tickets with
      | None => ReadInternalServerError
      | Some patients_list =>
        ReadOk {| cq_doctor_id := Doctor.doctor_id doctor;
                  cq_department_name :=
                    match department with
                    | Some d => Department.department_name d
                    | None => "Unknown"
                    end;
                  cq_total_patients := length patients_list;
                  cq_queue_tickets := patients_list |}
      end
    end
  end.

Definition get_appointment_status (db : Db) (appointment_id : Z)
    : ReadResponse AppointmentStatusResponse :=
  match visit_by_id db appointment_id with
  | None => ReadHTTPException 404 "Appointment not found"
  | Some (_, visit) =>
    match patient_by_id db (Some (Visit.patient_id visit)) with
    | None => ReadHTTPException 404 "Patient not found"
    | Some (_, patient) =>
      match doctor_by_id db (Visit.doctor_id visit) with
      | None => ReadHTTPException 404 "Doctor not found"
      | Some (_, doctor) =>
        let department :=
          snd <$> department_by_id db (Visit.department_id visit) in
        let queue_ticket := snd <$> ticket_by_visit db (Visit.visit_id visit) in
        ReadOk {| as_visit_id := Visit.visit_id visit;
                  as_patient_name :=
                    Patient.first_name patient +:+ " "
                      +:+ Patient.last_name patient;
                  as_department_name :=
                    match department with
                    | Some d => Department.department_name d
                    | None => "Unknown"
                    end;
                  as_visit_date := Visit.visit_date visit;
                  as_visit_status := Visit.visit_status visit;
                  as_check_in_datetime := Visit.check_in_datetime visit;
                  as_queue_status := QueueTicket.queue_status <$> queue_ticket;
                  as_queue_position :=
                    QueueTicket.queue_position <$> queue_ticket;
                  as_estimated_wait_time :=
                    queue_ticket ≫= QueueTicket.estimated_wait_time;
                  as_called_at := queue_ticket ≫= QueueTicket.called_at |}
      end
    end
  end.

(** ** Vocabulary of the further properties *)

(** The constraints that [models.py] declares on the three tables of the
    queue, with the sequences ahead of the stored keys: primary keys and the
    [visit_id] of a ticket are unique, a ticket refers to a stored visit and
    a visit to a stored patient. *)
Definition consistent (db : Db) : Prop :=
  (∀ p, p ∈ patients db → Patient.patient_id p < patients_seq db)
  ∧ (∀ v, v ∈ visits db →
          Visit.visit_id v < visits_seq db
          ∧ ∃ p, p ∈ patients db ∧ Patient.patient_id p = Visit.patient_id v)
  ∧ (∀ t, t ∈ queue_tickets db →
          QueueTicket.ticket_id t < queue_tickets_seq db
          ∧ ∃ v, v ∈ visits db ∧ Visit.visit_id v = QueueTicket.visit_id t)
  ∧ NoDup (Patient.patient_id <$> patients db)
  ∧ NoDup (Visit.visit_id <$> visits db)
  ∧ NoDup (QueueTicket.ticket_id <$> queue_tickets db)
  ∧ NoDup (QueueTicket.visit_id <$> queue_tickets db).

(** A ticket row rewritten in place keeps its key, visit, day, position and
    estimate. *)
Definition same_ticket (t t' : QueueTicket.t) : Prop :=
  QueueTicket.ticket_id t' = QueueTicket.ticket_id t
  ∧ QueueTicket.visit_id t' = QueueTicket.visit_id t
  ∧ QueueTicket.queue_date t' = QueueTicket.queue_date t
  ∧ QueueTicket.queue_position t' = QueueTicket.queue_position t
  ∧ QueueTicket.estimated_wait_time t' = QueueTicket.estimated_wait_time t.

(** A visit row rewritten in place keeps everything but its status, its
    completion time and its update stamp. *)
Definition same_visit (v v' : Visit.t) : Prop :=
  Visit.visit_id v' = Visit.visit_id v
  ∧ Visit.patient_id v' = Visit.patient_id v
  ∧ Visit.department_id v' = Visit.department_id v
  ∧ Visit.doctor_id v' = Visit.doctor_id v
  ∧ Visit.visit_date v' = Visit.visit_date v
  ∧ Visit.check_in_datetime v' = Visit.check_in_datetime v
  ∧ Visit.check_in_method v' = Visit.check_in_method v.

(** What one request can do to patients, visits and tickets:
    - nothing, but for sequence values drawn by an insert that failed;
    - set the status of one ticket to one of the five status texts (PATCH);
    - set a ticket and its visit to IN_PROGRESS or to COMPLETED (start,
      complete);
    - admit: append a visit in status ACTIVE with a check-in time and its
      ticket in status WAITING, both with the next keys and the position of
      the OTP path or of the QR path, after registering at most one
      patient. *)
Inductive queue_step (db db' : Db) : Prop :=
  | step_none :
      patients db' = patients db →
      visits db' = visits db →
      queue_tickets db' = queue_tickets db →
      patients_seq db ≤ patients_seq db' →
      visits_seq db ≤ visits_seq db' →
      queue_tickets_seq db' = queue_tickets_seq db →
      queue_step db db'
  | step_status i t t' :
      queue_tickets db !! i = Some t →
      same_ticket t t' →
      QueueTicket.queue_status t' ∈ apiRouter.valid_statuses →
      queue_tickets db' = <[i := t']> (queue_tickets db) →
      patients db' = patients db →
      visits db' = visits db →
      patients_seq db' = patients_seq db →
      visits_seq db' = visits_seq db →
      queue_tickets_seq db' = queue_tickets_seq db →
      queue_step db db'
  | step_lifecycle i t t' j v v' :
      queue_tickets db !! i = Some t →
      visits db !! j = Some v →
      Visit.visit_id v = QueueTicket.visit_id t →
      same_ticket t t' →
      same_visit v v' →
      QueueTicket.queue_status t' ∈ ["IN_PROGRESS"; "COMPLETED"] →
      Visit.visit_status v' = QueueTicket.queue_status t' →
      (QueueTicket.queue_status t' = "IN_PROGRESS" →
       QueueTicket.queue_status t ∈ ["WAITING"; "CALLED"]) →
      queue_tickets db' = <[i := t']> (queue_tickets db) →
      visits db' = <[j := v']> (visits db) →
      patients db' = patients db →
      patients_seq db' = patients_seq db →
      visits_seq db' = visits_seq db →
      queue_tickets_seq db' = queue_tickets_seq db →
      queue_step db db'
  | step_admission registered v t :
      ((registered = [] ∧ patients_seq db' = patients_seq db)
       ∨ (∃ p, registered = [p]
               ∧ Patient.patient_id p = patients_seq db
               ∧ Patient.is_active p = true
               ∧ (Patient.phone_number p ∉ Patient.phone_number <$> patients db)
               ∧ patients_seq db' = patients_seq db + 1)) →
      patients db' = patients db ++ registered →
      visits db' = visits db ++ [v] →
      queue_tickets db' = queue_tickets db ++ [t] →
      (∃ p, p ∈ patients db' ∧ Patient.patient_id p = Visit.patient_id v) →
      Visit.visit_id v = visits_seq db →
      Visit.visit_status v = "ACTIVE" →
      is_Some (Visit.check_in_datetime v) →
      QueueTicket.ticket_id t = queue_tickets_seq db →
      QueueTicket.visit_id t = Visit.visit_id v →
      QueueTicket.queue_date t = Visit.visit_date v →
      QueueTicket.queue_status t = "WAITING" →
      (QueueTicket.queue_position t
         = crud.max_position db (QueueTicket.queue_date t) + 1
       ∨ QueueTicket.queue_position t
         = Z.of_nat (length (tickets_of_day (queue_tickets db)
                               (QueueTicket.queue_date t))) + 1) →
      visits_seq db' = visits_seq db + 1 →
      queue_tickets_seq db' = queue_tickets_seq db + 1 →
      queue_step db db'.

(** Every ticket carries one of the five status texts the endpoints write. *)
Definition written_statuses (db : Db) : Prop :=
  ∀ t, t ∈ queue_tickets db →
       QueueTicket.queue_status t ∈ apiRouter.valid_statuses.

(** No scheduled visit carries a check-in time. *)
Definition scheduled_not_checked_in (db : Db) : Prop :=
  ∀ v, v ∈ visits db → Visit.visit_status v = "scheduled" →
       Visit.check_in_datetime v = None.

(** Every position lies between 1 and the number of tickets of its day. *)
Definition positions_in_range (l : list QueueTicket.t) : Prop :=
  ∀ t, t ∈ l →
       1 ≤ QueueTicket.queue_position t
         ≤ Z.of_nat (length (tickets_of_day l (QueueTicket.queue_date t))).


(** * Properties *)

(** Membership in a literal list, as a disjunction of equalities. *)
Lemma in_list2 {A : Type} (x a b : A) : x ∈ [a; b] ↔ x = a ∨ x = b.
Proof. rewrite !elem_of_cons, elem_of_nil. tauto. Qed.

Lemma in_list3 {A : Type} (x a b c : A) :
  x ∈ [a; b; c] ↔ x = a ∨ x = b ∨ x = c.
Proof. rewrite !elem_of_cons, elem_of_nil. tauto. Qed.

(** ** Queries *)

Lemma ticket_by_id_lookup db id i t :
  ticket_by_id db id = Some (i, t) →
  queue_tickets db !! i = Some t ∧ QueueTicket.ticket_id t = id.
Proof. unfold ticket_by_id. intros (? & ? & _)%list_find_Some. done. Qed.

Lemma visit_by_id_lookup db id j v :
  visit_by_id db id = Some (j, v) →
  visits db !! j = Some v ∧ Visit.visit_id v = id.
Proof. unfold visit_by_id. intros (? & ? & _)%list_find_Some. done. Qed.




(** ** Starting an appointment *)

(** Whatever the stored [updated_at] is, a row whose [updated_at] the
    handler assigns is written as the handler left it, with some stamp. *)
Lemma ticket_assign_updated_at env value old new :
  QueueTicket.updated_at new = QueueTicket.updated_at old →
  ∃ d, assign_updated_at QueueTicket.updated_at QueueTicket.set_updated_at
         env value old new
       = QueueTicket.set_updated_at d new.
Proof.
  intros Hnew. unfold assign_updated_at, onupdate.
  case_decide as Hstamp; [|by eexists].
  case_decide as Hsame; [|by eexists].
  exists value. rewrite <- Hnew in Hstamp. clear Hnew Hsame.
  destruct new; cbn in *. by simplify_eq.
Qed.

Lemma visit_assign_updated_at env value old new :
  Visit.updated_at new = Visit.updated_at old →
  ∃ d, assign_updated_at Visit.updated_at Visit.set_updated_at
         env value old new
       = Visit.set_updated_at d new.
Proof.
  intros Hnew. unfold assign_updated_at, onupdate.
  case_decide as Hstamp; [|by eexists].
  case_decide as Hsame; [|by eexists].
  exists value. rewrite <- Hnew in Hstamp. clear Hnew Hsame.
  destruct new; cbn in *. by simplify_eq.
Qed.

(** The rows that [complete_appointment] writes. *)
Lemma complete_ticket_row env ticket :
  ∃ d, assign_updated_at QueueTicket.updated_at QueueTicket.set_updated_at
         env (utcnow env) ticket
         (QueueTicket.set_completed_at (utcnow env)
            (QueueTicket.set_queue_status "COMPLETED" ticket))
       = QueueTicket.set_updated_at d
           (QueueTicket.set_completed_at (utcnow env)
              (QueueTicket.set_queue_status "COMPLETED" ticket)).
Proof. by apply ticket_assign_updated_at. Qed.

Lemma complete_visit_row env visit :
  ∃ d, assign_updated_at Visit.updated_at Visit.set_updated_at
         env (utcnow env) visit
         (Visit.set_completed_datetime (utcnow env)
            (Visit.set_visit_status "COMPLETED" visit))
       = Visit.set_updated_at d
           (Visit.set_completed_datetime (utcnow env)
              (Visit.set_visit_status "COMPLETED" visit)).
Proof. by apply visit_assign_updated_at. Qed.

(** The rows that [start_appointment] writes. The ticket leaves WAITING or
    CALLED, so its row always changes: [updated_at] is the value the handler
    assigns, unless that value is the stored one, when the server stamps
    the row. The visit row may already be as the handler sets it. *)
Lemma start_ticket_row env ticket :
  QueueTicket.queue_status ticket ∈ ["WAITING"; "CALLED"] →
  assign_updated_at QueueTicket.updated_at QueueTicket.set_updated_at
    env (utcnow env) ticket
    (QueueTicket.set_started_at (utcnow env)
       (QueueTicket.set_queue_status "IN_PROGRESS" ticket))
  = QueueTicket.set_updated_at
      (if decide (QueueTicket.updated_at ticket = Some (utcnow env))
       then func_now env else utcnow env)
      (QueueTicket.set_started_at (utcnow env)
         (QueueTicket.set_queue_status "IN_PROGRESS" ticket)).
Proof.
  intros Hst%in_list2. unfold assign_updated_at, onupdate.
  case_decide as Hstamp; [|done]. case_decide as Hsame; [|done].
  apply (f_equal QueueTicket.queue_status) in Hsame. cbn in Hsame.
  destruct Hst; congruence.
Qed.

Lemma start_visit_row env visit :
  assign_updated_at Visit.updated_at Visit.set_updated_at
    env (utcnow env) visit (Visit.set_visit_status "IN_PROGRESS" visit)
  = Visit.set_updated_at
      (if decide (Visit.updated_at visit = Some (utcnow env)
                  ∧ Visit.visit_status visit ≠ "IN_PROGRESS")
       then func_now env else utcnow env)
      (Visit.set_visit_status "IN_PROGRESS" visit).
Proof.
  unfold assign_updated_at, onupdate.
  case_decide as Hstamp; [|by rewrite decide_False by tauto].
  case_decide as Hsame.
  - pose proof (f_equal Visit.visit_status Hsame) as Hstatus. cbn in Hstatus.
    rewrite decide_False by (intros [_ Hne]; congruence).
    rewrite <- Hsame. by destruct visit; cbn in *; subst.
  - rewrite decide_True; [done|]. split; [done|]. intros Hstatus.
    apply Hsame. by destruct visit; cbn in *; subst.
Qed.



(** A waiting ticket can be started: the ticket and the visit of Ann both go
    to IN_PROGRESS. *)
Example start_appointment_waiting :
  let db := run Clinic.morning [Clinic.verify Clinic.ann "111111"] in
  let out := crud.start_appointment Clinic.env db
               (schemas.mkAppointmentStartRequest 1 None) in
  success out.2 = true
  ∧ QueueTicket.queue_status <$> queue_tickets out.1 = ["IN_PROGRESS"]
  ∧ QueueTicket.started_at <$> queue_tickets out.1 = [Some 1762250400]
  ∧ Visit.visit_status <$> visits out.1 = ["IN_PROGRESS"].
Proof. vm_compute. done. Qed.

(** ** Setting a status by PATCH *)



(** ** Sending a code *)

Lemma varchar_fits n s : (String.length s ≤ n)%nat → varchar n s = Some s.
Proof. intros Hle. unfold varchar. by rewrite (proj2 (Nat.leb_le _ _) Hle). Qed.


(** Scenario A: a code for a phone number never seen before. *)
Example send_otp_new_phone :
  let out := apiRouter.send_otp Clinic.env Clinic.morning "+1-555-2000" in
  out.2 = apiRouter.Ok (apiRouter.mkOTPSendResponse
                          "OTP sent successfully" 4 "4821" (1762250400 + 300))
  ∧ OTPVerification.retry_count <$> otp_verifications out.1 = [0; 0; 0; 0].
Proof. vm_compute. done. Qed.

(** Three resends of Ann's code bring the counter to the ceiling; the fourth
    request is refused with 429. *)
Example send_otp_rate_limited :
  let send := (Clinic.env, POST_otp_send "+1-555-1011") in
  let db := run Clinic.morning [send; send; send] in
  OTPVerification.retry_count <$> otp_verifications db = [3; 0; 0]
  ∧ apiRouter.send_otp Clinic.env db "+1-555-1011"
    = (db, apiRouter.HTTPException 429
             "Maximum OTP request attempts reached. Please try again later.").
Proof. vm_compute. done. Qed.

(** C7, at the failing input. A code is sent to a new phone number at
    10:00 and expires at 10:05. At 10:10 no unexpired record exists for the
    phone number, so a new record is due, with retry counter 0 and an
    expiry five to ten minutes ahead. [send_otp] filters on the [is_expired]
    flag alone, where [verify_otp_and_checkin] also compares [expires_at]
    with the clock: it counts a resend on the dead record, creates nothing
    and answers with the old code and its expiry time in the past, a code
    that [verify_otp_and_checkin] refuses as expired. *)
Theorem send_otp_resends_expired_code :
  let later := mkEnv 1762251000 1762251000 1762251000 7306 "730645"
                 Clinic.render in
  let phone := "+1-555-2000" in
  let db := run Clinic.morning [(Clinic.env, POST_otp_send phone)] in
  let out := apiRouter.send_otp later db phone in
  filter (λ o, OTPVerification.phone_number o = phone) (otp_verifications db)
    = [{| OTPVerification.otp_id := 4;
          OTPVerification.phone_number := phone;
          OTPVerification.otp_code := "4821";
          OTPVerification.is_verified := false;
          OTPVerification.is_expired := false;
          OTPVerification.retry_count := 0;
          OTPVerification.max_attempts := 3;
          OTPVerification.patient_id := None;
          OTPVerification.created_at := Some 1762250400;
          OTPVerification.verified_at := None;
          OTPVerification.expires_at := 1762250400 + minutes 5;
          OTPVerification.updated_at := Some 1762250400 |}]
  ∧ 1762250400 + minutes 5 < now later
  ∧ out.2 = apiRouter.Ok (apiRouter.mkOTPSendResponse
                            "OTP resent successfully" 4 "4821"
                            (1762250400 + minutes 5))
  ∧ length (otp_verifications out.1) = length (otp_verifications db)
  ∧ OTPVerification.retry_count
      <$> filter (λ o, OTPVerification.phone_number o = phone)
                 (otp_verifications out.1) = [1]
  ∧ (crud.verify_otp_and_checkin later out.1
       (schemas.mkOTPVerifyRequest phone "4821" None None "OTP")).2
    = (false, "Invalid or expired OTP", None).
Proof. vm_compute. done. Qed.

(** ** The wait-time estimate *)

Lemma estimate_first s : estimate 1 s = 0.
Proof. unfold estimate. lia. Qed.

(** What a successful new check-in returns and stores. *)
Lemma verify_otp_and_checkin_new env db request d :
  (crud.verify_otp_and_checkin env db request).2
    = (true, "Check-in successful", Some d) →
  ∃ s visit ticket,
    service_time db (schemas.department_id request) = Some s
    ∧ visits (crud.verify_otp_and_checkin env db request).1
      = visits db ++ [visit]
    ∧ queue_tickets (crud.verify_otp_and_checkin env db request).1
      = queue_tickets db ++ [ticket]
    ∧ Visit.visit_date visit = utc_today env
    ∧ Visit.visit_status visit = "ACTIVE"
    ∧ Visit.patient_id visit = crud.cd_patient_id d
    ∧ crud.existing_visit db (crud.cd_patient_id d) (utc_today env) = None
    ∧ QueueTicket.queue_date ticket = utc_today env
    ∧ QueueTicket.queue_status ticket = "WAITING"
    ∧ QueueTicket.queue_position ticket = crud.max_position db (utc_today env) + 1
    ∧ QueueTicket.estimated_wait_time ticket
      = Some ((crud.max_position db (utc_today env) + 1 - 1) * s)
    ∧ crud.cd_queue_position d = Some (QueueTicket.queue_position ticket)
    ∧ crud.cd_estimated_wait_time d = QueueTicket.estimated_wait_time ticket.
Proof.
  unfold crud.verify_otp_and_checkin, service_time.
  destruct (crud.valid_otp env db request) as [[i o]|]; [|done].
  case_bool_decide; [done|].
  destruct (patient_by_id db _) as [[k patient]|]; [|done].
  destruct (crud.existing_visit db _ _) as [[j v]|] eqn:Hvisit; [done|].
  destruct (negb _); [done|].
  destruct (department_by_id db _) as [[n dept]|]; cbn [fmap option_fmap option_map snd].
  - destruct (Department.average_service_time dept) as [s|]; [|done].
    cbn [fst snd]. intros [= <-].
    eexists _, _, _. cbn. split_and!; try reflexivity. done.
  - cbn [fst snd]. intros [= <-].
    eexists _, _, _. cbn. split_and!; try reflexivity. done.
Qed.

(** The department lookup: nothing for [NULL], and for a stored key the
    first row that carries it. *)
Lemma department_by_id_None db : department_by_id db None = None.
Proof. unfold department_by_id. apply list_find_None, Forall_forall. done. Qed.

Lemma department_by_id_stored db id :
  id ∈ Department.department_id <$> departments db →
  ∃ k row, department_by_id db (Some id) = Some (k, row)
           ∧ Department.department_id row = id.
Proof.
  intros (row & -> & Hrow)%list_elem_of_fmap.
  destruct (list_find_elem_of
              (λ d, Some (Department.department_id d)
                    = Some (Department.department_id row))
              (departments db) row Hrow eq_refl) as [[k row'] Hfind].
  exists k, row'. split; [done|].
  apply list_find_Some in Hfind as (_ & Heq & _). congruence.
Qed.

Lemma department_by_id_first db id k row :
  department_by_id db (Some id) = Some (k, row) →
  departments db !! k = Some row
  ∧ Department.department_id row = id
  ∧ ∀ j row', departments db !! j = Some row' → (j < k)%nat →
              Department.department_id row' ≠ id.
Proof.
  unfold department_by_id. intros (Hk & Hid & Hfirst)%list_find_Some.
  split; [done|]. split; [congruence|].
  intros j row' Hj Hlt Heq. apply (Hfirst j row' Hj Hlt). congruence.
Qed.

(** C8. When [verify_otp_and_checkin] admits a patient, the estimate it
    returns and stores on the ticket is the spec's [estimate position s],
    that is [(position - 1) * s], where [position] is the position it
    assigned and [s] the service time: the [average_service_time] of the
    stored department row that carries the key named in the request (the
    first such row), and 30 when the request names no department, which is
    the one case in which the lookup of an admission finds nothing. At
    position 1 the estimate is 0, whatever the service time. *)
Theorem estimated_wait_at_checkin env db request d :
  (crud.verify_otp_and_checkin env db request).2
    = (true, "Check-in successful", Some d) →
  (∃ position s,
     crud.cd_queue_position d = Some position
     ∧ match schemas.department_id request with
       | None => s = 30
       | Some id =>
         ∃ k row,
           departments db !! k = Some row
           ∧ Department.department_id row = id
           ∧ Department.average_service_time row = Some s
           ∧ ∀ j row', departments db !! j = Some row' → (j < k)%nat →
                       Department.department_id row' ≠ id
       end
     ∧ crud.cd_estimated_wait_time d = Some (estimate position s)
     ∧ (position = 1 → crud.cd_estimated_wait_time d = Some 0)
     ∧ ∃ ticket,
         last (queue_tickets (crud.verify_otp_and_checkin env db request).1)
           = Some ticket
         ∧ QueueTicket.queue_position ticket = position
         ∧ QueueTicket.estimated_wait_time ticket = Some (estimate position s))
  ∧ (∀ position s, estimate position s = (position - 1) * s)
  ∧ (∀ s, estimate 1 s = 0).
Proof.
  intros Hok. split; [|split; [done|apply estimate_first]].
  revert Hok. unfold crud.verify_otp_and_checkin.
  destruct (crud.valid_otp env db request) as [[i o]|]; [|done].
  case_bool_decide; [done|].
  destruct (patient_by_id db _) as [[k patient]|]; [|done].
  destruct (crud.existing_visit db _ _) as [[j v]|]; [done|].
  destruct (fk_department db _) eqn:Hfk; [|done].
  destruct (fk_doctor db _); [|done]. cbn [negb andb].
  destruct (schemas.department_id request) as [id|].
  - apply bool_decide_eq_true_1 in Hfk.
    destruct (department_by_id_stored db id Hfk) as (n & row & Hrow & _).
    rewrite Hrow. cbn [fmap option_fmap option_map snd].
    apply department_by_id_first in Hrow as (Hn & Hid & Hfirst).
    destruct (Department.average_service_time row) as [s|] eqn:Hs; [|done].
    cbn [fst snd]. intros [= <-].
    exists (crud.max_position db (utc_today env) + 1), s.
    cbn [crud.cd_queue_position crud.cd_estimated_wait_time queue_tickets
         with_queue_tickets].
    split_and!; [done|by exists n, row|done| |].
    + intros Hfirst_position. by rewrite Hfirst_position.
    + eexists. rewrite last_snoc. done.
  - rewrite department_by_id_None. cbn [fmap option_fmap option_map snd].
    cbn [fst snd]. intros [= <-].
    exists (crud.max_position db (utc_today env) + 1), 30.
    cbn [crud.cd_queue_position crud.cd_estimated_wait_time queue_tickets
         with_queue_tickets].
    split_and!; [done..| |].
    + intros Hfirst_position. by rewrite Hfirst_position.
    + eexists. rewrite last_snoc. done.
Qed.

(** After Ann, Bob checks in for Cardiology, whose service time is 20
    minutes: position 2 and an estimate of 20. Had he named no department,
    the estimate would have been made with 30 minutes. *)
Lemma estimated_wait_at_checkin_witness :
  let db := run Clinic.morning [Clinic.verify Clinic.ann "111111"] in
  let cardiology := Clinic.verify_request Clinic.bob "222222" in
  let nowhere :=
    schemas.mkOTPVerifyRequest "+1-555-1012" "222222" None None "OTP" in
  Department.average_service_time <$> departments db = [Some 20]
  ∧ (∃ d, (crud.verify_otp_and_checkin Clinic.env db cardiology).2
            = (true, "Check-in successful", Some d)
          ∧ crud.cd_queue_position d = Some 2
          ∧ crud.cd_estimated_wait_time d = Some (estimate 2 20)
          ∧ estimate 2 20 = 20)
  ∧ (∃ d, (crud.verify_otp_and_checkin Clinic.env db nowhere).2
            = (true, "Check-in successful", Some d)
          ∧ crud.cd_queue_position d = Some 2
          ∧ crud.cd_estimated_wait_time d = Some (estimate 2 30)
          ∧ estimate 2 30 = 30).
Proof.
  intros db cardiology nowhere. split; [by vm_compute|]. split.
  - set (d := crud.mkCheckinData 2 2 (Some 2) (Some 2) (Some 20)).
    assert (Hok : (crud.verify_otp_and_checkin Clinic.env db cardiology).2
                  = (true, "Check-in successful", Some d))
      by (vm_compute; reflexivity).
    destruct (estimated_wait_at_checkin _ _ _ _ Hok)
      as [(position & s & Hposition & Hservice & Hestimate & _) _].
    destruct Hservice as (k & row & Hk & Hid & Hs & _).
    assert (position = 2) as -> by (cbn in Hposition; congruence).
    assert (s = 20) as ->.
    { destruct k as [|k]; [|by destruct k].
      vm_compute in Hk. injection Hk as <-. vm_compute in Hs. congruence. }
    exists d. done.
  - set (d := crud.mkCheckinData 2 2 (Some 2) (Some 2) (Some 30)).
    assert (Hok : (crud.verify_otp_and_checkin Clinic.env db nowhere).2
                  = (true, "Check-in successful", Some d))
      by (vm_compute; reflexivity).
    destruct (estimated_wait_at_checkin _ _ _ _ Hok)
      as [(position & s & Hposition & Hservice & Hestimate & _) _].
    cbn in Hservice. subst s.
    assert (position = 2) as -> by (cbn in Hposition; congruence).
    exists d. done.
Defined.

(** ** The position given at admission *)

Lemma func_max_cons x l :
  func_max (x :: l)
  = Some (match func_max l with None => x | Some m => Z.max x m end).
Proof. done. Qed.

(** [MAX] is an upper bound that is attained. *)
Lemma func_max_Some l m :
  func_max l = Some m → m ∈ l ∧ ∀ x, x ∈ l → x ≤ m.
Proof.
  revert m. induction l as [|y l IH]; intros m; [done|].
  rewrite func_max_cons. destruct (func_max l) as [m'|] eqn:Hl.
  - intros [= <-]. destruct (IH m' eq_refl) as [Hin Hle]. split.
    + destruct (Z.max_spec y m') as [[_ ->]|[_ ->]]; [by right|by left].
    + intros x [->|Hx]%elem_of_cons; [lia|]. specialize (Hle x Hx). lia.
  - intros [= <-]. destruct l as [|z l]; [|by rewrite func_max_cons in Hl].
    split; [by left|]. intros x [->|Hx]%elem_of_cons; [lia|]. by inversion Hx.
Qed.

(** The position [verify_otp_and_checkin] computes, against the day's active
    tickets: 1 for an empty queue, else one more than the largest. *)
Lemma max_position_active db d :
  (active_tickets db d = [] → crud.max_position db d = 0)
  ∧ (∀ t, t ∈ active_tickets db d →
          QueueTicket.queue_position t ≤ crud.max_position db d)
  ∧ (active_tickets db d ≠ [] →
     ∃ t, t ∈ active_tickets db d
          ∧ crud.max_position db d = QueueTicket.queue_position t).
Proof.
  unfold crud.max_position, active_tickets, active.
  set (l := filter _ (queue_tickets db)).
  destruct (func_max (QueueTicket.queue_position <$> l)) as [m|] eqn:Hmax.
  - apply func_max_Some in Hmax as [Hin Hle].
    apply list_elem_of_fmap in Hin as (t & -> & Ht). cbn. split_and!.
    + intros Hnil. rewrite Hnil in Ht. by inversion Ht.
    + intros t' Ht'. apply Hle. by apply list_elem_of_fmap_2.
    + eauto.
  - destruct l as [|t l]; [|by rewrite fmap_cons, func_max_cons in Hmax].
    cbn. split_and!; [done| |done]. intros t Ht. by inversion Ht.
Qed.

(** When the day's active tickets hold exactly the positions 1 to n, the
    largest position is their number. *)
Lemma max_position_dense db d :
  QueueTicket.queue_position <$> active_tickets db d
    ≡ₚ Z.of_nat <$> seq 1 (length (active_tickets db d)) →
  crud.max_position db d = Z.of_nat (length (active_tickets db d)).
Proof.
  intros Hperm.
  destruct (max_position_active db d) as (Hnil & Hle & Hmax).
  destruct (active_tickets db d) as [|x q] eqn:Hq; [by apply Hnil|].
  set (n := length (x :: q)) in *.
  assert (Z.of_nat n ∈ QueueTicket.queue_position <$> x :: q) as Hn.
  { rewrite Hperm. apply list_elem_of_fmap_2, elem_of_seq. cbn in n. lia. }
  apply list_elem_of_fmap in Hn as (t & Hpos & Ht).
  specialize (Hle t Ht).
  destruct Hmax as (t0 & Ht0 & Hm); [done|].
  assert (QueueTicket.queue_position t0 ∈ Z.of_nat <$> seq 1 n) as Hin
    by (rewrite <- Hperm; by apply list_elem_of_fmap_2).
  apply list_elem_of_fmap in Hin as (k & Hk & Hseq). apply elem_of_seq in Hseq.
  lia.
Qed.

(** C2, the claim as stated fails. Ann and Bob check in and get positions 1
    and 2; Ann's ticket is completed. One active ticket is left for the day,
    so the claim gives Cyd position 2, but she gets position 3. *)
Lemma position_is_not_queue_depth :
  let db := run Clinic.morning [Clinic.verify Clinic.ann "111111";
                                Clinic.verify Clinic.bob "222222";
                                Clinic.complete 1] in
  let out := crud.verify_otp_and_checkin Clinic.env db
               (Clinic.verify_request Clinic.cyd "333333") in
  length (active_tickets db (utc_today Clinic.env)) = 1%nat
  ∧ ∃ d, out.2 = (true, "Check-in successful", Some d)
         ∧ crud.cd_queue_position d = Some 3
         ∧ crud.cd_queue_position d
           ≠ Some (1 + Z.of_nat (length (active_tickets db
                                           (utc_today Clinic.env)))).
Proof.
  intros db out. split; [by vm_compute|].
  exists (crud.mkCheckinData 3 3 (Some 3) (Some 3) (Some 40)).
  split; [by vm_compute|]. split; [done|].
  vm_compute. intros [=].
Qed.

(** C2, amended. A patient admitted by [verify_otp_and_checkin] gets a
    position above every active ticket of the day: 1 when the day has no
    active ticket, else one more than the largest position among them; this
    is one more than their number when they hold the positions 1 to n, and
    the estimate is the position less one times the service time. A patient
    admitted by [qr_checkin] gets one more than the number of all tickets of
    the day, whatever their status. *)
Theorem position_at_admission env db :
  (∀ request d,
     (crud.verify_otp_and_checkin env db request).2
       = (true, "Check-in successful", Some d) →
     ∃ p s,
       crud.cd_queue_position d = Some p
       ∧ (active_tickets db (utc_today env) = [] → p = 1)
       ∧ (∀ t, t ∈ active_tickets db (utc_today env) →
               QueueTicket.queue_position t < p)
       ∧ (active_tickets db (utc_today env) ≠ [] →
          ∃ t, t ∈ active_tickets db (utc_today env)
               ∧ p = QueueTicket.queue_position t + 1)
       ∧ (QueueTicket.queue_position <$> active_tickets db (utc_today env)
            ≡ₚ Z.of_nat <$> seq 1 (length (active_tickets db (utc_today env))) →
          p = 1 + Z.of_nat (length (active_tickets db (utc_today env))))
       ∧ service_time db (schemas.department_id request) = Some s
       ∧ crud.cd_estimated_wait_time d = Some ((p - 1) * s))
  ∧ (∀ request r,
       (apiRouter.qr_checkin env db request).2 = apiRouter.Ok r →
       apiRouter.qr_queue_position r
       = 1 + Z.of_nat (length (filter (λ t, QueueTicket.queue_date t
                                            = date_today env)
                                      (queue_tickets db)))).
Proof.
  split.
  - intros request d Hok.
    destruct (verify_otp_and_checkin_new _ _ _ _ Hok)
      as (s & visit & ticket & Hs & _ & _ & _ & _ & _ & _ & _ & _
          & Hpos & Hest & Hdpos & Hdest).
    destruct (max_position_active db (utc_today env)) as (Hnil & Hle & Hmax).
    exists (QueueTicket.queue_position ticket), s.
    rewrite Hdest, Hest, Hpos. split_and!; try done.
    + by rewrite Hdpos, Hpos.
    + intros Hempty. rewrite Hnil by done. lia.
    + intros t Ht. specialize (Hle t Ht). lia.
    + intros Hne. destruct (Hmax Hne) as (t & Ht & ->). eauto.
    + intros Hdense. rewrite (max_position_dense _ _ Hdense). lia.
  - intros request r. unfold apiRouter.qr_checkin.
    repeat case_match; cbn [snd]; intros; simplify_eq; cbn; lia.
Qed.

(** Scenario C: Ann and Bob wait at positions 1 and 2; Cyd checks in at
    Cardiology, whose service time is 20, and gets position 3 with an
    estimate of 40. *)
Lemma position_at_admission_witness :
  let db := run Clinic.morning [Clinic.verify Clinic.ann "111111";
                                Clinic.verify Clinic.bob "222222"] in
  let out := crud.verify_otp_and_checkin Clinic.env db
               (Clinic.verify_request Clinic.cyd "333333") in
  QueueTicket.queue_position <$> active_tickets db (utc_today Clinic.env)
    = [1; 2]
  ∧ ∃ d, out.2 = (true, "Check-in successful", Some d)
         ∧ crud.cd_queue_position d = Some 3
         ∧ crud.cd_estimated_wait_time d = Some 40.
Proof.
  intros db out.
  assert (Hqueue : QueueTicket.queue_position
                     <$> active_tickets db (utc_today Clinic.env) = [1; 2])
    by by vm_compute.
  split; [done|].
  set (d := crud.mkCheckinData 3 3 (Some 3) (Some 3) (Some 40)).
  assert (Hok : out.2 = (true, "Check-in successful", Some d))
    by by vm_compute.
  destruct (position_at_admission Clinic.env db) as [Hotp _].
  destruct (Hotp _ d Hok) as (p & s & Hp & _ & _ & _ & Hdense & Hs & Hwait).
  assert (p = 3) as ->.
  { rewrite Hdense.
    - apply (f_equal length) in Hqueue. rewrite length_fmap in Hqueue.
      rewrite Hqueue. done.
    - rewrite Hqueue. apply (f_equal length) in Hqueue.
      rewrite length_fmap in Hqueue. rewrite Hqueue. done. }
  assert (s = 20) as -> by (vm_compute in Hs; congruence).
  exists d. split_and!; [done..|]. rewrite Hwait. done.
Defined.

(** ** Uniqueness of positions *)

Section ticket_table.
Implicit Types (l : list QueueTicket.t) (t : QueueTicket.t).

Lemma tickets_of_day_insert l i t t' d :
  l !! i = Some t →
  QueueTicket.queue_date t' = QueueTicket.queue_date t →
  length (tickets_of_day (<[i := t']> l) d) = length (tickets_of_day l d).
Proof.
  unfold tickets_of_day. revert i.
  induction l as [|x l IH]; intros [|i] Hi Hdate; simplify_eq/=; [|].
  - rewrite !filter_cons, Hdate. by case_decide.
  - rewrite !filter_cons. case_decide; cbn; by rewrite IH.
Qed.

Lemma tickets_of_day_snoc l t d :
  length (tickets_of_day (l ++ [t]) d)
  = (length (tickets_of_day l d)
     + if decide (QueueTicket.queue_date t = d) then 1 else 0)%nat.
Proof.
  unfold tickets_of_day. rewrite filter_app, length_app, filter_cons.
  by case_decide.
Qed.

(** Rewriting a row keeps the invariant when the day and the position stay
    and the row is not put back among the active ones. *)
Lemma queue_invariant_insert l i t t' :
  l !! i = Some t →
  QueueTicket.queue_date t' = QueueTicket.queue_date t →
  QueueTicket.queue_position t' = QueueTicket.queue_position t →
  (active t' → active t) →
  queue_invariant l → queue_invariant (<[i := t']> l).
Proof.
  intros Hi Hdate Hpos Hact [Hrange Huniq]. split.
  - intros x (k & Hk)%list_elem_of_lookup_1.
    rewrite (tickets_of_day_insert _ _ _ _ _ Hi Hdate).
    apply list_lookup_insert_Some in Hk as [(-> & <- & _)|[_ Hk]].
    + rewrite Hdate, Hpos. apply Hrange. by eapply list_elem_of_lookup_2.
    + apply Hrange. by eapply list_elem_of_lookup_2.
  - intros a b t1 t2 Ha Hb Hab Hd H1 H2.
    apply list_lookup_insert_Some in Ha as [(-> & <- & _)|[Hia Ha]];
      apply list_lookup_insert_Some in Hb as [(-> & <- & _)|[Hib Hb]].
    + done.
    + rewrite Hpos. apply (Huniq a b t t2); auto. congruence.
    + rewrite Hpos. apply (Huniq a b t1 t); auto. congruence.
    + by apply (Huniq a b t1 t2).
Qed.

(** Appending a row keeps the invariant when its position is at least 1,
    at most the number of tickets of its day counting itself, and differs
    from the positions of the day's active tickets. *)
Lemma queue_invariant_snoc l t :
  1 ≤ QueueTicket.queue_position t
    ≤ Z.of_nat (length (tickets_of_day l (QueueTicket.queue_date t))) + 1 →
  (∀ t0, t0 ∈ l →
         QueueTicket.queue_date t0 = QueueTicket.queue_date t →
         active t0 →
         QueueTicket.queue_position t0 ≠ QueueTicket.queue_position t) →
  queue_invariant l → queue_invariant (l ++ [t]).
Proof.
  intros Hp Hfresh [Hrange Huniq]. split.
  - intros x [Hx| ->%list_elem_of_singleton]%elem_of_app;
      rewrite tickets_of_day_snoc.
    + specialize (Hrange x Hx). lia.
    + rewrite decide_True by done. lia.
  - intros a b t1 t2 Ha Hb Hab Hd H1 H2.
    apply lookup_app_Some in Ha as [Ha|[Hla Ha]];
      apply lookup_app_Some in Hb as [Hb|[Hlb Hb]].
    + by apply (Huniq a b t1 t2).
    + apply list_lookup_singleton_Some in Hb as [_ <-].
      apply Hfresh; [by eapply list_elem_of_lookup_2|done..].
    + apply list_lookup_singleton_Some in Ha as [_ <-].
      intros Heq. eapply Hfresh; [by eapply list_elem_of_lookup_2| | |done];
        done.
    + apply list_lookup_singleton_Some in Ha as [Ha _].
      apply list_lookup_singleton_Some in Hb as [Hb _]. lia.
Qed.

Lemma queue_invariant_nil : queue_invariant [].
Proof.
  split; [intros t Ht; by inversion Ht|].
  intros i j t1 t2 Hi. by rewrite lookup_nil in Hi.
Qed.
End ticket_table.

(** What each request does to the ticket table. *)
Lemma serve_tickets_changed db call :
  ¬ reactivates db call →
  tickets_changed db (queue_tickets (serve db call)).
Proof.
  destruct call as [env [r|r|r|id status|phone|r|id]]; unfold reactivates;
    cbn [snd serve]; intros Hre.
  - (* start *)
    unfold apiRouter.start_appointment, crud.start_appointment.
    destruct (ticket_by_id db _) as [[i t]|] eqn:Ht; [|constructor].
    apply ticket_by_id_lookup in Ht as [Hi _].
    case_bool_decide as Hst; cbn [negb]; [|constructor].
    destruct (visit_by_id db _) as [[j v]|]; [|constructor].
    destruct (patient_by_id db _) as [[k p]|]; [|constructor].
    rewrite start_ticket_row by done.
    cbn. apply (tickets_rewritten db i t); [done..|].
    intros _. unfold active. apply in_list2 in Hst. apply in_list3. tauto.
  - (* verify *)
    unfold apiRouter.verify_otp, crud.verify_otp_and_checkin.
    repeat case_match; simplify_eq/=; try apply tickets_same.
    all: by apply tickets_appended_otp.
  - (* QR *)
    unfold apiRouter.qr_checkin.
    repeat case_match; simplify_eq/=; try apply tickets_same.
    all: by apply tickets_appended_qr.
  - (* PATCH *)
    unfold apiRouter.update_appointment_status.
    case_bool_decide as Hvalid; cbn [negb]; [|constructor].
    destruct (ticket_by_id db id) as [[i t]|] eqn:Ht; [|constructor].
    apply ticket_by_id_lookup in Ht as [Hi _].
    cbn [fst queue_tickets with_queue_tickets].
    apply (tickets_rewritten db i t); [done|..].
    + unfold onupdate. by repeat (case_decide || case_match).
    + unfold onupdate. by repeat (case_decide || case_match).
    + intros Hact. destruct (decide (active t)) as [|Hna]; [done|].
      destruct Hre. split; [done|]. revert Hact. unfold active, onupdate.
      by repeat (case_decide || case_match).
  - (* send *)
    unfold apiRouter.send_otp. repeat case_match; exact (tickets_same db).
  - (* sms *)
    unfold apiRouter.sms_checkin. repeat case_match; exact (tickets_same db).
  - (* complete *)
    unfold apiRouter.complete_appointment.
    destruct (ticket_by_id db id) as [[i t]|] eqn:Ht; [|constructor].
    apply ticket_by_id_lookup in Ht as [Hi _].
    destruct (complete_ticket_row env t) as [d ->].
    destruct (visit_by_id db _) as [[j v]|]; [|constructor].
    cbn. apply (tickets_rewritten db i t); [done..|].
    unfold active. cbn. intros H%in_list3. by destruct H as [|[|]].
Qed.

Lemma active_tickets_elem db d t :
  t ∈ active_tickets db d
  ↔ (QueueTicket.queue_date t = d ∧ active t) ∧ t ∈ queue_tickets db.
Proof.
  unfold active_tickets.
  apply (list_elem_of_filter (λ t, QueueTicket.queue_date t = d ∧ active t)).
Qed.

(** Every change a request can make keeps the invariant. *)
Lemma tickets_changed_invariant db l' :
  queue_invariant (queue_tickets db) → tickets_changed db l' →
  queue_invariant l'.
Proof.
  intros Hinv Hstep. pose proof Hinv as [Hrange _].
  destruct Hstep as [|i t t' Hi Hdate Hpos Hact|t Hp|t Hp].
  - done.
  - by eapply queue_invariant_insert.
  - destruct (max_position_active db (QueueTicket.queue_date t))
      as (Hnil & Hle & Hmax).
    apply queue_invariant_snoc; [|intros t0 Ht0 Hd Ha|done].
    + destruct (decide (active_tickets db (QueueTicket.queue_date t) = []))
        as [Hq|Hq].
      * rewrite Hp, Hnil by done. lia.
      * destruct (Hmax Hq) as (t0 & [[Hd _] Ht0]%active_tickets_elem & Hm).
        specialize (Hrange t0 Ht0). rewrite Hd in Hrange. lia.
    + assert (t0 ∈ active_tickets db (QueueTicket.queue_date t)) as Hin
        by by apply active_tickets_elem.
      specialize (Hle t0 Hin). lia.
  - apply queue_invariant_snoc; [|intros t0 Ht0 Hd Ha|done].
    + lia.
    + specialize (Hrange t0 Ht0). rewrite Hd in Hrange. lia.
Qed.

Lemma run_cons db call calls : run db (call :: calls) = run (serve db call) calls.
Proof. done. Qed.

(** The invariant holds along every run that reactivates no ticket. *)
Lemma run_queue_invariant db calls :
  queue_invariant (queue_tickets db) → never_reactivates db calls →
  queue_invariant (queue_tickets (run db calls)).
Proof.
  revert db. induction calls as [|call calls IH]; intros db Hinv Hnever; [done|].
  destruct Hnever as [Hcall Hnever]. rewrite run_cons. apply IH; [|done].
  eapply tickets_changed_invariant; [done|]. by apply serve_tickets_changed.
Qed.

(** C3, the claim as stated fails. Ann checks in and gets position 1; her
    ticket is completed; Bob checks in and gets position 1 again, the queue
    being empty; a PATCH then sets Ann's ticket back to WAITING. Two waiting
    tickets of the same day now share position 1. *)
Lemma reactivation_shares_position :
  let db := run Clinic.morning
              [Clinic.verify Clinic.ann "111111";
               Clinic.complete 1;
               Clinic.verify Clinic.bob "222222";
               (Clinic.env, PATCH_appointment_status 1 "WAITING")] in
  queue_tickets Clinic.morning = []
  ∧ (QueueTicket.queue_date <$> queue_tickets db = [Clinic.today; Clinic.today]
     ∧ QueueTicket.queue_status <$> queue_tickets db = ["WAITING"; "WAITING"]
     ∧ QueueTicket.queue_position <$> queue_tickets db = [1; 1])
  ∧ ¬ unique_positions db.
Proof.
  intros db. split; [done|]. split; [by vm_compute|].
  intros Huniq.
  eapply (Huniq 0%nat 1%nat); [by vm_compute|by vm_compute|lia| | | |];
    [done|apply in_list3; by left|apply in_list3; by left|done].
Qed.

(** C3, amended. Start from an empty ticket table and serve any requests
    one after the other: check-ins by OTP and by QR code, starts,
    completions, status updates and the OTP endpoints. As long as no status
    update puts a ticket that had left the queue (a status outside WAITING,
    CALLED, IN_PROGRESS) back to one of these three, no two active tickets
    of one day share a position, and every position is at least 1, hence
    not negative. *)
Theorem positions_unique_without_reactivation db calls :
  queue_tickets db = [] →
  never_reactivates db calls →
  unique_positions (run db calls)
  ∧ nonnegative_positions (run db calls)
  ∧ ∀ t, t ∈ queue_tickets (run db calls) → 1 ≤ QueueTicket.queue_position t.
Proof.
  intros Hempty Hnever.
  destruct (run_queue_invariant db calls) as [Hrange Huniq]; [|done|].
  { rewrite Hempty. apply queue_invariant_nil. }
  split_and!.
  - exact Huniq.
  - intros t Ht. specialize (Hrange t Ht). lia.
  - intros t Ht. specialize (Hrange t Ht). lia.
Qed.

(** A day at the clinic: check-ins by OTP and by QR code, a call, a start, a
    completion and a cancellation. *)
Lemma positions_unique_without_reactivation_witness :
  let calls :=
    [Clinic.verify Clinic.ann "111111";
     (Clinic.env, POST_checkin_qr (Clinic.qr Clinic.bob));
     (Clinic.env, PATCH_appointment_status 1 "CALLED");
     (Clinic.env, POST_appointments_start (schemas.mkAppointmentStartRequest 1 None));
     Clinic.complete 1;
     Clinic.verify Clinic.cyd "333333";
     (Clinic.env, PATCH_appointment_status 2 "CANCELLED")] in
  QueueTicket.queue_status <$> queue_tickets (run Clinic.morning calls)
    = ["COMPLETED"; "CANCELLED"; "WAITING"]
  ∧ QueueTicket.queue_position <$> queue_tickets (run Clinic.morning calls)
    = [1; 2; 3]
  ∧ unique_positions (run Clinic.morning calls)
  ∧ nonnegative_positions (run Clinic.morning calls).
Proof.
  intros calls. split; [by vm_compute|]. split; [by vm_compute|].
  assert (Hnever : never_reactivates Clinic.morning calls)
    by (apply (bool_decide_eq_true_1 (never_reactivates Clinic.morning calls));
        by vm_compute).
  destruct (positions_unique_without_reactivation Clinic.morning calls eq_refl
              Hnever) as (Huniq & Hnonneg & _).
  done.
Defined.

(** ** One-time codes *)

Lemma valid_otp_Some env db request i o :
  crud.valid_otp env db request = Some (i, o) →
  otp_verifications db !! i = Some o
  ∧ OTPVerification.phone_number o = schemas.phone_number request
  ∧ OTPVerification.otp_code o = schemas.otp_code request
  ∧ OTPVerification.is_verified o = false
  ∧ OTPVerification.is_expired o = false
  ∧ func_now env < OTPVerification.expires_at o.
Proof. unfold crud.valid_otp. intros (? & ? & _)%list_find_Some. tauto. Qed.

Lemma valid_otp_None env db request :
  crud.valid_otp env db request = None
  ↔ ∀ o, o ∈ otp_verifications db →
         ¬ (OTPVerification.phone_number o = schemas.phone_number request
            ∧ OTPVerification.otp_code o = schemas.otp_code request
            ∧ OTPVerification.is_verified o = false
            ∧ OTPVerification.is_expired o = false
            ∧ func_now env < OTPVerification.expires_at o).
Proof. unfold crud.valid_otp. by rewrite list_find_None, Forall_forall. Qed.

Lemma existing_otp_Some db phone i o :
  apiRouter.existing_otp db phone = Some (i, o) →
  otp_verifications db !! i = Some o ∧ OTPVerification.is_verified o = false.
Proof. unfold apiRouter.existing_otp. intros (? & ? & _)%list_find_Some. tauto. Qed.

(** What [verify_otp_and_checkin] does to the OTP table. *)
Lemma verify_otp_and_checkin_otps env db request call :
  otps_changed db call
    (otp_verifications (crud.verify_otp_and_checkin env db request).1).
Proof.
  unfold crud.verify_otp_and_checkin.
  destruct (crud.valid_otp env db request) as [[i o]|] eqn:Hvalid;
    [|exact (otps_same _ _)].
  apply valid_otp_Some in Hvalid as (Hi & _ & _ & Hver & _).
  repeat case_match; cbn; first [exact (otps_same _ _) | by eapply otps_flagged].
Qed.

(** What each request does to the OTP table. *)
Lemma serve_otps_changed db call :
  otps_changed db call (otp_verifications (serve db call)).
Proof.
  destruct call as [env [r|r|r|id status|phone|r|id]]; cbn [serve].
  - unfold apiRouter.start_appointment, crud.start_appointment.
    repeat case_match; simplify_eq/=; exact (otps_same _ _).
  - unfold apiRouter.verify_otp.
    pose proof (verify_otp_and_checkin_otps env db r (env, POST_otp_verify r)).
    repeat case_match; simplify_eq/=; first [exact (otps_same _ _)|done].
  - unfold apiRouter.qr_checkin. repeat case_match; exact (otps_same _ _).
  - unfold apiRouter.update_appointment_status.
    repeat case_match; exact (otps_same _ _).
  - unfold apiRouter.send_otp.
    destruct (apiRouter.existing_otp db phone) as [[i o]|] eqn:Hfind.
    + apply existing_otp_Some in Hfind as [Hi Hver].
      case_bool_decide; [exact (otps_same _ _)|]. cbn. by eapply otps_resent.
    + destruct (varchar 20 phone); [|exact (otps_same _ _)].
      cbn. by apply otps_issued.
  - unfold apiRouter.sms_checkin.
    repeat case_match; cbn; first [exact (otps_same _ _)|by apply otps_issued].
  - unfold apiRouter.complete_appointment. repeat case_match; exact (otps_same _ _).
Qed.

(** A verified row is never written again. *)
Lemma serve_verified_frozen db call k o :
  otp_verifications db !! k = Some o →
  OTPVerification.is_verified o = true →
  otp_verifications (serve db call) !! k = Some o.
Proof.
  intros Hk Hver.
  destruct (serve_otps_changed db call) as [|i x x' Hi Hx _|i x x' p _ Hi Hx _|x _].
  - done.
  - rewrite list_lookup_insert_ne; [done|]. intros ->. congruence.
  - rewrite list_lookup_insert_ne; [done|]. intros ->. congruence.
  - by apply lookup_app_l_Some.
Qed.

Lemma run_verified_frozen db calls k o :
  otp_verifications db !! k = Some o →
  OTPVerification.is_verified o = true →
  otp_verifications (run db calls) !! k = Some o.
Proof.
  revert db. induction calls as [|call calls IH]; intros db Hk Hver; [done|].
  rewrite run_cons. apply IH; [|done]. by apply serve_verified_frozen.
Qed.

(** A successful [verify_otp_and_checkin] marks the row it matched. *)
Lemma verify_otp_and_checkin_marks env db request i o :
  crud.valid_otp env db request = Some (i, o) →
  success (crud.verify_otp_and_checkin env db request).2 = true →
  ∃ o', otp_verifications (crud.verify_otp_and_checkin env db request).1 !! i
          = Some o'
        ∧ OTPVerification.is_verified o' = true
        ∧ OTPVerification.verified_at o' = Some (utcnow env).
Proof.
  intros Hvalid. unfold crud.verify_otp_and_checkin, success. rewrite Hvalid.
  apply valid_otp_Some in Hvalid as (Hi & _).
  apply lookup_lt_Some in Hi.
  repeat case_match; cbn; try done; intros _; eexists;
    (split; [by apply list_lookup_insert_eq|done]).
Qed.

(** C5, the claim as stated fails. Ann has an appointment and texts JOIN
    twice; both times the draw is 482193, so two rows carry her phone
    number and that code. Her first attempt with the code checks her in and
    marks the first of the two rows verified. The same phone number and
    code then satisfy [verify_otp_and_checkin] a second time, through the
    other row. *)
Lemma verified_code_verifies_again :
  let appointment :=
    Visit.mk 1 1 (Some 5) None Clinic.today None "" "scheduled" None None in
  let join :=
    (Clinic.env,
     POST_checkin_sms (schemas.mkSMSCheckinRequest "+1-555-1011" "JOIN")) in
  let db := run (with_visits [appointment] 2 Clinic.morning) [join; join] in
  let request := Clinic.verify_request Clinic.ann "482193" in
  let first := crud.verify_otp_and_checkin Clinic.env db request in
  let second := crud.verify_otp_and_checkin Clinic.env first.1 request in
  OTPVerification.otp_code <$> otp_verifications db
    = ["111111"; "222222"; "333333"; "482193"; "482193"]
  ∧ first.2 = (true, "Check-in successful",
               Some (crud.mkCheckinData 1 2 (Some 1) (Some 1) (Some 0)))
  ∧ OTPVerification.is_verified <$> otp_verifications first.1
    = [false; false; false; true; false]
  ∧ second.2 = (true, "Already checked in for today",
                Some (crud.mkCheckinData 1 2 (Some 1) (Some 1) (Some 0)))
  ∧ OTPVerification.is_verified <$> otp_verifications second.1
    = [false; false; false; true; true].
Proof. vm_compute. done. Qed.

(** C5, amended. A row of the OTP table that is marked verified stays as it
    is, verified, whatever requests are served afterwards, and the lookup
    of [verify_otp_and_checkin] never returns it again, for any phone
    number, code and time: verification is a one-way transition of the
    record, and the record cannot be used a second time. *)
Theorem verified_otp_is_single_use db calls k o :
  otp_verifications db !! k = Some o →
  OTPVerification.is_verified o = true →
  otp_verifications (run db calls) !! k = Some o
  ∧ ∀ env request o', crud.valid_otp env (run db calls) request ≠ Some (k, o').
Proof.
  intros Hk Hver.
  pose proof (run_verified_frozen db calls k o Hk Hver) as Hfrozen.
  split; [done|]. intros env request o' (Hk' & _ & _ & Hver' & _)%valid_otp_Some.
  congruence.
Qed.

(** Ann checks in with her code. Whatever comes next, here a resend, a
    second attempt with the same code and a QR check-in, her code is spent. *)
Lemma verified_otp_is_single_use_witness :
  let db := run Clinic.morning [Clinic.verify Clinic.ann "111111"] in
  let calls := [(Clinic.env, POST_otp_send "+1-555-1011");
                Clinic.verify Clinic.ann "111111";
                (Clinic.env, POST_checkin_qr (Clinic.qr Clinic.bob))] in
  OTPVerification.is_verified <$> otp_verifications db = [true; false; false]
  ∧ (∀ env request o',
       crud.valid_otp env (run db calls) request ≠ Some (0%nat, o'))
  ∧ (crud.verify_otp_and_checkin Clinic.env (run db calls)
       (Clinic.verify_request Clinic.ann "111111")).2
    = (false, "Invalid or expired OTP", None).
Proof.
  intros db calls. split; [by vm_compute|].
  destruct (otp_verifications db !! 0%nat) as [o|] eqn:Hrow;
    [|by vm_compute in Hrow].
  assert (Hver : OTPVerification.is_verified o = true)
    by (vm_compute in Hrow; by injection Hrow as <-).
  destruct (verified_otp_is_single_use db calls 0%nat o Hrow Hver) as [_ Hnever].
  split; [exact Hnever|by vm_compute].
Defined.

(** C4, at the failing input. [verify_otp_and_checkin] compares the retry
    counter of the row it matched with the ceiling, but no failed attempt
    is ever counted: the counter is raised by [send_otp] alone. Ann's code
    has ceiling 3. Three attempts with a wrong code leave the database as
    it was, counter included, and the fourth attempt, with the right code,
    checks her in where the ceiling was due. And after three resends have
    brought the counter to the ceiling, an attempt with a wrong code is
    answered as an invalid code, not as an exceeded ceiling, since the row
    is looked up by its code. *)
Theorem failed_attempts_are_not_counted :
  let wrong := Clinic.verify Clinic.ann "000000" in
  let resend := (Clinic.env, POST_otp_send "+1-555-1011") in
  OTPVerification.max_attempts <$> otp_verifications Clinic.morning = [3; 3; 3]
  ∧ crud.verify_otp_and_checkin Clinic.env Clinic.morning
      (Clinic.verify_request Clinic.ann "000000")
    = (Clinic.morning, (false, "Invalid or expired OTP", None))
  ∧ run Clinic.morning [wrong; wrong; wrong] = Clinic.morning
  ∧ OTPVerification.retry_count
      <$> otp_verifications (run Clinic.morning [wrong; wrong; wrong])
    = [0; 0; 0]
  ∧ (crud.verify_otp_and_checkin Clinic.env
       (run Clinic.morning [wrong; wrong; wrong])
       (Clinic.verify_request Clinic.ann "111111")).2
    = (true, "Check-in successful",
       Some (crud.mkCheckinData 1 1 (Some 1) (Some 1) (Some 0)))
  ∧ OTPVerification.retry_count
      <$> otp_verifications (run Clinic.morning [resend; resend; resend])
    = [3; 0; 0]
  ∧ (crud.verify_otp_and_checkin Clinic.env
       (run Clinic.morning [resend; resend; resend])
       (Clinic.verify_request Clinic.ann "000000")).2
    = (false, "Invalid or expired OTP", None).
Proof. vm_compute. done. Qed.

(** X20. The ceiling check of [verify_otp_and_checkin]. When the row that
    the call matches (phone number and code agree, not verified, not
    expired by flag or by time) has a retry counter at or above its
    ceiling, the call fails with the attempts-exceeded message and flags
    the row as expired; nothing else is written. So it is with
    [retry_count = 3] and [max_attempts = 3], a counter that resends have
    raised. *)
Theorem verify_at_attempt_ceiling env db request i o :
  crud.valid_otp env db request = Some (i, o) →
  OTPVerification.max_attempts o ≤ OTPVerification.retry_count o →
  let out := crud.verify_otp_and_checkin env db request in
  out.2 = (false, "Maximum OTP verification attempts exceeded", None)
  ∧ out.1 = with_otp_verifications
              (<[i := OTPVerification.set_updated_at (func_now env)
                        (OTPVerification.set_is_expired true o)]>
                 (otp_verifications db))
              (otp_verifications_seq db) db
  ∧ ∃ o', otp_verifications out.1 !! i = Some o'
          ∧ OTPVerification.is_expired o' = true
          ∧ OTPVerification.is_verified o' = false
          ∧ OTPVerification.retry_count o' = OTPVerification.retry_count o.
Proof.
  intros Hvalid Hceiling out. subst out.
  unfold crud.verify_otp_and_checkin. rewrite Hvalid.
  apply valid_otp_Some in Hvalid as (Hi & _ & _ & Hver & _).
  rewrite bool_decide_eq_true_2 by done. cbn [fst snd].
  split_and!; [done..|]. eexists. split.
  - cbn. apply list_lookup_insert_eq. by eapply lookup_lt_Some.
  - done.
Qed.

(** Scenario E: Ann's code has been resent three times, so its counter is 3
    with ceiling 3; verifying it fails and expires the row. *)
Lemma verify_at_attempt_ceiling_witness :
  let resend := (Clinic.env, POST_otp_send "+1-555-1011") in
  let db := run Clinic.morning [resend; resend; resend] in
  let out := crud.verify_otp_and_checkin Clinic.env db
               (Clinic.verify_request Clinic.ann "111111") in
  (OTPVerification.retry_count <$> otp_verifications db) !! 0%nat = Some 3
  ∧ (OTPVerification.max_attempts <$> otp_verifications db) !! 0%nat = Some 3
  ∧ out.2 = (false, "Maximum OTP verification attempts exceeded", None)
  ∧ ∃ o', otp_verifications out.1 !! 0%nat = Some o'
          ∧ OTPVerification.is_expired o' = true.
Proof.
  intros resend db out. split; [by vm_compute|]. split; [by vm_compute|].
  destruct (crud.valid_otp Clinic.env db
              (Clinic.verify_request Clinic.ann "111111"))
    as [[i o]|] eqn:Hvalid; [|by vm_compute in Hvalid].
  assert (Hceiling : OTPVerification.max_attempts o
                     ≤ OTPVerification.retry_count o)
    by (vm_compute in Hvalid; injection Hvalid as _ <-; by vm_compute).
  destruct (verify_at_attempt_ceiling _ _ _ _ _ Hvalid Hceiling)
    as (Hfail & _ & o' & Hrow & Hexpired & _).
  assert (i = 0%nat) as -> by (vm_compute in Hvalid; by injection Hvalid as <- _).
  split; [exact Hfail|]. by exists o'.
Defined.

(** C10. [verify_otp_and_checkin] never changes a retry counter. When no
    stored row matches the request (phone number, code, not verified, not
    expired by flag or by time) it fails and returns the database as it got
    it. Over all endpoints, a row keeps its retry counter unless the request
    is a [send_otp], which adds one; rows that are created start at 0. *)
Theorem verify_leaves_retry_count :
  (∀ env db request,
     (∀ o, o ∈ otp_verifications db →
           ¬ (OTPVerification.phone_number o = schemas.phone_number request
              ∧ OTPVerification.otp_code o = schemas.otp_code request
              ∧ OTPVerification.is_verified o = false
              ∧ OTPVerification.is_expired o = false
              ∧ func_now env < OTPVerification.expires_at o)) →
     crud.verify_otp_and_checkin env db request
     = (db, (false, "Invalid or expired OTP", None)))
  ∧ (∀ env db request,
       OTPVerification.retry_count
         <$> otp_verifications (crud.verify_otp_and_checkin env db request).1
       = OTPVerification.retry_count <$> otp_verifications db)
  ∧ (∀ db call k o,
       otp_verifications db !! k = Some o →
       ∃ o', otp_verifications (serve db call) !! k = Some o'
             ∧ (OTPVerification.retry_count o' = OTPVerification.retry_count o
                ∨ (∃ phone, call.2 = POST_otp_send phone)
                  ∧ OTPVerification.retry_count o'
                    = OTPVerification.retry_count o + 1))
  ∧ (∀ db call k o',
       otp_verifications db !! k = None →
       otp_verifications (serve db call) !! k = Some o' →
       OTPVerification.retry_count o' = 0).
Proof.
  split_and!.
  - intros env db request Hnone%valid_otp_None.
    unfold crud.verify_otp_and_checkin. by rewrite Hnone.
  - intros env db request. unfold crud.verify_otp_and_checkin.
    destruct (crud.valid_otp env db request) as [[i x]|] eqn:Hvalid; [|done].
    apply valid_otp_Some in Hvalid as (Hi & _).
    repeat case_match; cbn; try done.
    all: rewrite list_fmap_insert; cbn; apply list_insert_id.
    all: by rewrite list_lookup_fmap, Hi.
  - intros db call k o Hk.
    destruct (serve_otps_changed db call)
      as [|i x x' Hi _ Hretry|i x x' p Hcall Hi _ Hretry|x _].
    + eauto.
    + destruct (decide (i = k)) as [->|Hne].
      * exists x'. rewrite list_lookup_insert_eq by by eapply lookup_lt_Some.
        split; [done|]. left. congruence.
      * exists o. rewrite list_lookup_insert_ne by done. eauto.
    + destruct (decide (i = k)) as [->|Hne].
      * exists x'. rewrite list_lookup_insert_eq by by eapply lookup_lt_Some.
        split; [done|]. right. split; [by eauto|congruence].
      * exists o. rewrite list_lookup_insert_ne by done. eauto.
    + exists o. split; [by apply lookup_app_l_Some|by left].
  - intros db call k o' Hk.
    destruct (serve_otps_changed db call)
      as [|i x x' Hi _ Hretry|i x x' p Hcall Hi _ Hretry|x Hx].
    + congruence.
    + intros [(-> & _ & Hlt)|[_ ?]]%list_lookup_insert_Some; [|congruence].
      apply lookup_ge_None in Hk. lia.
    + intros [(-> & _ & Hlt)|[_ ?]]%list_lookup_insert_Some; [|congruence].
      apply lookup_ge_None in Hk. lia.
    + intros [?|[_ [_ <-]%list_lookup_singleton_Some]]%lookup_app_Some;
        [congruence|done].
Qed.

(** ** One open visit per patient and day *)

Lemma existing_visit_None db patient d :
  crud.existing_visit db patient d = None → open_visits db patient d = [].
Proof.
  unfold crud.existing_visit, open_visits. rewrite list_find_None.
  induction 1 as [|v l Hv _ IH]; [done|].
  by rewrite filter_cons_False.
Qed.

(** The OTP path keeps the invariant: it opens a visit only when the patient
    has none that day. *)
Lemma verify_otp_and_checkin_one_open_visit env db request :
  one_open_visit db →
  one_open_visit (crud.verify_otp_and_checkin env db request).1.
Proof.
  intros Hone.
  destruct (crud.verify_otp_and_checkin env db request) as [db' [[ok msg] dat]]
    eqn:Hrun.
  destruct (decide ((ok, msg, dat).1 = (true, "Check-in successful"))) as [Hok|Hno].
  - destruct dat as [d|]; cycle 1.
    { revert Hrun. unfold crud.verify_otp_and_checkin.
      repeat case_match; intros; simplify_eq/=. }
    injection Hok as -> ->.
    destruct (verify_otp_and_checkin_new env db request d)
      as (s & visit & ticket & _ & Hvisits & _ & Hdate & Hstatus & Hpatient
          & Hnone & _); [by rewrite Hrun|].
    rewrite Hrun in Hvisits. cbn [fst] in *.
    apply existing_visit_None in Hnone.
    intros patient d'. specialize (Hone patient d').
    unfold open_visits in Hone |- *. rewrite Hvisits, filter_app, length_app.
    rewrite filter_cons, filter_nil. case_decide as Hmatch; [|cbn; lia].
    destruct Hmatch as (<- & <- & _). rewrite Hpatient, Hdate.
    fold (open_visits db (crud.cd_patient_id d) (utc_today env)).
    rewrite Hnone. cbn. lia.
  - assert (visits db' = visits db) as Hsame.
    { revert Hrun Hno. unfold crud.verify_otp_and_checkin.
      repeat case_match; intros; simplify_eq/=; done. }
    intros patient d'. unfold open_visits. cbn [fst]. rewrite Hsame. apply Hone.
Qed.

(** A second check-in by OTP on the same day is answered with the visit and
    the ticket of the first. *)
Example verify_otp_and_checkin_idempotent :
  let second_code := Clinic.otp 4 Clinic.ann "444444" 0 in
  let db := run Clinic.morning [Clinic.verify Clinic.ann "111111"] in
  let db := with_otp_verifications (otp_verifications db ++ [second_code]) 5 db in
  let out := crud.verify_otp_and_checkin Clinic.env db
               (Clinic.verify_request Clinic.ann "444444") in
  out.2 = (true, "Already checked in for today",
           Some (crud.mkCheckinData 1 1 (Some 1) (Some 1) (Some 0)))
  ∧ visits out.1 = visits db
  ∧ queue_tickets out.1 = queue_tickets db.
Proof. vm_compute. done. Qed.

(** C1, at the failing input. The QR path has no check for an open visit:
    Ann checks in by QR code twice on the same day, and the second request
    is answered with a new visit and a new ticket instead of the first
    ones. She is left with two open visits for the day. *)
Theorem qr_checkin_twice_opens_two_visits :
  let first := apiRouter.qr_checkin Clinic.env Clinic.morning
                 (Clinic.qr Clinic.ann) in
  let second := apiRouter.qr_checkin Clinic.env first.1 (Clinic.qr Clinic.ann) in
  first.2 = apiRouter.Ok (apiRouter.mkQRCheckInResponse 1 1 1 1)
  ∧ second.2 = apiRouter.Ok (apiRouter.mkQRCheckInResponse 1 2 2 2)
  ∧ length (open_visits first.1 1 Clinic.today) = 1%nat
  ∧ length (open_visits second.1 1 Clinic.today) = 2%nat
  ∧ one_open_visit Clinic.morning
  ∧ ¬ one_open_visit second.1.
Proof.
  intros first second. split_and!; try by vm_compute.
  - intros patient d. cbn. lia.
  - intros Hone. specialize (Hone 1 Clinic.today).
    assert (length (open_visits second.1 1 Clinic.today) = 2%nat) as Hlen
      by by vm_compute.
    lia.
Qed.

(** * Further properties *)

(** ** What a request does to patients, visits and tickets *)

Lemma patient_by_id_elem db id k p :
  patient_by_id db id = Some (k, p) →
  p ∈ patients db ∧ Some (Patient.patient_id p) = id.
Proof.
  unfold patient_by_id. intros (Hk & ? & _)%list_find_Some.
  split; [by eapply list_elem_of_lookup_2|done].
Qed.

Lemma active_patient_by_phone_elem db phone k p :
  active_patient_by_phone db phone = Some (k, p) →
  p ∈ patients db ∧ Patient.phone_number p = phone
  ∧ Patient.is_active p = true.
Proof.
  unfold active_patient_by_phone. intros (Hk & [? ?] & _)%list_find_Some.
  split; [by eapply list_elem_of_lookup_2|done].
Qed.

Ltac no_step := apply step_none; cbn; first [done | lia].
Ltac step_side :=
  cbn; first [done | by left | by right | by rewrite app_nil_r | by eauto
             | idtac].

Lemma start_appointment_step env db request :
  queue_step db (crud.start_appointment env db request).1.
Proof.
  unfold crud.start_appointment.
  destruct (ticket_by_id db _) as [[i t]|] eqn:Ht; [|no_step].
  apply ticket_by_id_lookup in Ht as [Hi _].
  case_bool_decide as Hst; cbn [negb]; [|no_step].
  destruct (visit_by_id db _) as [[j v]|] eqn:Hv; [|no_step].
  apply visit_by_id_lookup in Hv as [Hj Hid].
  destruct (patient_by_id db _) as [[k p]|]; [|no_step].
  rewrite start_ticket_row, start_visit_row by done.
  eapply (step_lifecycle db _ i t _ j v); cbn.
  9-10: reflexivity.
  all: cbn; try done.
  apply in_list2. by left.
Qed.

Lemma verify_otp_and_checkin_step env db request :
  queue_step db (crud.verify_otp_and_checkin env db request).1.
Proof.
  unfold crud.verify_otp_and_checkin.
  destruct (crud.valid_otp env db request) as [[i o]|]; [|no_step].
  case_bool_decide; [no_step|].
  destruct (patient_by_id db _) as [[k p]|] eqn:Hp; [|no_step].
  apply patient_by_id_elem in Hp as [Hp _].
  destruct (crud.existing_visit db _ _) as [[j v]|]; [no_step|].
  destruct (negb _); [no_step|].
  destruct (department_by_id db _) as [[n d]|]; cbn [fmap option_fmap option_map snd].
  - destruct (Department.average_service_time d); [|no_step].
    eapply (step_admission db _ []); cbn.
    3-4: reflexivity.
    all: step_side.
  - eapply (step_admission db _ []); cbn.
    3-4: reflexivity.
    all: step_side.
Qed.

Lemma qr_checkin_step env db request :
  queue_step db (apiRouter.qr_checkin env db request).1.
Proof.
  unfold apiRouter.qr_checkin.
  destruct (active_patient_by_phone db _) as [[k p]|] eqn:Hp.
  - apply active_patient_by_phone_elem in Hp as [Hp _].
    eapply (step_admission db _ []); cbn.
    3-4: reflexivity.
    all: step_side.
  - destruct (schemas.first_name request) as [first|]; [|no_step].
    destruct (schemas.last_name request) as [last|]; [|no_step].
    destruct (schemas.date_of_birth request) as [birth|]; [|no_step].
    destruct (_ || _); [no_step|].
    case_bool_decide as Hphone; [no_step|].
    eapply (step_admission db _ [_]); cbn.
    2-4: reflexivity.
    all: cbn; try done.
    + right. eexists. by split_and!.
    + eexists.
      split; [apply elem_of_app; right; by apply list_elem_of_singleton|done].
    + by right.
Qed.

Lemma update_appointment_status_step env db id status :
  queue_step db (apiRouter.update_appointment_status env db id status).1.
Proof.
  unfold apiRouter.update_appointment_status.
  case_bool_decide as Hvalid; cbn [negb]; [|no_step].
  destruct (ticket_by_id db id) as [[i t]|] eqn:Ht; [|no_step].
  apply ticket_by_id_lookup in Ht as [Hi _].
  eapply (step_status db _ i t); cbn.
  4: reflexivity.
  all: cbn; try done.
  - unfold same_ticket, onupdate. by repeat (case_decide || case_match).
  - unfold onupdate. by repeat (case_decide || case_match).
Qed.

Lemma complete_appointment_step env db id :
  queue_step db (apiRouter.complete_appointment env db id).1.
Proof.
  unfold apiRouter.complete_appointment.
  destruct (ticket_by_id db id) as [[i t]|] eqn:Ht; [|no_step].
  apply ticket_by_id_lookup in Ht as [Hi _].
  destruct (complete_ticket_row env t) as [d ->].
  destruct (visit_by_id db _) as [[j v]|] eqn:Hv; [|no_step].
  apply visit_by_id_lookup in Hv as [Hj Hid].
  destruct (complete_visit_row env v) as [d' ->].
  eapply (step_lifecycle db _ i t _ j v); cbn.
  9-10: reflexivity.
  all: cbn; try done.
  apply in_list2. by right.
Qed.

(** Every request is one of the four steps. *)
Lemma serve_step db call : queue_step db (serve db call).
Proof.
  destruct call as [env [r|r|r|id status|phone|r|id]]; cbn [serve].
  - pose proof (start_appointment_step env db r) as Hstep.
    unfold apiRouter.start_appointment.
    by destruct (crud.start_appointment env db r) as [? [[[] ?] []]].
  - pose proof (verify_otp_and_checkin_step env db r) as Hstep.
    unfold apiRouter.verify_otp. destruct (negb _); [no_step|].
    by destruct (crud.verify_otp_and_checkin env db r) as [? [[[] ?] []]].
  - apply qr_checkin_step.
  - apply update_appointment_status_step.
  - unfold apiRouter.send_otp. repeat case_match; no_step.
  - unfold apiRouter.sms_checkin. repeat case_match; no_step.
  - apply complete_appointment_step.
Qed.

(** ** Keys and references *)

Lemma fmap_insert_same {A B : Type} (f : A → B) (l : list A) i x x' :
  l !! i = Some x → f x' = f x → f <$> <[i := x']> l = f <$> l.
Proof.
  intros Hi Hf. rewrite list_fmap_insert, Hf. apply list_insert_id.
  by rewrite list_lookup_fmap, Hi.
Qed.

Lemma elem_of_insert_inv {A : Type} (l : list A) i x' y :
  y ∈ <[i := x']> l → y = x' ∨ y ∈ l.
Proof.
  intros (k & Hk)%list_elem_of_lookup_1.
  apply list_lookup_insert_Some in Hk as [(_ & <- & _)|[_ Hk]]; [by left|].
  right. by eapply list_elem_of_lookup_2.
Qed.

Lemma NoDup_snoc_fresh (l : list Z) k :
  NoDup l → (∀ x, x ∈ l → x < k) → NoDup (l ++ [k]).
Proof.
  intros Hl Hk. apply NoDup_app. split_and!; [done| |apply NoDup_singleton].
  intros x Hx Hx'%list_elem_of_singleton. subst. specialize (Hk _ Hx). lia.
Qed.

Lemma elem_of_fmap_bound {A : Type} (f : A → Z) (l : list A) k :
  (∀ x, x ∈ l → f x < k) → ∀ y, y ∈ f <$> l → y < k.
Proof. intros Hl y (x & -> & Hx)%list_elem_of_fmap. by apply Hl. Qed.

(** Each of the four steps keeps the declared constraints. *)
Lemma queue_step_consistent db db' :
  queue_step db db' → consistent db → consistent db'.
Proof.
  intros Hstep (Hp & Hv & Ht & Np & Nv & Nt & Ntv).
  destruct Hstep as
    [Ep Ev Et Sp Sv St
    |i t t' Hi (K1 & K2 & _) _ Et Ep Ev Sp Sv St
    |i t t' j v v' Hi Hj _ (K1 & K2 & _) (V1 & V2 & _) _ _ _ Et Ev Ep Sp Sv St
    |reg v t Hreg Ep Ev Et Hpat Vid _ _ Tid Tv _ _ _ Sv St].
  - unfold consistent. rewrite Ep, Ev, Et, St. split_and!; try done.
    + intros p Hin. specialize (Hp p Hin). lia.
    + intros v Hin. destruct (Hv v Hin) as [? ?]. split; [lia|done].
  - unfold consistent. rewrite Ep, Ev, Et, Sp, Sv, St.
    rewrite !(fmap_insert_same _ _ _ _ _ Hi) by done.
    split_and!; try done.
    intros x [->|Hx]%elem_of_insert_inv; [|by apply Ht].
    rewrite K1, K2. apply Ht. by eapply list_elem_of_lookup_2.
  - unfold consistent. rewrite Ep, Ev, Et, Sp, Sv, St.
    rewrite !(fmap_insert_same _ _ _ _ _ Hi) by done.
    rewrite !(fmap_insert_same _ _ _ _ _ Hj) by done.
    assert (∀ x, x ∈ visits db →
                 ∃ y, y ∈ <[j := v']> (visits db)
                      ∧ Visit.visit_id y = Visit.visit_id x) as Hkeep.
    { intros x (n & Hn)%list_elem_of_lookup_1.
      destruct (decide (n = j)) as [->|Hne].
      - exists v'. split; [apply list_elem_of_insert; by eapply lookup_lt_Some|].
        congruence.
      - exists x. split; [|done]. eapply list_elem_of_lookup_2.
        by rewrite list_lookup_insert_ne. }
    split_and!; try done.
    + intros x [->|Hx]%elem_of_insert_inv; [|by apply Hv].
      rewrite V1, V2. apply Hv. by eapply list_elem_of_lookup_2.
    + intros x Hx.
      assert (QueueTicket.ticket_id x < queue_tickets_seq db
              ∧ ∃ y, y ∈ visits db
                     ∧ Visit.visit_id y = QueueTicket.visit_id x)
        as [Hlt (y & Hy & Hid)].
      { apply elem_of_insert_inv in Hx as [->|Hx]; [|by apply Ht].
        rewrite K1, K2. apply Ht. by eapply list_elem_of_lookup_2. }
      split; [done|]. destruct (Hkeep y Hy) as (y' & Hy' & Hid').
      exists y'. split; [done|congruence].
  - assert (∀ p, p ∈ patients db' → Patient.patient_id p < patients_seq db')
      as Hp'.
    { rewrite Ep. intros p [Hin|Hin]%elem_of_app.
      - specialize (Hp p Hin). destruct Hreg as [[_ ->]|(? & _ & _ & _ & _ & ->)]; lia.
      - destruct Hreg as [[-> _]|(q & -> & Hq & _ & _ & ->)];
          [by apply elem_of_nil in Hin|].
        apply list_elem_of_singleton in Hin as ->. lia. }
    unfold consistent. split_and!; try done.
    + rewrite Ev, Sv. intros x [Hin|Hin%list_elem_of_singleton]%elem_of_app; [|subst x].
      * destruct (Hv x Hin) as [? (p & Hpin & ?)]. split; [lia|].
        exists p. split; [|done]. rewrite Ep. apply elem_of_app. by left.
      * split; [lia|done].
    + rewrite Et, St, Ev.
      intros x [Hin|Hin%list_elem_of_singleton]%elem_of_app; [|subst x].
      * destruct (Ht x Hin) as [? (y & Hy & ?)]. split; [lia|].
        exists y. split; [|done]. apply elem_of_app. by left.
      * split; [lia|]. exists v. split; [|done].
        apply elem_of_app. right. by apply list_elem_of_singleton.
    + rewrite Ep, fmap_app.
      destruct Hreg as [[-> _]|(q & -> & Hq & _ & _ & _)];
        [by rewrite app_nil_r|].
      cbn. rewrite Hq. apply NoDup_snoc_fresh; [done|].
      by apply elem_of_fmap_bound.
    + rewrite Ev, fmap_app. cbn. rewrite Vid.
      apply NoDup_snoc_fresh; [done|].
      apply elem_of_fmap_bound. intros x Hx. by apply Hv.
    + rewrite Et, fmap_app. cbn. rewrite Tid.
      apply NoDup_snoc_fresh; [done|].
      apply elem_of_fmap_bound. intros x Hx. by apply Ht.
    + rewrite Et, fmap_app. cbn. rewrite Tv, Vid.
      apply NoDup_snoc_fresh; [done|].
      apply elem_of_fmap_bound. intros x Hx.
      destruct (Ht x Hx) as [_ (y & Hy & <-)]. by apply Hv.
Qed.

Lemma run_keeps_consistent db calls :
  consistent db → consistent (run db calls).
Proof.
  revert db. induction calls as [|call calls IH]; intros db Hdb; [done|].
  rewrite run_cons. apply IH. eapply queue_step_consistent; [|done].
  apply serve_step.
Qed.

(** X1. The constraints declared in [models.py] are kept by every sequence
    of requests: starting from a database that satisfies them, with the
    sequences ahead of the stored keys, the primary keys of patients, visits
    and tickets stay unique, no two tickets share a visit, every ticket
    refers to a stored visit and every visit to a stored patient. *)
Theorem constraints_kept_along_runs db calls :
  consistent db →
  let db' := run db calls in
  NoDup (Patient.patient_id <$> patients db')
  ∧ NoDup (Visit.visit_id <$> visits db')
  ∧ NoDup (QueueTicket.ticket_id <$> queue_tickets db')
  ∧ NoDup (QueueTicket.visit_id <$> queue_tickets db')
  ∧ (∀ t, t ∈ queue_tickets db' →
          ∃ v, v ∈ visits db' ∧ Visit.visit_id v = QueueTicket.visit_id t)
  ∧ (∀ v, v ∈ visits db' →
          ∃ p, p ∈ patients db' ∧ Patient.patient_id p = Visit.patient_id v)
  ∧ consistent db'.
Proof.
  intros Hdb db'.
  pose proof (run_keeps_consistent db calls Hdb) as Hrun.
  pose proof Hrun as (Hp & Hv & Ht & Np & Nv & Nt & Ntv).
  split_and!; try done.
  - intros t Hin. by apply Ht.
  - intros v Hin. by apply Hv.
Qed.

(** A database with stored patients and an empty queue satisfies the
    constraints when the patient keys are unique and below the sequence. *)
Lemma consistent_empty_queue db :
  visits db = [] → queue_tickets db = [] →
  NoDup (Patient.patient_id <$> patients db) →
  Forall (λ p, Patient.patient_id p < patients_seq db) (patients db) →
  consistent db.
Proof.
  intros Hv Ht Hnodup Hbound. unfold consistent. rewrite Hv, Ht.
  rewrite Forall_forall in Hbound.
  split_and!; try done; try apply NoDup_nil_2; intros x Hx; by inversion Hx.
Qed.

Lemma morning_consistent : consistent Clinic.morning.
Proof.
  apply consistent_empty_queue; try done.
  - apply (bool_decide_eq_true_1 (NoDup _)). by vm_compute.
  - cbn. repeat constructor; cbn; lia.
Qed.

(** A day at the clinic keeps the constraints. *)
Lemma constraints_kept_along_runs_witness :
  let calls :=
    [Clinic.verify Clinic.ann "111111";
     (Clinic.env, POST_checkin_qr (Clinic.qr Clinic.bob));
     (Clinic.env, POST_checkin_qr
                    (schemas.mkQRCheckInRequest "+1-555-1014" "345678"
                       (Some "Dee") (Some "Kim") (Some 9500)));
     (Clinic.env, PATCH_appointment_status 1 "CALLED");
     Clinic.complete 2] in
  Patient.patient_id <$> patients (run Clinic.morning calls) = [1; 2; 3; 4]
  ∧ QueueTicket.visit_id <$> queue_tickets (run Clinic.morning calls) = [1; 2; 3]
  ∧ consistent (run Clinic.morning calls).
Proof.
  intros calls. split; [by vm_compute|]. split; [by vm_compute|].
  apply (constraints_kept_along_runs Clinic.morning calls morning_consistent).
Defined.

Lemma ticket_by_id_stored db i t :
  NoDup (QueueTicket.ticket_id <$> queue_tickets db) →
  queue_tickets db !! i = Some t →
  ticket_by_id db (QueueTicket.ticket_id t) = Some (i, t).
Proof.
  intros Hnodup Hi. unfold ticket_by_id. apply list_find_Some.
  split_and!; [done..|]. intros j y Hj Hlt Heq.
  assert (j = i); [|lia].
  eapply (NoDup_lookup _ _ _ _ Hnodup); rewrite list_lookup_fmap.
  - by rewrite Hj.
  - by rewrite Hi, Heq.
Qed.

Lemma ticket_by_id_Some db id :
  is_Some (ticket_by_id db id)
  ↔ ∃ t, t ∈ queue_tickets db ∧ QueueTicket.ticket_id t = id.
Proof.
  unfold ticket_by_id. split.
  - intros [[i t] (Hi & ? & _)%list_find_Some].
    exists t. split; [by eapply list_elem_of_lookup_2|done].
  - intros (t & Ht & Hid).
    by apply (list_find_elem_of (λ t, QueueTicket.ticket_id t = id) _ t).
Qed.

Lemma visit_by_id_Some db id :
  is_Some (visit_by_id db id)
  ↔ ∃ v, v ∈ visits db ∧ Visit.visit_id v = id.
Proof.
  unfold visit_by_id. split.
  - intros [[i v] (Hi & ? & _)%list_find_Some].
    exists v. split; [by eapply list_elem_of_lookup_2|done].
  - intros (v & Hv & Hid).
    by apply (list_find_elem_of (λ v, Visit.visit_id v = id) _ v).
Qed.

Lemma patient_by_id_Some db id :
  is_Some (patient_by_id db (Some id))
  ↔ ∃ p, p ∈ patients db ∧ Patient.patient_id p = id.
Proof.
  unfold patient_by_id. split.
  - intros [[i p] (Hi & ? & _)%list_find_Some].
    exists p. split; [by eapply list_elem_of_lookup_2|congruence].
  - intros (p & Hp & Hid).
    apply (list_find_elem_of (λ p, Some (Patient.patient_id p) = Some id) _ p);
      [done|congruence].
Qed.

(** ** Starting and completing on a consistent database *)

(** X2. On a database that satisfies the declared constraints,
    [start_appointment] succeeds exactly when a ticket with the requested
    key is stored and its status is WAITING or CALLED: the failures "Visit
    not found" and "Patient not found" do not occur. *)
Theorem start_appointment_succeeds_iff env db request :
  consistent db →
  let out := crud.start_appointment env db request in
  (success out.2 = true
   ↔ ∃ t, t ∈ queue_tickets db
          ∧ QueueTicket.ticket_id t = schemas.asr_ticket_id request
          ∧ QueueTicket.queue_status t ∈ ["WAITING"; "CALLED"])
  ∧ message out.2 ≠ "Visit not found"
  ∧ message out.2 ≠ "Patient not found".
Proof.
  intros (_ & Hv & Ht & _ & _ & Nt & _) out. subst out.
  unfold crud.start_appointment, success, message.
  destruct (ticket_by_id db _) as [[i t]|] eqn:Hfind.
  - pose proof Hfind as [Hi Hid]%ticket_by_id_lookup.
    assert (t ∈ queue_tickets db) as Hin by by eapply list_elem_of_lookup_2.
    destruct (Ht t Hin) as [_ Hvisit%visit_by_id_Some].
    destruct Hvisit as [[j v] Hvisit]. rewrite Hvisit.
    pose proof Hvisit as [Hj _]%visit_by_id_lookup.
    assert (v ∈ visits db) as Hvin by by eapply list_elem_of_lookup_2.
    destruct (Hv v Hvin) as [_ Hpatient%patient_by_id_Some].
    destruct Hpatient as [[k p] Hpatient]. rewrite Hpatient.
    case_bool_decide as Hst; cbn [negb fst snd].
    + split_and!; [|done..]. split; [eauto|done].
    + split_and!; [|by destruct (QueueTicket.queue_status t)..].
      split; [done|]. intros (t' & Hin' & Hid' & Hst').
      destruct (list_elem_of_lookup_1 _ _ Hin') as [i' Hi'].
      pose proof (ticket_by_id_stored db i' t' Nt Hi') as Hfind'.
      rewrite Hid', Hfind in Hfind'. by simplify_eq.
  - cbn [fst snd]. split_and!; [|done..]. split; [done|].
    intros (t & Hin & Hid & _).
    assert (is_Some (ticket_by_id db (schemas.asr_ticket_id request))) as [? ?]
      by (apply ticket_by_id_Some; eauto).
    congruence.
Qed.

(** Ann's ticket is waiting, so it can be started. *)
Lemma start_appointment_succeeds_iff_witness :
  let db := run Clinic.morning [Clinic.verify Clinic.ann "111111"] in
  success (crud.start_appointment Clinic.env db
             (schemas.mkAppointmentStartRequest 1 None)).2 = true.
Proof.
  intros db.
  assert (consistent db) as Hdb by apply run_keeps_consistent, morning_consistent.
  destruct (start_appointment_succeeds_iff Clinic.env db
              (schemas.mkAppointmentStartRequest 1 None) Hdb) as [[_ Hok] _].
  apply Hok.
  destruct (queue_tickets db !! 0%nat) as [t|] eqn:Ht; [|by vm_compute in Ht].
  exists t. split; [by eapply list_elem_of_lookup_2|].
  vm_compute in Ht. injection Ht as <-. split; [done|]. apply in_list2. by left.
Defined.



(** ** Checking in twice by OTP *)

(** A new check-in by OTP, in full. *)
Lemma verify_otp_and_checkin_admits env db request d :
  (crud.verify_otp_and_checkin env db request).2
    = (true, "Check-in successful", Some d) →
  ∃ i o k p visit ticket,
    crud.valid_otp env db request = Some (i, o)
    ∧ patient_by_id db (OTPVerification.patient_id o) = Some (k, p)
    ∧ crud.existing_visit db (Patient.patient_id p) (utc_today env) = None
    ∧ patients (crud.verify_otp_and_checkin env db request).1 = patients db
    ∧ visits (crud.verify_otp_and_checkin env db request).1
      = visits db ++ [visit]
    ∧ queue_tickets (crud.verify_otp_and_checkin env db request).1
      = queue_tickets db ++ [ticket]
    ∧ Visit.visit_id visit = visits_seq db
    ∧ Visit.patient_id visit = Patient.patient_id p
    ∧ Visit.visit_date visit = utc_today env
    ∧ Visit.visit_status visit = "ACTIVE"
    ∧ Visit.doctor_id visit = schemas.doctor_id request
    ∧ QueueTicket.ticket_id ticket = queue_tickets_seq db
    ∧ QueueTicket.visit_id ticket = visits_seq db
    ∧ QueueTicket.queue_status ticket = "WAITING"
    ∧ doctors (crud.verify_otp_and_checkin env db request).1 = doctors db
    ∧ fk_doctor db (schemas.doctor_id request) = true
    ∧ d = {| crud.cd_patient_id := Patient.patient_id p;
             crud.cd_visit_id := visits_seq db;
             crud.cd_ticket_id := Some (queue_tickets_seq db);
             crud.cd_queue_position := Some (QueueTicket.queue_position ticket);
             crud.cd_estimated_wait_time :=
               QueueTicket.estimated_wait_time ticket |}.
Proof.
  unfold crud.verify_otp_and_checkin.
  destruct (crud.valid_otp env db request) as [[i o]|] eqn:Hvalid; [|done].
  case_bool_decide; [done|].
  destruct (patient_by_id db _) as [[k p]|] eqn:Hpatient; [|done].
  destruct (crud.existing_visit db _ _) as [[j v]|] eqn:Hvisit; [done|].
  destruct (fk_department db _); [|done].
  destruct (fk_doctor db _) eqn:Hdoctor; [|done]. cbn [negb andb].
  destruct (department_by_id db _) as [[n dept]|];
    cbn [fmap option_fmap option_map snd].
  - destruct (Department.average_service_time dept) as [s|]; [|done].
    cbn [fst snd]. intros [= <-].
    exists i, o, k, p. eexists _, _. split_and!; first [done|reflexivity].
  - cbn [fst snd]. intros [= <-].
    exists i, o, k, p. eexists _, _. split_and!; first [done|reflexivity].
Qed.

(** The answer to a patient who has an open visit that day. *)
Lemma verify_otp_and_checkin_already env db request i o k p j v :
  crud.valid_otp env db request = Some (i, o) →
  OTPVerification.retry_count o < OTPVerification.max_attempts o →
  patient_by_id db (OTPVerification.patient_id o) = Some (k, p) →
  crud.existing_visit db (Patient.patient_id p) (utc_today env) = Some (j, v) →
  let queue_ticket := snd <$> ticket_by_visit db (Visit.visit_id v) in
  let out := crud.verify_otp_and_checkin env db request in
  out.2 = (true, "Already checked in for today",
           Some {| crud.cd_patient_id := Patient.patient_id p;
                   crud.cd_visit_id := Visit.visit_id v;
                   crud.cd_ticket_id := QueueTicket.ticket_id <$> queue_ticket;
                   crud.cd_queue_position :=
                     QueueTicket.queue_position <$> queue_ticket;
                   crud.cd_estimated_wait_time :=
                     queue_ticket ≫= QueueTicket.estimated_wait_time |})
  ∧ patients out.1 = patients db
  ∧ visits out.1 = visits db
  ∧ queue_tickets out.1 = queue_tickets db.
Proof.
  intros Hvalid Hretry Hpatient Hvisit queue_ticket out. subst out queue_ticket.
  unfold crud.verify_otp_and_checkin.
  rewrite Hvalid, bool_decide_eq_false_2, Hpatient, Hvisit by lia. done.
Qed.

Lemma list_find_snoc_new {A : Type} (P : A → Prop) `{∀ x, Decision (P x)}
    (l : list A) (x : A) :
  Forall (λ y, ¬ P y) l → P x → list_find P (l ++ [x]) = Some (length l, x).
Proof.
  intros Hl Hx. apply list_find_Some. split_and!.
  - by rewrite lookup_app_r, Nat.sub_diag.
  - done.
  - intros j y Hj Hlt. rewrite lookup_app_l in Hj by done.
    rewrite Forall_forall in Hl. apply Hl. by eapply list_elem_of_lookup_2.
Qed.

(** [send_otp] and [sms_checkin] write OTP rows only. *)
Lemma run_otp_requests_keep_queue db calls :
  Forall (λ call : Env * Request,
            match call.2 with
            | POST_otp_send _ | POST_checkin_sms _ => True
            | _ => False
            end) calls →
  patients (run db calls) = patients db
  ∧ visits (run db calls) = visits db
  ∧ queue_tickets (run db calls) = queue_tickets db.
Proof.
  revert db. induction calls as [|[env call] calls IH]; intros db Hcalls;
    [done|].
  apply Forall_cons in Hcalls as [Hcall Hcalls]. rewrite run_cons.
  destruct (IH (serve db (env, call)) Hcalls) as (-> & -> & ->).
  destruct call; try done; cbn [serve].
  - unfold apiRouter.send_otp. by repeat case_match.
  - unfold apiRouter.sms_checkin. by repeat case_match.
Qed.

(** X4. Idempotent admission on the OTP path. After a patient has been
    admitted by [verify_otp_and_checkin], take any later state in which the
    tables of patients, visits and tickets are as the admission left them
    (requests that write OTP rows only may have been served in between). A
    call on the same UTC day with another valid code of the same patient
    (below its ceiling) is then answered "Already checked in for today"
    with the very data of the first admission (patient, visit, ticket,
    position and estimate), and it adds no visit and no ticket. Nothing is
    said of states in which a visit or a ticket has been written since: once
    the visit is completed, the next check-in opens a new one. *)
Theorem second_checkin_returns_first env db request d db2 env2 request2 i2 o2 :
  consistent db →
  (crud.verify_otp_and_checkin env db request).2
    = (true, "Check-in successful", Some d) →
  let db1 := (crud.verify_otp_and_checkin env db request).1 in
  patients db2 = patients db1 →
  visits db2 = visits db1 →
  queue_tickets db2 = queue_tickets db1 →
  crud.valid_otp env2 db2 request2 = Some (i2, o2) →
  OTPVerification.retry_count o2 < OTPVerification.max_attempts o2 →
  OTPVerification.patient_id o2 = Some (crud.cd_patient_id d) →
  utc_today env2 = utc_today env →
  let out2 := crud.verify_otp_and_checkin env2 db2 request2 in
  out2.2 = (true, "Already checked in for today", Some d)
  ∧ visits out2.1 = visits db2
  ∧ queue_tickets out2.1 = queue_tickets db2.
Proof.
  intros (_ & Hv & Ht & _) Hfirst db1 E2p E2v E2t Hvalid2 Hretry2 Hpid2 Hday
    out2.
  destruct (verify_otp_and_checkin_admits _ _ _ _ Hfirst)
    as (i & o & k & p & visit & ticket & _ & Hpatient & Hnone & Ep & Ev & Et
        & Vid & Vp & Vd & Vs & _ & Tid & Tv & _ & _ & _ & ->).
  fold db1 in Ep, Ev, Et. cbn in Hpid2.
  rewrite Ep in E2p. rewrite Ev in E2v. rewrite Et in E2t.
  assert (patient_by_id db2 (OTPVerification.patient_id o2) = Some (k, p))
    as Hpatient2.
  { pose proof Hpatient as [_ Hid]%patient_by_id_elem.
    unfold patient_by_id in *. by rewrite E2p, Hpid2, Hid. }
  assert (crud.existing_visit db2 (Patient.patient_id p) (utc_today env2)
          = Some (length (visits db), visit)) as Hvisit2.
  { unfold crud.existing_visit in *. rewrite E2v, Hday.
    apply list_find_snoc_new; [by apply list_find_None in Hnone|].
    rewrite Vp, Vd, Vs. split_and!; [done..|]. apply in_list3. by left. }
  assert (ticket_by_visit db2 (Visit.visit_id visit)
          = Some (length (queue_tickets db), ticket)) as Hticket2.
  { unfold ticket_by_visit. rewrite E2t, Vid.
    apply list_find_snoc_new; [|done].
    apply Forall_forall. intros t Hin Heq.
    destruct (Ht t Hin) as [_ (v & Hvin & Hid)].
    destruct (Hv v Hvin) as [Hlt _]. lia. }
  destruct (verify_otp_and_checkin_already env2 db2 request2 _ _ _ _ _ _
              Hvalid2 Hretry2 Hpatient2 Hvisit2) as (Hout & _ & Hvis & Htick).
  split_and!; [|done..].
  subst out2. rewrite Hout, Hticket2. cbn. by rewrite Vid, Tid.
Qed.

(** Ann holds two codes and checks in with the first. Her second code is
    then resent and a code goes to another phone number, which writes OTP
    rows only. Her attempt with the second code returns the first
    admission. *)
Lemma second_checkin_returns_first_witness :
  let d := crud.mkCheckinData 1 1 (Some 1) (Some 1) (Some 0) in
  let db :=
    with_otp_verifications
      (otp_verifications Clinic.morning ++ [Clinic.otp 4 Clinic.ann "444444" 0])
      5 Clinic.morning in
  let first := crud.verify_otp_and_checkin Clinic.env db
                 (Clinic.verify_request Clinic.ann "111111") in
  let db2 := run first.1 [(Clinic.env, POST_otp_send "+1-555-1011");
                          (Clinic.env, POST_otp_send "+1-555-2000")] in
  let second := crud.verify_otp_and_checkin Clinic.env db2
                  (Clinic.verify_request Clinic.ann "444444") in
  first.2 = (true, "Check-in successful", Some d)
  ∧ OTPVerification.retry_count <$> otp_verifications db2 = [0; 0; 0; 1; 0]
  ∧ second.2 = (true, "Already checked in for today", Some d)
  ∧ visits second.1 = visits db2
  ∧ queue_tickets second.1 = queue_tickets db2.
Proof.
  intros d db first db2 second.
  assert (Hdb : consistent db).
  { apply consistent_empty_queue; try done.
    - apply (bool_decide_eq_true_1 (NoDup _)). by vm_compute.
    - cbn. repeat constructor; cbn; lia. }
  assert (Hfirst : first.2 = (true, "Check-in successful", Some d))
    by by vm_compute.
  split; [done|]. split; [by vm_compute|].
  destruct (crud.valid_otp Clinic.env db2
              (Clinic.verify_request Clinic.ann "444444"))
    as [[i2 o2]|] eqn:Hvalid; [|by vm_compute in Hvalid].
  assert (OTPVerification.retry_count o2 < OTPVerification.max_attempts o2
          ∧ OTPVerification.patient_id o2 = Some 1) as [Hretry Hpid]
    by (vm_compute in Hvalid; injection Hvalid as _ <-; by vm_compute).
  assert (patients db2 = patients first.1 ∧ visits db2 = visits first.1
          ∧ queue_tickets db2 = queue_tickets first.1) as (Ep & Ev & Et)
    by (apply run_otp_requests_keep_queue; by repeat constructor).
  apply (second_checkin_returns_first Clinic.env db _ d db2 Clinic.env _ i2 o2
           Hdb Hfirst Ep Ev Et Hvalid Hretry Hpid eq_refl).
Defined.

(** ** Checking in by QR code *)

(** A check-in by QR code, in full: the patient is the active one of the
    phone number, or a new row when there is none. *)
Lemma qr_checkin_admits env db request r :
  (apiRouter.qr_checkin env db request).2 = apiRouter.Ok r →
  ∃ registered p visit ticket,
    patients (apiRouter.qr_checkin env db request).1 = patients db ++ registered
    ∧ ((registered = []
        ∧ ∃ k, active_patient_by_phone db (schemas.qr_phone_number request)
               = Some (k, p))
       ∨ (registered = [p]
          ∧ active_patient_by_phone db (schemas.qr_phone_number request) = None
          ∧ Patient.patient_id p = patients_seq db))
    ∧ Patient.phone_number p = schemas.qr_phone_number request
    ∧ Patient.is_active p = true
    ∧ doctors (apiRouter.qr_checkin env db request).1 = doctors db
    ∧ visits (apiRouter.qr_checkin env db request).1 = visits db ++ [visit]
    ∧ queue_tickets (apiRouter.qr_checkin env db request).1
      = queue_tickets db ++ [ticket]
    ∧ otp_verifications (apiRouter.qr_checkin env db request).1
      = otp_verifications db
    ∧ Visit.visit_id visit = visits_seq db
    ∧ Visit.patient_id visit = Patient.patient_id p
    ∧ Visit.doctor_id visit = None
    ∧ Visit.department_id visit = None
    ∧ Visit.visit_date visit = date_today env
    ∧ Visit.visit_status visit = "ACTIVE"
    ∧ QueueTicket.ticket_id ticket = queue_tickets_seq db
    ∧ QueueTicket.visit_id ticket = visits_seq db
    ∧ QueueTicket.queue_status ticket = "WAITING"
    ∧ QueueTicket.estimated_wait_time ticket = None
    ∧ r = {| apiRouter.qr_patient_id := Patient.patient_id p;
             apiRouter.qr_visit_id := visits_seq db;
             apiRouter.qr_ticket_id := queue_tickets_seq db;
             apiRouter.qr_queue_position := QueueTicket.queue_position ticket |}.
Proof.
  unfold apiRouter.qr_checkin.
  destruct (active_patient_by_phone db _) as [[k p]|] eqn:Hp.
  - pose proof Hp as (_ & Hphone & Hactive)%active_patient_by_phone_elem.
    cbn [fst snd]. intros [= <-].
    exists [], p. eexists _, _.
    split_and!; first [done|reflexivity|by rewrite app_nil_r|idtac].
    left. eauto.
  - destruct (schemas.first_name request) as [first|]; [|done].
    destruct (schemas.last_name request) as [last|]; [|done].
    destruct (schemas.date_of_birth request) as [birth|]; [|done].
    destruct (_ || _); [done|].
    case_bool_decide as Hphone; [done|].
    cbn [fst snd]. intros [= <-].
    eexists [_], _, _, _.
    split_and!; first [done|reflexivity|idtac].
    all: try done.
    right. done.
Qed.

Lemma doctor_by_id_None db : doctor_by_id db None = None.
Proof. unfold doctor_by_id. apply list_find_None, Forall_forall. done. Qed.

(** No request removes or rewrites a patient: the table only grows at its
    end, so a lookup that has found a row keeps finding it. *)
Lemma run_patients_grow db calls :
  ∃ registered, patients (run db calls) = patients db ++ registered.
Proof.
  revert db. induction calls as [|call calls IH]; intros db.
  - exists []. by rewrite app_nil_r.
  - rewrite run_cons. destruct (IH (serve db call)) as [later ->].
    destruct (serve_step db call)
      as [-> _ _ _ _ _|? ? ? _ _ _ _ -> _ _ _ _
         |? ? ? ? ? ? _ _ _ _ _ _ _ _ _ _ -> _ _ _
         |registered ? ? _ -> _ _ _ _ _ _ _ _ _ _ _ _ _].
    + by exists later.
    + by exists later.
    + by exists later.
    + exists (registered ++ later). by rewrite app_assoc.
Qed.

Lemma run_keeps_active_patient db calls phone k p :
  active_patient_by_phone db phone = Some (k, p) →
  active_patient_by_phone (run db calls) phone = Some (k, p).
Proof.
  unfold active_patient_by_phone. intros Hfound.
  destruct (run_patients_grow db calls) as [registered ->].
  by apply list_find_app_l.
Qed.

(** X5. A patient who checked in by QR code is recognised by their phone
    number from then on. After a check-in by QR code from a phone number
    that fits its column, serve any requests: the lookup of the active
    patient by that phone number still finds the patient of the response,
    and a QR check-in from that phone number is answered for the same
    patient, registers nobody, and adds one more visit and one more ticket,
    whatever open visits the patient has. *)
Theorem qr_checkin_recognises_patient env db request r calls :
  (String.length (schemas.qr_phone_number request) ≤ 20)%nat →
  (apiRouter.qr_checkin env db request).2 = apiRouter.Ok r →
  let db' := run (apiRouter.qr_checkin env db request).1 calls in
  (∃ k p, active_patient_by_phone db' (schemas.qr_phone_number request)
          = Some (k, p)
          ∧ Patient.patient_id p = apiRouter.qr_patient_id r)
  ∧ ∀ env2 request2,
      schemas.qr_phone_number request2 = schemas.qr_phone_number request →
      let out2 := apiRouter.qr_checkin env2 db' request2 in
      (∃ r2, out2.2 = apiRouter.Ok r2
             ∧ apiRouter.qr_patient_id r2 = apiRouter.qr_patient_id r)
      ∧ patients out2.1 = patients db'
      ∧ length (visits out2.1) = S (length (visits db'))
      ∧ length (queue_tickets out2.1) = S (length (queue_tickets db')).
Proof.
  intros _ Hok db'.
  destruct (qr_checkin_admits _ _ _ _ Hok)
    as (reg & p & visit & ticket & Ep & Hreg & Hphone & Hactive & _ & _ & _
        & _ & _ & _ & _ & _ & _ & _ & _ & _ & _ & _ & ->).
  assert (∃ k, active_patient_by_phone db' (schemas.qr_phone_number request)
               = Some (k, p)) as [k Hfound].
  { assert (∃ k, active_patient_by_phone
                   (apiRouter.qr_checkin env db request).1
                   (schemas.qr_phone_number request) = Some (k, p))
      as [k Hfirst].
    { unfold active_patient_by_phone in *. rewrite Ep.
      destruct Hreg as [[-> [k Hk]]|(-> & Hnone & _)].
      - exists k. by rewrite app_nil_r.
      - eexists. apply list_find_snoc_new;
          [by apply list_find_None in Hnone|done]. }
    exists k. by apply run_keeps_active_patient. }
  split; [by exists k, p|].
  intros env2 request2 Hsame out2. subst out2.
  unfold apiRouter.qr_checkin. rewrite Hsame, Hfound. cbn [fst snd].
  split_and!.
  - eexists. split; [reflexivity|done].
  - done.
  - cbn. rewrite length_app. cbn. lia.
  - cbn. rewrite length_app. cbn. lia.
Qed.

(** Dee registers by QR code. Ann then checks in by OTP, Dee's ticket is
    completed and a code is sent to a third phone number. Dee's next QR
    request the same day is answered for her, as patient 4, and adds a
    visit. *)
Lemma qr_checkin_recognises_patient_witness :
  let dee := schemas.mkQRCheckInRequest "+1-555-1014" "345678"
               (Some "Dee") (Some "Kim") (Some 9500) in
  let again := schemas.mkQRCheckInRequest "+1-555-1014" "345678" None None None in
  let first := apiRouter.qr_checkin Clinic.env Clinic.morning dee in
  let calls := [Clinic.verify Clinic.ann "111111"; Clinic.complete 1;
                (Clinic.env, POST_otp_send "+1-555-2000")] in
  let second := apiRouter.qr_checkin Clinic.env (run first.1 calls) again in
  first.2 = apiRouter.Ok (apiRouter.mkQRCheckInResponse 4 1 1 1)
  ∧ length (visits (run first.1 calls)) = 2%nat
  ∧ (∃ r2, second.2 = apiRouter.Ok r2 ∧ apiRouter.qr_patient_id r2 = 4)
  ∧ patients second.1 = patients (run first.1 calls)
  ∧ length (visits second.1) = 3%nat.
Proof.
  intros dee again first calls second.
  assert (Hok : first.2 = apiRouter.Ok (apiRouter.mkQRCheckInResponse 4 1 1 1))
    by by vm_compute.
  assert (Hfits : (String.length (schemas.qr_phone_number dee) ≤ 20)%nat)
    by (cbn; lia).
  split; [done|]. split; [by vm_compute|].
  destruct (qr_checkin_recognises_patient Clinic.env Clinic.morning dee _ calls
              Hfits Hok) as [_ Hagain].
  destruct (Hagain Clinic.env again eq_refl) as (Hr2 & Hp & Hv & _).
  split_and!; [done..|].
  transitivity (S (length (visits (run first.1 calls)))); [exact Hv|by vm_compute].
Defined.

(** X6. The status of a visit opened by QR code cannot be read: on a
    database that satisfies the declared constraints, after a check-in by QR
    code [get_appointment_status] answers 404 "Doctor not found" for the
    visit of the response, because the visit carries no doctor; its ticket
    carries no estimate either. *)
Theorem qr_checkin_status_not_found env db request r :
  consistent db →
  (apiRouter.qr_checkin env db request).2 = apiRouter.Ok r →
  let db' := (apiRouter.qr_checkin env db request).1 in
  get_appointment_status db' (apiRouter.qr_visit_id r)
    = ReadHTTPException 404 "Doctor not found"
  ∧ ∃ i t, ticket_by_id db' (apiRouter.qr_ticket_id r) = Some (i, t)
           ∧ QueueTicket.visit_id t = apiRouter.qr_visit_id r
           ∧ QueueTicket.queue_position t = apiRouter.qr_queue_position r
           ∧ QueueTicket.estimated_wait_time t = None.
Proof.
  intros (_ & Hv & Ht & _) Hok db'.
  destruct (qr_checkin_admits _ _ _ _ Hok)
    as (reg & p & visit & ticket & Ep & Hreg & _ & _ & Ed & Ev & Et & _
        & Vid & Vp & Vdoc & _ & _ & _ & Tid & Tv & _ & Test & ->).
  fold db' in Ep, Ed, Ev, Et. cbn [apiRouter.qr_visit_id apiRouter.qr_ticket_id
    apiRouter.qr_queue_position].
  assert (visit_by_id db' (visits_seq db) = Some (length (visits db), visit))
    as Hvisit.
  { unfold visit_by_id. rewrite Ev. apply list_find_snoc_new; [|done].
    apply Forall_forall. intros v Hin Heq. destruct (Hv v Hin) as [Hlt _]. lia. }
  assert (is_Some (patient_by_id db' (Some (Visit.patient_id visit))))
    as [[k q] Hpatient].
  { apply patient_by_id_Some. exists p. split; [|done]. rewrite Ep.
    apply elem_of_app. destruct Hreg as [[_ [k Hk]]|(-> & _)].
    - left. by apply active_patient_by_phone_elem in Hk as [? _].
    - right. by apply list_elem_of_singleton. }
  split.
  - unfold get_appointment_status.
    by rewrite Hvisit, Hpatient, Vdoc, doctor_by_id_None.
  - exists (length (queue_tickets db)), ticket. split_and!; [|done..].
    unfold ticket_by_id. rewrite Et. apply list_find_snoc_new; [|done].
    apply Forall_forall. intros t Hin Heq. destruct (Ht t Hin) as [Hlt _]. lia.
Qed.

(** Bob checks in by QR code; the status of his visit is answered 404. *)
Lemma qr_checkin_status_not_found_witness :
  let out := apiRouter.qr_checkin Clinic.env Clinic.morning
               (Clinic.qr Clinic.bob) in
  out.2 = apiRouter.Ok (apiRouter.mkQRCheckInResponse 2 1 1 1)
  ∧ get_appointment_status out.1 1 = ReadHTTPException 404 "Doctor not found".
Proof.
  intros out.
  assert (Hok : out.2 = apiRouter.Ok (apiRouter.mkQRCheckInResponse 2 1 1 1))
    by by vm_compute.
  split; [done|].
  by destruct (qr_checkin_status_not_found Clinic.env Clinic.morning _ _
                 morning_consistent Hok) as [Hstatus _].
Defined.

(** X7. A phone number that belongs to a deactivated patient cannot check
    in by QR code: whatever the request says, it is refused (400 when the
    new-patient fields are incomplete, else the 500 of the unique phone
    number) and no row of any table is written. *)
Theorem qr_checkin_deactivated_phone env db request :
  schemas.qr_phone_number request ∈ Patient.phone_number <$> patients db →
  active_patient_by_phone db (schemas.qr_phone_number request) = None →
  let out := apiRouter.qr_checkin env db request in
  ((∃ detail, out.2 = apiRouter.HTTPException 400 detail)
   ∨ out.2 = apiRouter.InternalServerError (IntegrityError "patients"))
  ∧ patients out.1 = patients db
  ∧ visits out.1 = visits db
  ∧ queue_tickets out.1 = queue_tickets db
  ∧ otp_verifications out.1 = otp_verifications db.
Proof.
  intros Hphone Hnone out. subst out. unfold apiRouter.qr_checkin.
  rewrite Hnone.
  destruct (schemas.first_name request) as [first|]; [|by eauto 10].
  destruct (schemas.last_name request) as [last|]; [|by eauto 10].
  destruct (schemas.date_of_birth request) as [birth|]; [|by eauto 10].
  destruct (_ || _); [by eauto 10|].
  rewrite bool_decide_eq_true_2 by done. cbn. split_and!; [|done..].
  by right.
Qed.

(** Ann has been deactivated; her phone number can no longer check in. *)
Lemma qr_checkin_deactivated_phone_witness :
  let gone := Patient.mk 1 "Ann" "Lee" "+1-555-1011" (Some 7300) false in
  let db := with_patients [gone; Clinic.bob; Clinic.cyd] 4 Clinic.morning in
  (apiRouter.qr_checkin Clinic.env db (Clinic.qr Clinic.ann)).1 = db
  ∧ visits (apiRouter.qr_checkin Clinic.env db
              (schemas.mkQRCheckInRequest "+1-555-1011" "345678"
                 (Some "Ann") (Some "Lee") (Some 7300))).1 = [].
Proof.
  intros gone db. split; [by vm_compute|].
  destruct (qr_checkin_deactivated_phone Clinic.env db
              (schemas.mkQRCheckInRequest "+1-555-1011" "345678"
                 (Some "Ann") (Some "Lee") (Some 7300)))
    as (_ & _ & Hv & _); [|by vm_compute|done].
  cbn. apply elem_of_cons. by left.
Defined.

(** ** The clinician's queue *)

Lemma queue_step_written_statuses db db' :
  queue_step db db' → written_statuses db → written_statuses db'.
Proof.
  intros Hstep Hdb.
  destruct Hstep as
    [_ _ Et _ _ _
    |i t t' _ _ Hst Et _ _ _ _ _
    |i t t' j v v' _ _ _ _ _ Hst _ _ Et _ _ _ _ _
    |reg v t _ _ _ Et _ _ _ _ _ _ _ Hst _ _ _]; unfold written_statuses;
    rewrite Et.
  - done.
  - intros x [->|Hx]%elem_of_insert_inv; [done|by apply Hdb].
  - intros x [->|Hx]%elem_of_insert_inv; [|by apply Hdb].
    unfold apiRouter.valid_statuses. rewrite !elem_of_cons.
    apply in_list2 in Hst as [->| ->]; auto.
  - intros x [Hx|Hx%list_elem_of_singleton]%elem_of_app; [by apply Hdb|].
    subst x. rewrite Hst. apply elem_of_cons. by left.
Qed.

Lemma run_written_statuses db calls :
  written_statuses db → written_statuses (run db calls).
Proof.
  revert db. induction calls as [|call calls IH]; intros db Hdb; [done|].
  rewrite run_cons. apply IH. eapply queue_step_written_statuses; [|done].
  apply serve_step.
Qed.

Lemma filter_none {A : Type} (P : A → Prop) `{∀ x, Decision (P x)} (l : list A) :
  (∀ x, x ∈ l → ¬ P x) → filter P l = [].
Proof.
  induction l as [|x l IH]; intros Hl; [done|].
  rewrite filter_cons_False by (apply Hl; by left).
  apply IH. intros y Hy. apply Hl. by right.
Qed.

(** X8. The clinician's queue is always empty. Start from an empty ticket
    table and serve any requests: every ticket then carries one of the five
    upper-case status texts the endpoints write, while the filter of
    [get_clinician_queue] asks for "waiting", "called" or "in_progress". So
    for every doctor and every date the endpoint lists no patient: it
    answers 404, 400, or a queue with [total_patients = 0]. *)
Theorem clinician_queue_is_empty db calls env clinician_id queue_date :
  queue_tickets db = [] →
  let db' := run db calls in
  (∀ target_date, clinician_queue_tickets db' clinician_id target_date = [])
  ∧ ((∃ code detail, get_clinician_queue env db' clinician_id queue_date
                     = ReadHTTPException code detail
                     ∧ (code = 404 ∨ code = 400))
     ∨ ∃ body, get_clinician_queue env db' clinician_id queue_date = ReadOk body
               ∧ cq_total_patients body = 0%nat
               ∧ cq_queue_tickets body = []).
Proof.
  intros Hempty db'.
  assert (written_statuses db') as Hst.
  { apply run_written_statuses. intros t Ht. rewrite Hempty in Ht.
    by inversion Ht. }
  assert (∀ d, clinician_queue_tickets db' clinician_id d = []) as Hqueue.
  { intros d. unfold clinician_queue_tickets. rewrite filter_none; [done|].
    intros t Ht (_ & _ & Hlow). specialize (Hst t Ht).
    unfold apiRouter.valid_statuses in Hst. apply in_list3 in Hlow.
    repeat (apply elem_of_cons in Hst as [Hst|Hst]);
      [..|by apply elem_of_nil in Hst];
      rewrite Hst in Hlow; by destruct Hlow as [|[|]]. }
  split; [done|]. unfold get_clinician_queue.
  destruct (list_find _ (doctors db')) as [[k doctor]|]; [|left; eauto 10].
  destruct queue_date; [|left; eauto 10|]; right; rewrite Hqueue; cbn; eauto.
Qed.

(** Ann is waiting for doctor 9, who still sees an empty queue. *)
Lemma clinician_queue_is_empty_witness :
  let db := with_patients (patients Clinic.morning) 4
              (mkDb (patients Clinic.morning) (departments Clinic.morning)
                 [Doctor.mk 9 (Some 5) true] [] []
                 (otp_verifications Clinic.morning) 4 1 1 4) in
  let request :=
    schemas.mkOTPVerifyRequest "+1-555-1011" "111111" (Some 5) (Some 9) "OTP" in
  let db' := run db [(Clinic.env, POST_otp_verify request)] in
  (Visit.doctor_id <$> visits db' = [Some 9]
   ∧ QueueTicket.queue_status <$> queue_tickets db' = ["WAITING"])
  ∧ get_clinician_queue Clinic.env db' 9 queue_date_absent
    = ReadOk (mkClinicianQueueResponse 9 "Cardiology" 0 []).
Proof.
  intros db request db'. split; [by vm_compute|].
  destruct (clinician_queue_is_empty db [(Clinic.env, POST_otp_verify request)]
              Clinic.env 9 queue_date_absent eq_refl) as [_ Hqueue].
  destruct Hqueue as [(code & detail & Hq & _)|(body & Hq & _)];
    fold db' in Hq; rewrite Hq; revert Hq; by vm_compute.
Defined.

(** ** Scheduled visits *)

Lemma queue_step_scheduled db db' :
  queue_step db db' → scheduled_not_checked_in db →
  scheduled_not_checked_in db'.
Proof.
  intros Hstep Hdb.
  destruct Hstep as
    [_ Ev _ _ _ _
    |i t t' _ _ _ _ _ Ev _ _ _
    |i t t' j v v' _ _ _ _ _ Hst Hvs _ _ Ev _ _ _ _
    |reg v t _ _ Ev _ _ _ Hvs _ _ _ _ _ _ _ _];
    unfold scheduled_not_checked_in; rewrite Ev.
  - done.
  - done.
  - intros x [->|Hx]%elem_of_insert_inv; [|by apply Hdb].
    rewrite Hvs. apply in_list2 in Hst as [->| ->]; done.
  - intros x [Hx|Hx%list_elem_of_singleton]%elem_of_app; [by apply Hdb|].
    subst x. by rewrite Hvs.
Qed.

Lemma run_scheduled db calls :
  scheduled_not_checked_in db → scheduled_not_checked_in (run db calls).
Proof.
  revert db. induction calls as [|call calls IH]; intros db Hdb; [done|].
  rewrite run_cons. apply IH. eapply queue_step_scheduled; [|done].
  apply serve_step.
Qed.

(** X9. No endpoint checks a scheduled visit in. Start from a database in
    which no scheduled visit carries a check-in time and serve any requests:
    still no scheduled visit carries one (admissions open new visits and
    leave the scheduled row as it is), so [sms_checkin] never answers "You
    have already checked in.". *)
Theorem scheduled_visits_stay_unchecked db calls env request :
  scheduled_not_checked_in db →
  scheduled_not_checked_in (run db calls)
  ∧ ∀ response,
      (apiRouter.sms_checkin env (run db calls) request).2
        = apiRouter.Ok response →
      apiRouter.sms_message response ≠ "You have already checked in.".
Proof.
  intros Hdb. pose proof (run_scheduled db calls Hdb) as Hrun.
  split; [done|]. intros response. unfold apiRouter.sms_checkin.
  destruct (negb _); [by intros [= <-]|].
  destruct (active_patient_by_phone _ _) as [[k p]|]; [|by intros [= <-]].
  destruct (apiRouter.scheduled_visit _ _ _) as [[j v]|] eqn:Hvisit;
    [|by intros [= <-]].
  unfold apiRouter.scheduled_visit in Hvisit.
  apply list_find_Some in Hvisit as (Hj & (_ & _ & Hst) & _).
  rewrite (Hrun v) by (done || by eapply list_elem_of_lookup_2).
  rewrite bool_decide_eq_false_2 by (intros Hne; by apply Hne).
  by intros [= <-].
Qed.

(** Ann has an appointment today; she texts JOIN, checks in with the code,
    and texts JOIN again: her appointment is still scheduled without a
    check-in time, and she is sent another code. *)
Lemma scheduled_visits_stay_unchecked_witness :
  let appointment :=
    Visit.mk 1 1 (Some 5) None Clinic.today None "" "scheduled" None None in
  let db := with_visits [appointment] 2 Clinic.morning in
  let join := schemas.mkSMSCheckinRequest "+1-555-1011" " join " in
  let calls := [(Clinic.env, POST_checkin_sms join);
                Clinic.verify Clinic.ann "482193"] in
  Visit.visit_status <$> visits (run db calls) = ["scheduled"; "ACTIVE"]
  ∧ scheduled_not_checked_in (run db calls)
  ∧ (apiRouter.sms_checkin Clinic.env (run db calls) join).2
    = apiRouter.Ok (apiRouter.mkSMSCheckinResponse true
                      "OTP sent to your phone. Please reply with the code."
                      true (Some 1)).
Proof.
  intros appointment db join calls. split; [by vm_compute|].
  assert (Hdb : scheduled_not_checked_in db).
  { intros v Hv _. cbn in Hv. apply list_elem_of_singleton in Hv. by subst v. }
  destruct (scheduled_visits_stay_unchecked db calls Clinic.env join Hdb)
    as [Hrun _].
  split; [done|by vm_compute].
Defined.

(** ** Visits and tickets come in pairs *)

Lemma queue_step_paired db db' :
  queue_step db db' →
  QueueTicket.visit_id <$> queue_tickets db = Visit.visit_id <$> visits db →
  QueueTicket.visit_id <$> queue_tickets db'
  = Visit.visit_id <$> visits db'.
Proof.
  intros Hstep Hdb.
  destruct Hstep as
    [_ Ev Et _ _ _
    |i t t' Hi (_ & K2 & _) _ Et _ Ev _ _ _
    |i t t' j v v' Hi Hj _ (_ & K2 & _) (V1 & _) _ _ _ Et Ev _ _ _ _
    |reg v t _ _ Ev Et _ _ _ _ _ Tv _ _ _ _ _]; rewrite Ev, Et.
  - done.
  - by rewrite (fmap_insert_same _ _ _ _ _ Hi).
  - by rewrite (fmap_insert_same _ _ _ _ _ Hi), (fmap_insert_same _ _ _ _ _ Hj).
  - rewrite !fmap_app, Hdb. cbn. by rewrite Tv.
Qed.

(** X10. Visits and tickets are created together and stay paired. Start
    with no visit and no ticket and serve any requests: the n-th ticket
    belongs to the n-th visit, so there are as many tickets as visits, and
    ticket and visit never drift apart when statuses are rewritten. *)
Theorem tickets_pair_with_visits db calls :
  visits db = [] → queue_tickets db = [] →
  QueueTicket.visit_id <$> queue_tickets (run db calls)
    = Visit.visit_id <$> visits (run db calls)
  ∧ length (queue_tickets (run db calls)) = length (visits (run db calls)).
Proof.
  intros Hv Ht.
  assert (QueueTicket.visit_id <$> queue_tickets (run db calls)
          = Visit.visit_id <$> visits (run db calls)) as Hpair.
  { assert (QueueTicket.visit_id <$> queue_tickets db
            = Visit.visit_id <$> visits db) as Hdb by by rewrite Hv, Ht.
    clear Hv Ht. revert db Hdb.
    induction calls as [|call calls IH]; intros db Hdb; [done|].
    rewrite run_cons. apply IH. eapply queue_step_paired; [|done].
    apply serve_step. }
  split; [done|]. apply (f_equal length) in Hpair.
  by rewrite !length_fmap in Hpair.
Qed.

(** Three admissions, by OTP and by QR code, and some status changes. *)
Lemma tickets_pair_with_visits_witness :
  let calls :=
    [Clinic.verify Clinic.ann "111111";
     (Clinic.env, POST_checkin_qr (Clinic.qr Clinic.bob));
     Clinic.complete 1;
     (Clinic.env, POST_checkin_qr (Clinic.qr Clinic.ann));
     (Clinic.env, PATCH_appointment_status 2 "CANCELLED")] in
  Visit.visit_id <$> visits (run Clinic.morning calls) = [1; 2; 3]
  ∧ QueueTicket.visit_id <$> queue_tickets (run Clinic.morning calls)
    = Visit.visit_id <$> visits (run Clinic.morning calls).
Proof.
  intros calls. split; [by vm_compute|].
  by destruct (tickets_pair_with_visits Clinic.morning calls eq_refl eq_refl).
Defined.

(** ** What a call of verify consumes *)

(** X11. [verify_otp_and_checkin] consumes a code exactly when it succeeds.
    On success, with a new admission or with "Already checked in for
    today", the row it matched is marked verified and stamped. On failure no
    row becomes verified and no patient, visit or ticket is written. *)
Theorem otp_consumed_iff_success env db request :
  let out := crud.verify_otp_and_checkin env db request in
  (success out.2 = true →
   ∃ i o o', crud.valid_otp env db request = Some (i, o)
             ∧ otp_verifications out.1 !! i = Some o'
             ∧ OTPVerification.is_verified o' = true
             ∧ OTPVerification.verified_at o' = Some (utcnow env))
  ∧ (success out.2 = false →
     OTPVerification.is_verified <$> otp_verifications out.1
       = OTPVerification.is_verified <$> otp_verifications db
     ∧ patients out.1 = patients db
     ∧ visits out.1 = visits db
     ∧ queue_tickets out.1 = queue_tickets db).
Proof.
  intros out. subst out. unfold crud.verify_otp_and_checkin, success.
  destruct (crud.valid_otp env db request) as [[i o]|] eqn:Hvalid; [|done].
  pose proof Hvalid as (Hi & _)%valid_otp_Some.
  assert (i < length (otp_verifications db))%nat as Hlt
    by by eapply lookup_lt_Some.
  repeat case_match; cbn; split; try done.
  all: first
    [ intros _; exists i, o; eexists;
      split; [done|]; split; [by apply list_lookup_insert_eq|done]
    | intros _; split; [|done];
      by apply (fmap_insert_same OTPVerification.is_verified _ _ _ _ Hi) ].
Qed.

(** Cyd's department has been closed since she got her code: the check-in
    fails and her code is still good once the department is back. *)
Example otp_survives_failed_checkin :
  let db := mkDb (patients Clinic.morning) [] [] [] []
              (otp_verifications Clinic.morning) 4 1 1 4 in
  let out := crud.verify_otp_and_checkin Clinic.env db
               (Clinic.verify_request Clinic.cyd "333333") in
  out.2 = (false, "Error during check-in: IntegrityError on visits", None)
  ∧ OTPVerification.is_verified <$> otp_verifications out.1
    = [false; false; false]
  ∧ visits_seq out.1 = 2.
Proof. vm_compute. done. Qed.

(** ** Department and doctor of an admission *)


(** X12. The 30-minute default is used exactly for requests that name no
    department. When [verify_otp_and_checkin] admits a patient, a
    department named in the request is stored and has a service time, which
    gives the estimate, and a doctor named in the request is stored; a
    request naming an unknown department or doctor, or a department without
    service time, never leads to an admission. *)
Theorem admission_needs_known_department env db request d :
  (crud.verify_otp_and_checkin env db request).2
    = (true, "Check-in successful", Some d) →
  ∃ position,
    crud.cd_queue_position d = Some position
    ∧ match schemas.department_id request with
      | None => crud.cd_estimated_wait_time d = Some ((position - 1) * 30)
      | Some id =>
        ∃ k row s, department_by_id db (Some id) = Some (k, row)
                   ∧ Department.department_id row = id
                   ∧ Department.average_service_time row = Some s
                   ∧ crud.cd_estimated_wait_time d = Some ((position - 1) * s)
      end
    ∧ match schemas.doctor_id request with
      | None => True
      | Some id => id ∈ Doctor.doctor_id <$> doctors db
      end.
Proof.
  unfold crud.verify_otp_and_checkin.
  destruct (crud.valid_otp env db request) as [[i o]|]; [|done].
  case_bool_decide; [done|].
  destruct (patient_by_id db _) as [[k p]|]; [|done].
  destruct (crud.existing_visit db _ _) as [[j v]|]; [done|].
  destruct (fk_department db _) eqn:Hdep; [|done].
  destruct (fk_doctor db _) eqn:Hdoc; [|done]. cbn [negb andb].
  assert (match schemas.doctor_id request with
          | None => True
          | Some id => id ∈ Doctor.doctor_id <$> doctors db
          end) as Hdoctor.
  { unfold fk_doctor in Hdoc. destruct (schemas.doctor_id request); [|done].
    by apply bool_decide_eq_true_1 in Hdoc. }
  destruct (schemas.department_id request) as [id|].
  - unfold fk_department in Hdep. apply bool_decide_eq_true_1 in Hdep.
    destruct (department_by_id_stored db id Hdep) as (n & row & Hrow & Hid).
    rewrite Hrow. cbn [fmap option_fmap option_map snd].
    destruct (Department.average_service_time row) as [s|] eqn:Hs; [|done].
    cbn [fst snd]. intros [= <-]. eexists. split; [done|]. split; [|done].
    exists n, row, s. by split_and!.
  - rewrite department_by_id_None. cbn. intros [= <-].
    eexists. split; [done|]. split; [|done]. done.
Qed.

(** Bob names no department and gets the default; Cyd names Cardiology. *)
Lemma admission_needs_known_department_witness :
  let db := run Clinic.morning [Clinic.verify Clinic.ann "111111"] in
  let request :=
    schemas.mkOTPVerifyRequest "+1-555-1012" "222222" None None "OTP" in
  ∃ d, (crud.verify_otp_and_checkin Clinic.env db request).2
         = (true, "Check-in successful", Some d)
       ∧ crud.cd_estimated_wait_time d = Some ((2 - 1) * 30).
Proof.
  intros db request.
  set (d := crud.mkCheckinData 2 2 (Some 2) (Some 2) (Some 30)).
  assert (Hok : (crud.verify_otp_and_checkin Clinic.env db request).2
                = (true, "Check-in successful", Some d)) by by vm_compute.
  destruct (admission_needs_known_department _ _ _ _ Hok)
    as (position & Hposition & Hestimate & _).
  exists d. split; [done|]. cbn in Hposition, Hestimate. by simplify_eq.
Defined.

(** ** Codes by SMS *)

(** X13. [sms_checkin] sends a new code for every JOIN. When a JOIN has
    been answered with a code, the same request served again on the same
    day is answered with a code again: each call appends one unverified row
    for the patient, valid for ten minutes, and writes nothing else, so a
    patient can hold several valid codes and no earlier code is withdrawn. *)
Theorem sms_checkin_repeats env db request response env2 :
  (apiRouter.sms_checkin env db request).2 = apiRouter.Ok response →
  apiRouter.sms_success response = true →
  date_today env2 = date_today env →
  let db' := (apiRouter.sms_checkin env db request).1 in
  (∃ o, otp_verifications db' = otp_verifications db ++ [o]
        ∧ OTPVerification.phone_number o = schemas.sms_phone_number request
        ∧ OTPVerification.otp_code o = choices_digits_6 env
        ∧ OTPVerification.is_verified o = false
        ∧ OTPVerification.is_expired o = false
        ∧ OTPVerification.retry_count o = 0
        ∧ OTPVerification.expires_at o = now env + minutes 10
        ∧ is_Some (OTPVerification.patient_id o))
  ∧ patients db' = patients db
  ∧ visits db' = visits db
  ∧ queue_tickets db' = queue_tickets db
  ∧ ∃ response2 o2,
      (apiRouter.sms_checkin env2 db' request).2 = apiRouter.Ok response2
      ∧ apiRouter.sms_success response2 = true
      ∧ otp_verifications (apiRouter.sms_checkin env2 db' request).1
        = otp_verifications db' ++ [o2].
Proof.
  intros Hok Hsuccess Hday db'. subst db'. revert Hok.
  unfold apiRouter.sms_checkin.
  destruct (negb _) eqn:Hjoin; [intros [= <-]; done|].
  destruct (active_patient_by_phone db _) as [[k p]|] eqn:Hp;
    [|intros [= <-]; done].
  destruct (apiRouter.scheduled_visit db _ _) as [[j v]|] eqn:Hv;
    [|intros [= <-]; done].
  case_bool_decide as Hin; [intros [= <-]; done|]. intros _.
  cbn [fst snd otp_verifications patients visits queue_tickets
       with_otp_verifications].
  split; [eexists; split_and!; try reflexivity; by eexists|].
  split_and!; try done.
  unfold active_patient_by_phone, apiRouter.scheduled_visit in *.
  cbn [patients visits with_otp_verifications]. rewrite Hp, Hday, Hv.
  rewrite bool_decide_eq_false_2 by (intros Hne; by apply Hne). cbn. eauto.
Qed.

(** Ann has an appointment and texts JOIN twice. *)
Lemma sms_checkin_repeats_witness :
  let appointment :=
    Visit.mk 1 1 (Some 5) None Clinic.today None "" "scheduled" None None in
  let db := with_visits [appointment] 2 Clinic.morning in
  let join := schemas.mkSMSCheckinRequest "+1-555-1011" "Join" in
  let first := apiRouter.sms_checkin Clinic.env db join in
  let second := apiRouter.sms_checkin Clinic.env first.1 join in
  length (otp_verifications db) = 3%nat
  ∧ length (otp_verifications first.1) = 4%nat
  ∧ ∃ response2 o2, second.2 = apiRouter.Ok response2
                    ∧ apiRouter.sms_success response2 = true
                    ∧ otp_verifications second.1
                      = otp_verifications first.1 ++ [o2].
Proof.
  intros appointment db join first second.
  split; [done|]. split; [by vm_compute|].
  assert (Hok : first.2 = apiRouter.Ok
                  (apiRouter.mkSMSCheckinResponse true
                     "OTP sent to your phone. Please reply with the code."
                     true (Some 1))) by by vm_compute.
  by destruct (sms_checkin_repeats Clinic.env db join _ Clinic.env Hok eq_refl
                 eq_refl) as (_ & _ & _ & _ & Hagain).
Defined.

(** ** Codes by [send_otp] *)

(** Every number [random.randint(1000, 9999)] can give prints as four
    characters. *)
Lemma str_int_four_digits r :
  1000 ≤ r ≤ 9999 → String.length (str_int r) = 4%nat.
Proof.
  intros Hr.
  assert (forallb (λ n, Nat.eqb (String.length (str_int (1000 + Z.of_nat n))) 4)
                  (seq 0 (Z.to_nat 9000)) = true) as Hall by by vm_compute.
  rewrite forallb_forall in Hall.
  specialize (Hall (Z.to_nat (r - 1000))).
  replace (1000 + Z.of_nat (Z.to_nat (r - 1000))) with r in Hall by lia.
  apply Nat.eqb_eq, Hall, in_seq. lia.
Qed.

(** X14. A code issued by [send_otp] cannot check anybody in. For a phone
    number that fits the 20 characters of its column and has no row to
    reuse, [send_otp] stores the new row without a patient, so
    [verify_otp_and_checkin] with that phone number and code, before the
    code expires, fails with "Patient not found" and writes nothing; and
    the code has four digits, so the endpoint [verify_otp], whose schema
    asks for six, refuses the request before the database is read. *)
Theorem send_otp_code_cannot_check_in env db phone env2 request :
  apiRouter.existing_otp db phone = None →
  (String.length phone ≤ 20)%nat →
  1000 ≤ randint_1000_9999 env ≤ 9999 →
  schemas.phone_number request = phone →
  schemas.otp_code request = str_int (randint_1000_9999 env) →
  func_now env2 < now env + minutes 5 →
  let db' := (apiRouter.send_otp env db phone).1 in
  (∃ response, (apiRouter.send_otp env db phone).2 = apiRouter.Ok response
               ∧ apiRouter.os_otp_code response = schemas.otp_code request)
  ∧ crud.verify_otp_and_checkin env2 db' request
    = (db', (false, "Patient not found", None))
  ∧ apiRouter.verify_otp env2 db' request
    = (db', apiRouter.RequestValidationError).
Proof.
  intros Hnone Hfits Hrange Hphone Hcode Htime db'. subst db'.
  unfold apiRouter.send_otp. rewrite Hnone, (varchar_fits _ _ Hfits).
  cbn [fst snd]. split; [eexists; split; [done|]; by rewrite Hcode|].
  split.
  - unfold crud.verify_otp_and_checkin.
    match goal with
    | |- context [with_otp_verifications (_ ++ [?o]) ?s db] =>
        set (new := o); set (db' := with_otp_verifications _ s db)
    end.
    assert (crud.valid_otp env2 db' request
            = Some (length (otp_verifications db), new)) as ->.
    { unfold crud.valid_otp. cbn [otp_verifications db' with_otp_verifications].
      apply list_find_snoc_new.
      - unfold apiRouter.existing_otp in Hnone.
        apply list_find_None in Hnone.
        eapply Forall_impl; [exact Hnone|]. cbn.
        intros o Ho (Hp & _ & Hv & He & _). apply Ho. by rewrite Hp, Hphone.
      - subst new. cbn. by rewrite Hphone, Hcode. }
    rewrite bool_decide_eq_false_2 by (subst new; cbn; lia).
    assert (patient_by_id db' (OTPVerification.patient_id new) = None) as ->.
    { unfold patient_by_id. apply list_find_None, Forall_forall. done. }
    done.
  - unfold apiRouter.verify_otp, schemas.OTPVerifyRequest_validators,
      schemas.validate_otp_code.
    rewrite Hcode, (str_int_four_digits _ Hrange). cbn.
    by rewrite orb_true_r.
Qed.

(** A code for a new phone number, tried a minute later. *)
Lemma send_otp_code_cannot_check_in_witness :
  let later := mkEnv 1762250460 1762250460 1762250460 1000 "000000"
                 Clinic.render in
  let request :=
    schemas.mkOTPVerifyRequest "+1-555-2000" "4821" (Some 5) None "OTP" in
  let db' := (apiRouter.send_otp Clinic.env Clinic.morning "+1-555-2000").1 in
  OTPVerification.otp_code <$> otp_verifications db'
    = ["111111"; "222222"; "333333"; "4821"]
  ∧ crud.verify_otp_and_checkin later db' request
    = (db', (false, "Patient not found", None))
  ∧ apiRouter.verify_otp later db' request
    = (db', apiRouter.RequestValidationError).
Proof.
  intros later request db'. split; [by vm_compute|].
  destruct (send_otp_code_cannot_check_in Clinic.env Clinic.morning
              "+1-555-2000" later request) as (_ & Hcrud & Hrouter);
    try done; try by vm_compute.
  cbn. lia.
Defined.

(** ** One open visit per patient and day, over all endpoints *)

Lemma filter_insert_le {A : Type} (P : A → Prop) `{∀ x, Decision (P x)}
    (l : list A) j v v' :
  l !! j = Some v → (P v' → P v) →
  (length (filter P (<[j := v']> l)) ≤ length (filter P l))%nat.
Proof.
  revert j. induction l as [|x l IH]; intros [|j] Hj Himp; simplify_eq/=.
  - rewrite !filter_cons. repeat case_decide; cbn; try lia. tauto.
  - rewrite !filter_cons. specialize (IH j Hj Himp).
    case_decide; cbn; lia.
Qed.

Lemma one_open_visit_insert db db' j v v' :
  visits db !! j = Some v →
  visits db' = <[j := v']> (visits db) →
  same_visit v v' →
  (Visit.visit_status v' ∈ ["ACTIVE"; "WAITING"; "IN_PROGRESS"] →
   Visit.visit_status v ∈ ["ACTIVE"; "WAITING"; "IN_PROGRESS"]) →
  one_open_visit db → one_open_visit db'.
Proof.
  intros Hj Ev (_ & Hp & _ & _ & Hd & _) Hopen Hone patient d.
  unfold open_visits. rewrite Ev.
  etransitivity; [|apply (Hone patient d)].
  apply filter_insert_le with (v := v); [done|].
  rewrite Hp, Hd. intros (? & ? & ?). auto.
Qed.

(** X15. Apart from the QR check-in, the endpoints keep at most one open
    visit per patient and day: a check-in by OTP opens a visit only for a
    patient without one, completing closes a visit, and the status update
    and the two OTP endpoints write no visit. Starting keeps the invariant
    when the visit of the ticket is open already; it sets the visit to
    IN_PROGRESS whatever its status was. *)
Theorem one_open_visit_kept db call :
  one_open_visit db →
  match call.2 with
  | POST_checkin_qr _ => False
  | POST_appointments_start r =>
    ∀ i t j v,
      ticket_by_id db (schemas.asr_ticket_id r) = Some (i, t) →
      visit_by_id db (QueueTicket.visit_id t) = Some (j, v) →
      Visit.visit_status v ∈ ["ACTIVE"; "WAITING"; "IN_PROGRESS"]
  | _ => True
  end →
  one_open_visit (serve db call).
Proof.
  intros Hone Hcall.
  destruct call as [env [r|r|r|id status|phone|r|id]]; cbn [snd serve] in *.
  - unfold apiRouter.start_appointment, crud.start_appointment.
    destruct (ticket_by_id db _) as [[i t]|] eqn:Ht; [|done].
    case_bool_decide; cbn [negb]; [|done].
    destruct (visit_by_id db _) as [[j v]|] eqn:Hv; [|done].
    pose proof Hv as [Hj _]%visit_by_id_lookup.
    destruct (patient_by_id db _) as [[k p]|]; [|done].
    rewrite start_ticket_row, start_visit_row by done.
    eapply (one_open_visit_insert db _ j v);
      [exact Hj|cbn; reflexivity|done| |done].
    intros _. by eapply Hcall.
  - unfold apiRouter.verify_otp. destruct (negb _); [done|].
    pose proof (verify_otp_and_checkin_one_open_visit env db r Hone) as Hkept.
    by destruct (crud.verify_otp_and_checkin env db r) as [? [[[] ?] []]].
  - done.
  - unfold apiRouter.update_appointment_status.
    repeat case_match; try done; intros patient d; apply Hone.
  - unfold apiRouter.send_otp.
    repeat case_match; try done; intros patient d; apply Hone.
  - unfold apiRouter.sms_checkin.
    repeat case_match; try done; intros patient d; apply Hone.
  - unfold apiRouter.complete_appointment.
    destruct (ticket_by_id db _) as [[i t]|] eqn:Ht; [|done].
    destruct (complete_ticket_row env t) as [d ->].
    destruct (visit_by_id db _) as [[j v]|] eqn:Hv; [|done].
    pose proof Hv as [Hj _]%visit_by_id_lookup.
    destruct (complete_visit_row env v) as [d' ->].
    eapply (one_open_visit_insert db _ j v);
      [exact Hj|cbn; reflexivity|done| |done].
    cbn. intros Hin%in_list3. by destruct Hin as [|[|]].
Qed.

(** Ann and Bob check in by OTP; Ann's appointment is started. *)
Lemma one_open_visit_kept_witness :
  let db := run Clinic.morning [Clinic.verify Clinic.ann "111111";
                                Clinic.verify Clinic.bob "222222"] in
  let start :=
    (Clinic.env,
     POST_appointments_start (schemas.mkAppointmentStartRequest 1 None)) in
  Visit.visit_status <$> visits (serve db start) = ["IN_PROGRESS"; "ACTIVE"]
  ∧ one_open_visit (serve db start).
Proof.
  intros db start. split; [by vm_compute|].
  apply one_open_visit_kept.
  - change db with (serve (serve Clinic.morning
                             (Clinic.verify Clinic.ann "111111"))
                      (Clinic.verify Clinic.bob "222222")).
    apply one_open_visit_kept; [|done].
    apply one_open_visit_kept; [|done].
    intros patient d. cbn. lia.
  - cbn. intros i t j v Ht Hv. vm_compute in Ht. injection Ht as <- <-.
    vm_compute in Hv. injection Hv as <- <-. apply in_list3. by left.
Defined.

(** ** Positions stay in range *)

Lemma positions_in_range_insert l i t t' :
  l !! i = Some t → same_ticket t t' →
  positions_in_range l → positions_in_range (<[i := t']> l).
Proof.
  intros Hi (_ & _ & Hdate & Hpos & _) Hrange x Hx.
  rewrite (tickets_of_day_insert _ _ _ _ _ Hi Hdate).
  apply elem_of_insert_inv in Hx as [->|Hx]; [|by apply Hrange].
  rewrite Hdate, Hpos. apply Hrange. by eapply list_elem_of_lookup_2.
Qed.

Lemma queue_step_range db db' :
  queue_step db db' →
  positions_in_range (queue_tickets db) →
  positions_in_range (queue_tickets db').
Proof.
  intros Hstep Hrange.
  destruct Hstep as
    [_ _ Et _ _ _
    |i t t' Hi Hsame _ Et _ _ _ _ _
    |i t t' j v v' Hi _ _ Hsame _ _ _ _ Et _ _ _ _ _
    |reg v t _ _ _ Et _ _ _ _ _ _ _ _ Hpos _ _]; rewrite Et.
  - done.
  - by eapply positions_in_range_insert.
  - by eapply positions_in_range_insert.
  - intros x Hx. rewrite tickets_of_day_snoc.
    apply elem_of_app in Hx as [Hx|Hx%list_elem_of_singleton].
    + specialize (Hrange x Hx). lia.
    + subst x. rewrite decide_True by done.
      destruct Hpos as [Hpos|Hpos]; [|lia].
      destruct (max_position_active db (QueueTicket.queue_date t))
        as (Hnil & _ & Hmax).
      destruct (decide (active_tickets db (QueueTicket.queue_date t) = []))
        as [Hq|Hq].
      * rewrite Hpos, Hnil by done. lia.
      * destruct (Hmax Hq) as (t0 & [[Hd _] Ht0]%active_tickets_elem & Hm).
        specialize (Hrange t0 Ht0). rewrite Hd in Hrange. lia.
Qed.

(** X16. Positions stay in range whatever is requested. Start from an empty
    ticket table and serve any requests, status updates that reactivate a
    ticket included: every position is at least 1 and at most the number of
    tickets issued for its day. *)
Theorem positions_stay_in_range db calls :
  queue_tickets db = [] →
  ∀ t, t ∈ queue_tickets (run db calls) →
       1 ≤ QueueTicket.queue_position t
         ≤ Z.of_nat (length (tickets_of_day (queue_tickets (run db calls))
                               (QueueTicket.queue_date t))).
Proof.
  intros Hempty.
  assert (positions_in_range (queue_tickets db)) as Hdb.
  { rewrite Hempty. intros t Ht. by inversion Ht. }
  clear Hempty. revert db Hdb.
  induction calls as [|call calls IH]; intros db Hdb; [done|].
  rewrite run_cons. apply IH. eapply queue_step_range; [|done].
  apply serve_step.
Qed.

(** The run in which Ann's completed ticket is set back to WAITING: two
    tickets share position 1, and both positions are in range. *)
Lemma positions_stay_in_range_witness :
  let db := run Clinic.morning
              [Clinic.verify Clinic.ann "111111";
               Clinic.complete 1;
               Clinic.verify Clinic.bob "222222";
               (Clinic.env, PATCH_appointment_status 1 "WAITING")] in
  QueueTicket.queue_position <$> queue_tickets db = [1; 1]
  ∧ Forall (λ t, 1 ≤ QueueTicket.queue_position t ≤ 2) (queue_tickets db).
Proof.
  intros db. split; [by vm_compute|].
  apply Forall_forall. intros t Ht.
  pose proof (positions_stay_in_range Clinic.morning _ eq_refl t Ht) as Hrange.
  assert (length (tickets_of_day (queue_tickets db) (QueueTicket.queue_date t))
          ≤ 2)%nat as Hlen.
  { etransitivity; [apply length_filter|]. by vm_compute. }
  fold db in Hrange. lia.
Defined.

(** ** A phone number at the resend ceiling *)







(** ** Reading back an admission *)

Lemma doctor_by_id_stored db id :
  id ∈ Doctor.doctor_id <$> doctors db → is_Some (doctor_by_id db (Some id)).
Proof.
  intros (row & -> & Hrow)%list_elem_of_fmap.
  by apply (list_find_elem_of
              (λ d, Some (Doctor.doctor_id d) = Some (Doctor.doctor_id row))
              (doctors db) row).
Qed.

(** X18. What a check-in by OTP returns is what the status endpoint shows.
    On a database that satisfies the declared constraints, after
    [verify_otp_and_checkin] has admitted a patient for a doctor,
    [get_appointment_status] for the returned visit answers with that
    visit, status ACTIVE, on the UTC day of the check-in, and with the
    ticket in status WAITING at the returned position and estimate. When
    the request named no doctor it answers 404 "Doctor not found". *)
Theorem checkin_status_round_trip env db request d :
  consistent db →
  (crud.verify_otp_and_checkin env db request).2
    = (true, "Check-in successful", Some d) →
  let db' := (crud.verify_otp_and_checkin env db request).1 in
  match schemas.doctor_id request with
  | None =>
    get_appointment_status db' (crud.cd_visit_id d)
    = ReadHTTPException 404 "Doctor not found"
  | Some _ =>
    ∃ body, get_appointment_status db' (crud.cd_visit_id d) = ReadOk body
            ∧ as_visit_id body = crud.cd_visit_id d
            ∧ as_visit_date body = utc_today env
            ∧ as_visit_status body = "ACTIVE"
            ∧ as_queue_status body = Some "WAITING"
            ∧ as_queue_position body = crud.cd_queue_position d
            ∧ as_estimated_wait_time body = crud.cd_estimated_wait_time d
  end.
Proof.
  intros (_ & Hv & Ht & _) Hok db'.
  destruct (verify_otp_and_checkin_admits _ _ _ _ Hok)
    as (i & o & k & p & visit & ticket & _ & Hpatient & _ & Ep & Ev & Et
        & Vid & Vp & Vd & Vs & Vdoc & Tid & Tv & Ts & Ed & Hfk & ->).
  fold db' in Ep, Ev, Et, Ed. cbn [crud.cd_visit_id crud.cd_queue_position
    crud.cd_estimated_wait_time].
  assert (visit_by_id db' (visits_seq db) = Some (length (visits db), visit))
    as Hvisit.
  { unfold visit_by_id. rewrite Ev. apply list_find_snoc_new; [|done].
    apply Forall_forall. intros v Hin Heq. destruct (Hv v Hin) as [Hlt _]. lia. }
  assert (is_Some (patient_by_id db' (Some (Visit.patient_id visit))))
    as [[k' q] Hq].
  { apply patient_by_id_Some. exists p. split; [|done]. rewrite Ep.
    by apply patient_by_id_elem in Hpatient as [? _]. }
  assert (ticket_by_visit db' (Visit.visit_id visit)
          = Some (length (queue_tickets db), ticket)) as Hticket.
  { unfold ticket_by_visit. rewrite Et, Vid.
    apply list_find_snoc_new; [|done].
    apply Forall_forall. intros t Hin Heq.
    destruct (Ht t Hin) as [_ (v & Hvin & Hid)].
    destruct (Hv v Hvin) as [Hlt _]. lia. }
  unfold get_appointment_status. rewrite Hvisit, Hq, Vdoc.
  destruct (schemas.doctor_id request) as [doc|].
  - assert (is_Some (doctor_by_id db' (Some doc))) as [[n row] Hrow].
    { apply doctor_by_id_stored. rewrite Ed. unfold fk_doctor in Hfk.
      by apply bool_decide_eq_true_1 in Hfk. }
    rewrite Hrow, Hticket. eexists. split; [done|]. cbn.
    by rewrite Vid, Vd, Vs, Ts.
  - by rewrite doctor_by_id_None.
Qed.

(** Ann checks in for doctor 9 of Cardiology and reads her status. *)
Lemma checkin_status_round_trip_witness :
  let db := mkDb (patients Clinic.morning) (departments Clinic.morning)
              [Doctor.mk 9 (Some 5) true] [] []
              (otp_verifications Clinic.morning) 4 1 1 4 in
  let request :=
    schemas.mkOTPVerifyRequest "+1-555-1011" "111111" (Some 5) (Some 9) "OTP" in
  let out := crud.verify_otp_and_checkin Clinic.env db request in
  ∃ body, get_appointment_status out.1 1 = ReadOk body
          ∧ as_queue_status body = Some "WAITING"
          ∧ as_queue_position body = Some 1
          ∧ as_estimated_wait_time body = Some 0.
Proof.
  intros db request out.
  set (d := crud.mkCheckinData 1 1 (Some 1) (Some 1) (Some 0)).
  assert (Hok : out.2 = (true, "Check-in successful", Some d)) by by vm_compute.
  assert (Hdb : consistent db).
  { apply consistent_empty_queue; try done.
    - apply (bool_decide_eq_true_1 (NoDup _)). by vm_compute.
    - cbn. repeat constructor; cbn; lia. }
  destruct (checkin_status_round_trip Clinic.env db request d Hdb Hok)
    as (body & Hbody & _ & _ & _ & Hs & Hp & He).
  exists body. by split_and!.
Defined.
